(** * self-health-check: the check runner, the report format and its readers

    A shallow embedding of the JavaScript sources of the health-check
    skill: the runner ([health-check.js]), the logger, the trend parser
    ([analyze-trends.js]), the notifier and the check modules
    ([checks/config.js], [checks/dependencies.js], [checks/logs.js],
    [checks/syntax.js], [checks/git.js]).

    JavaScript strings are sequences of UTF-16 code units, and the regular
    expressions of the sources (none carries the [u] flag) work on code
    units, so strings are modelled as lists of code units. *)

From Stdlib Require Import List String Ascii NArith ZArith Lia Bool Arith.
Import ListNotations.

Set Implicit Arguments.

(* ===================================================================== *)
(** ** JavaScript strings                                                  *)
(* ===================================================================== *)

Module JS.

Definition codeunit := N.
Bind Scope N_scope with codeunit.
Definition jsstring := list codeunit.

(** *** Source literals: UTF-8 text of this file to UTF-16 code units *)

Fixpoint bytes_of (s : string) : list N :=
  match s with
  | EmptyString => []
  | String a s' => N_of_ascii a :: bytes_of s'
  end.

(** The six payload bits of a continuation byte. *)
Definition low6 (b : N) : N := N.land b 63.

Fixpoint utf8_points (bs : list N) : list N :=
  match bs with
  | [] => []
  | b0 :: r0 =>
      if (b0 <? 128)%N then b0 :: utf8_points r0
      else if (b0 <? 224)%N then
        match r0 with
        | b1 :: r1 => (N.shiftl (N.land b0 31) 6 + low6 b1)%N :: utf8_points r1
        | _ => []
        end
      else if (b0 <? 240)%N then
        match r0 with
        | b1 :: b2 :: r2 =>
            (N.shiftl (N.land b0 15) 12 + N.shiftl (low6 b1) 6 + low6 b2)%N
              :: utf8_points r2
        | _ => []
        end
      else
        match r0 with
        | b1 :: b2 :: b3 :: r3 =>
            (N.shiftl (N.land b0 7) 18 + N.shiftl (low6 b1) 12
             + N.shiftl (low6 b2) 6 + low6 b3)%N :: utf8_points r3
        | _ => []
        end
  end.

Definition utf16_units (p : N) : list codeunit :=
  if (p <? 65536)%N then [p]
  else let q := (p - 65536)%N in
       [(55296 + N.shiftr q 10)%N; (56320 + N.land q 1023)%N].

Definition js (s : string) : jsstring :=
  flat_map utf16_units (utf8_points (bytes_of s)).

(** *** Comparison, [startsWith], [endsWith], [includes] *)

Fixpoint eqb (a b : jsstring) : bool :=
  match a, b with
  | [], [] => true
  | x :: a', y :: b' => (x =? y)%N && eqb a' b'
  | _, _ => false
  end.

Fixpoint startsWith (pre s : jsstring) : bool :=
  match pre, s with
  | [], _ => true
  | x :: pre', y :: s' => (x =? y)%N && startsWith pre' s'
  | _ :: _, [] => false
  end.

Definition endsWith (suf s : jsstring) : bool :=
  startsWith (rev suf) (rev s).

Fixpoint includes (sub s : jsstring) : bool :=
  startsWith sub s ||
  match s with
  | [] => false
  | _ :: s' => includes sub s'
  end.

(** *** White space ([\s] and [trim] use the same set) *)

Definition isWhiteSpace (c : codeunit) : bool :=
  ((9 <=? c) && (c <=? 13) || (c =? 32) || (c =? 160) || (c =? 5760)
   || (8192 <=? c) && (c <=? 8202) || (c =? 8232) || (c =? 8233)
   || (c =? 8239) || (c =? 8287) || (c =? 12288) || (c =? 65279))%N.

Fixpoint trimStart (s : jsstring) : jsstring :=
  match s with
  | c :: s' => if isWhiteSpace c then trimStart s' else s
  | [] => []
  end.

Definition trimEnd (s : jsstring) : jsstring := rev (trimStart (rev s)).

Definition trim (s : jsstring) : jsstring := trimEnd (trimStart s).

(** *** Case mapping.  Only the letters a-z and A-Z are mapped: every string
    whose case the sources change is made of ASCII letters. *)

Definition upperUnit (c : codeunit) : codeunit :=
  if ((97 <=? c) && (c <=? 122))%N then (c - 32)%N else c.

Definition lowerUnit (c : codeunit) : codeunit :=
  if ((65 <=? c) && (c <=? 90))%N then (c + 32)%N else c.

Definition toUpperCase (s : jsstring) : jsstring := map upperUnit s.
Definition toLowerCase (s : jsstring) : jsstring := map lowerUnit s.

(** *** [join], [substring(0, n)], number rendering, [parseInt] *)

Fixpoint join (sep : jsstring) (l : list jsstring) : jsstring :=
  match l with
  | [] => []
  | [x] => x
  | x :: l' => x ++ sep ++ join sep l'
  end.

Definition substring0 (n : nat) (s : jsstring) : jsstring := firstn n s.

Fixpoint uint_units (d : Decimal.uint) : jsstring :=
  match d with
  | Decimal.Nil => []
  | Decimal.D0 d' => 48%N :: uint_units d'
  | Decimal.D1 d' => 49%N :: uint_units d'
  | Decimal.D2 d' => 50%N :: uint_units d'
  | Decimal.D3 d' => 51%N :: uint_units d'
  | Decimal.D4 d' => 52%N :: uint_units d'
  | Decimal.D5 d' => 53%N :: uint_units d'
  | Decimal.D6 d' => 54%N :: uint_units d'
  | Decimal.D7 d' => 55%N :: uint_units d'
  | Decimal.D8 d' => 56%N :: uint_units d'
  | Decimal.D9 d' => 57%N :: uint_units d'
  end.

(** A non-negative integer in a template literal: its decimal digits. *)
Definition numToString (n : N) : jsstring := uint_units (N.to_uint n).

Definition lengthToString (n : nat) : jsstring := numToString (N.of_nat n).

Definition isDigit (c : codeunit) : bool := ((48 <=? c) && (c <=? 57))%N.

Fixpoint digitsValue (acc : N) (s : jsstring) : N :=
  match s with
  | c :: s' => if isDigit c then digitsValue (acc * 10 + (c - 48))%N s' else acc
  | [] => acc
  end.

(** [parseInt(s)] in radix 10: leading white space, an optional sign, then
    the longest run of digits; [None] is NaN.  The value is the integer
    the digits spell, which is what the code computes up to 2^53; the
    rounding of longer runs is not modelled. *)
Definition parseInt (s : jsstring) : option Z :=
  let t := trimStart s in
  let '(neg, body) :=
    match t with
    | 45%N :: r => (true, r)
    | 43%N :: r => (false, r)
    | _ => (false, t)
    end in
  match body with
  | c :: _ =>
      if isDigit c
      then let v := Z.of_N (digitsValue 0%N body) in
           Some (if neg then (- v)%Z else v)
      else None
  | [] => None
  end.

(** Truthiness of a string: the empty string is falsy. *)
Definition truthy (s : jsstring) : bool :=
  match s with [] => false | _ => true end.

Definition truthyOpt (o : option jsstring) : bool :=
  match o with Some s => truthy s | None => false end.

(** The text of a capture group or of a field known to be there. *)
Definition text (o : option jsstring) : jsstring :=
  match o with Some s => s | None => [] end.

End JS.

Import JS.

(* ===================================================================== *)
(** ** Regular expressions                                                 *)
(* ===================================================================== *)

(** The regular expressions of the sources quantify single characters and
    character classes only, so the syntax below has repetition on a
    one-code-unit matcher; sequences, alternatives, numbered capture
    groups and the two anchors are general.  Matching is the backtracking
    search of ECMAScript, written in continuation-passing style. *)

Module Regex.

Inductive regex : Type :=
| Eps : regex
| Cls : (codeunit -> bool) -> regex
| Rep : bool -> nat -> option nat -> (codeunit -> bool) -> regex
| Seq : regex -> regex -> regex
| Alt : regex -> regex -> regex
| Grp : nat -> regex -> regex
| Bol : regex
| Eol : regex.

Definition captures := list (nat * jsstring).

Fixpoint capture (i : nat) (cs : captures) : option jsstring :=
  match cs with
  | [] => None
  | (j, s) :: cs' => if Nat.eqb i j then Some s else capture i cs'
  end.

Section Matcher.
Variable A : Type.

Definition cont := nat -> jsstring -> captures -> option A.

Definition allows (max : option nat) : bool :=
  match max with Some O => false | _ => true end.

Definition less (max : option nat) : option nat :=
  match max with Some m => Some (Nat.pred m) | None => None end.

(** [p{min,max}], greedy: take one more first, give back on failure. *)
Fixpoint repGreedy (p : codeunit -> bool) (min : nat) (max : option nat)
    (pos : nat) (s : jsstring) (cs : captures) (k : cont) : option A :=
  let stop := match min with O => k pos s cs | S _ => None end in
  match s with
  | c :: s' =>
      if p c && allows max
      then match repGreedy p (Nat.pred min) (less max) (S pos) s' cs k with
           | Some r => Some r
           | None => stop
           end
      else stop
  | [] => stop
  end.

(** [p{min,max}?], lazy: stop as soon as allowed, take more on failure. *)
Fixpoint repLazy (p : codeunit -> bool) (min : nat) (max : option nat)
    (pos : nat) (s : jsstring) (cs : captures) (k : cont) : option A :=
  let more :=
    match s with
    | c :: s' =>
        if p c && allows max
        then repLazy p (Nat.pred min) (less max) (S pos) s' cs k
        else None
    | [] => None
    end in
  match min with
  | O => match k pos s cs with
         | Some r => Some r
         | None => more
         end
  | S _ => more
  end.

Fixpoint run (r : regex) (pos : nat) (s : jsstring) (cs : captures)
    (k : cont) : option A :=
  match r with
  | Eps => k pos s cs
  | Cls p =>
      match s with
      | c :: s' => if p c then k (S pos) s' cs else None
      | [] => None
      end
  | Rep greedy min max p =>
      if greedy then repGreedy p min max pos s cs k
      else repLazy p min max pos s cs k
  | Seq r1 r2 => run r1 pos s cs (fun pos' s' cs' => run r2 pos' s' cs' k)
  | Alt r1 r2 =>
      match run r1 pos s cs k with
      | Some x => Some x
      | None => run r2 pos s cs k
      end
  | Grp i r1 =>
      run r1 pos s cs
        (fun pos' s' cs' => k pos' s' ((i, firstn (pos' - pos) s) :: cs'))
  | Bol => if Nat.eqb pos 0 then k pos s cs else None
  | Eol => match s with [] => k pos s cs | _ => None end
  end.

End Matcher.

(** A successful match: where it starts, the matched text ([m[0]]) and the
    capture groups ([m[1]], [m[2]], ...). *)
Record result := { index : nat; matched : jsstring; groups : captures }.

Definition group (i : nat) (m : result) : option jsstring :=
  capture i (groups m).

(** The match that starts at position [pos], where [s] is the rest of the
    subject from there. *)
Definition matchAt (r : regex) (pos : nat) (s : jsstring) : option result :=
  run r pos s []
    (fun pos' _ cs =>
       Some {| index := pos; matched := firstn (pos' - pos) s; groups := cs |}).

(** [s.match(r)] and [r.exec(s)] without the [g] flag: the leftmost match. *)
Fixpoint searchFrom (r : regex) (pos : nat) (s : jsstring) : option result :=
  match matchAt r pos s with
  | Some m => Some m
  | None =>
      match s with
      | _ :: s' => searchFrom r (S pos) s'
      | [] => None
      end
  end.

Definition exec (r : regex) (s : jsstring) : option result := searchFrom r 0 s.

Definition test (r : regex) (s : jsstring) : bool :=
  match exec r s with Some _ => true | None => false end.

(** [s.split(r)] for a separator without capture groups that never matches
    the empty string.  [skip] counts the code units of the separator still
    to be dropped and [piece] holds the current piece, reversed. *)
Fixpoint splitFrom (r : regex) (piece : jsstring) (skip : nat) (pos : nat)
    (s : jsstring) : list jsstring :=
  match s with
  | [] => [rev piece]
  | c :: s' =>
      match skip with
      | S n => splitFrom r piece n (S pos) s'
      | O =>
          match matchAt r pos s with
          | Some m =>
              match List.length (matched m) with
              | S n => rev piece :: splitFrom r [] n (S pos) s'
              | O => splitFrom r (c :: piece) 0 (S pos) s'
              end
          | None => splitFrom r (c :: piece) 0 (S pos) s'
          end
      end
  end.

Definition split (r : regex) (s : jsstring) : list jsstring :=
  splitFrom r [] 0 0 s.

(** *** Building blocks *)

Definition chr (c : codeunit) : codeunit -> bool := fun x => (x =? c)%N.

(** A letter of a pattern under the [i] flag. *)
Definition chrCI (c : codeunit) : codeunit -> bool :=
  fun x => (upperUnit x =? upperUnit c)%N.

Definition range (lo hi : codeunit) : codeunit -> bool :=
  fun x => ((lo <=? x) && (x <=? hi))%N.

Definition oneOf (l : jsstring) : codeunit -> bool :=
  fun x => existsb (N.eqb x) l.

Definition either (p q : codeunit -> bool) : codeunit -> bool :=
  fun x => p x || q x.

Definition notIn (p : codeunit -> bool) : codeunit -> bool :=
  fun x => negb (p x).

(** [\d], [\s], [\w], [.] and [[\s\S]] *)
Definition digit : codeunit -> bool := isDigit.
Definition space : codeunit -> bool := isWhiteSpace.
Definition word : codeunit -> bool :=
  either (range 97 122) (either (range 65 90) (either (range 48 57) (chr 95))).
Definition dot : codeunit -> bool :=
  notIn (oneOf [10; 13; 8232; 8233]%N).
Definition anyUnit : codeunit -> bool := fun _ => true.

Fixpoint seqs (l : list regex) : regex :=
  match l with
  | [] => Eps
  | [r] => r
  | r :: l' => Seq r (seqs l')
  end.

Fixpoint alts (l : list regex) : regex :=
  match l with
  | [] => Eps
  | [r] => r
  | r :: l' => Alt r (alts l')
  end.

(** A literal run of characters, case-sensitive and under the [i] flag. *)
Definition lit (s : jsstring) : regex := seqs (map (fun c => Cls (chr c)) s).
Definition litCI (s : jsstring) : regex := seqs (map (fun c => Cls (chrCI c)) s).

Definition plus (p : codeunit -> bool) : regex := Rep true 1 None p.
Definition star (p : codeunit -> bool) : regex := Rep true 0 None p.
Definition plusLazy (p : codeunit -> bool) : regex := Rep false 1 None p.
Definition opt (p : codeunit -> bool) : regex := Rep true 0 (Some 1) p.
Definition exactly (n : nat) (p : codeunit -> bool) : regex := Rep true n (Some n) p.
Definition atLeast (n : nat) (p : codeunit -> bool) : regex := Rep true n None p.

(** [s.split(sep)] for a non-empty literal separator. *)
Definition splitOn (sep : jsstring) (s : jsstring) : list jsstring :=
  split (lit sep) s.

End Regex.

Import Regex.

Definition LF : jsstring := [10%N].
Definition QUOTE : jsstring := [34%N].

(** A signed integer in a template literal. *)
Definition intToString (z : Z) : jsstring :=
  if (z <? 0)%Z then js "-" ++ numToString (Z.abs_N z)
  else numToString (Z.to_N z).

(* ===================================================================== *)
(** ** Exceptions, child processes, the file system                        *)
(* ===================================================================== *)

Module Effect.

(** The two values that have no properties. *)
Inductive Nullish := Null | Undefined.

(** A thrown value: the handlers of the sources read [error.message] (and
    the runner [error.stack]) from it, which is a TypeError of its own on
    [null] and [undefined]. *)
Inductive Thrown :=
| ThrownValue (msg : option jsstring) (stk : option jsstring)
| ThrownNullish (which : Nullish).

(** An awaited call: the value it resolves to, or what it throws. *)
Inductive Outcome (A : Type) :=
| Returned (a : A)
| Threw (e : Thrown).
Arguments Returned {A} a.
Arguments Threw {A} e.

Definition bind {A B} (c : Outcome A) (k : A -> Outcome B) : Outcome B :=
  match c with
  | Returned a => k a
  | Threw e => Threw e
  end.

(** [try { c } catch (error) { handler }] *)
Definition catch {A} (c : Outcome A) (handler : Thrown -> Outcome A)
    : Outcome A :=
  match c with
  | Returned a => Returned a
  | Threw e => handler e
  end.

(** [new Error(text)] *)
Definition newError (text : jsstring) : Thrown := ThrownValue (Some text) None.

(** The TypeError of reading property [prop] of an undefined value, with
    the text V8 gives it. *)
Definition typeError (prop : jsstring) : Thrown :=
  newError (js "Cannot read properties of undefined (reading '" ++ prop
            ++ js "')").

(** The TypeError of reading property [prop] of [null] or of [undefined]. *)
Definition typeErrorOn (which : Nullish) (prop : jsstring) : Thrown :=
  match which with
  | Null =>
      newError (js "Cannot read properties of null (reading '" ++ prop
                ++ js "')")
  | Undefined => typeError prop
  end.

(** The ReferenceError of evaluating an identifier no scope binds. *)
Definition referenceError (ident : jsstring) : Thrown :=
  newError (ident ++ js " is not defined").

(** [error.message] inside a handler. *)
Definition messageOf (e : Thrown) : Outcome (option jsstring) :=
  match e with
  | ThrownValue msg _ => Returned msg
  | ThrownNullish which => Threw (typeErrorOn which (js "message"))
  end.

(** What [spawn(command, args, ...)] leads to: the child closes with an
    exit code ([None] when a signal ended it) after writing to its two
    pipes; or it emits [error] because it could not be started; or [spawn]
    itself throws an Error, on an argument it refuses. *)
Inductive Process :=
| Closed (code : option Z) (stdout stderr : jsstring)
| ErrorEvent (msg : jsstring)
| Refused (msg : jsstring).

Definition Spawn := jsstring -> list jsstring -> Process.

Record FileSystem := {
  existsSync : jsstring -> bool;
  readFile : jsstring -> Outcome jsstring;
  readdir : jsstring -> Outcome (list jsstring)
}.

(** [path.join(dir, rel)] for a normalised directory and a relative path
    without dot segments. *)
Definition pathJoin (dir rel : jsstring) : jsstring :=
  if endsWith (js "/") dir then dir ++ rel else dir ++ js "/" ++ rel.

(** [path.basename(p)] *)
Definition basename (p : jsstring) : jsstring :=
  last (Regex.splitOn (js "/") p) [].

(** [array.slice(-n)] *)
Definition lastN {A} (n : nat) (l : list A) : list A :=
  skipn (List.length l - n) l.

(** [array.sort(compare)], a stable sort; [positive a b] is
    [compare(a, b) > 0]. *)
Section Sort.
Variable A : Type.
Variable positive : A -> A -> bool.

Fixpoint insertSorted (x : A) (l : list A) : list A :=
  match l with
  | [] => [x]
  | y :: l' => if positive x y then y :: insertSorted x l' else x :: y :: l'
  end.

Definition sort (l : list A) : list A := fold_right insertSorted [] l.
End Sort.

End Effect.

Import Effect.

Declare Scope outcome_scope.
Notation "x <- c ;; k" := (bind c (fun x => k))
  (at level 61, c at next level, right associativity) : outcome_scope.

(* ===================================================================== *)
(** ** The runner: [health-check.js]                                       *)
(* ===================================================================== *)

Module Runner.

Record Detail := { d_status : jsstring; d_message : jsstring }.

(** What a check function resolves to: an object that carries any subset
    of the fields of a check result.  A field that is present holds a value
    of its documented type. *)
Record PartialResult := {
  p_name : option jsstring;
  p_status : option jsstring;
  p_duration : option Z;
  p_message : option jsstring;
  p_details : option (list Detail);
  p_error : option jsstring;
  p_stack : option jsstring;
  p_fix : option (list jsstring)
}.

Record CheckResult := {
  name : jsstring;
  status : jsstring;
  duration : Z;
  message : option jsstring;
  details : option (list Detail);
  error : option jsstring;
  stack : option jsstring;
  fix_ : option (list jsstring)
}.

Definition orElse {A} (o : option A) (d : A) : A :=
  match o with Some a => a | None => d end.

Definition orKeep {A} (o d : option A) : option A :=
  match o with Some a => Some a | None => d end.

(** [{ ...base, ...result }]: the own fields of [result] replace those of
    [base]. *)
Definition spread (base : CheckResult) (result : PartialResult) : CheckResult :=
  {| name := orElse (p_name result) (name base);
     status := orElse (p_status result) (status base);
     duration := orElse (p_duration result) (duration base);
     message := orKeep (p_message result) (message base);
     details := orKeep (p_details result) (details base);
     error := orKeep (p_error result) (error base);
     stack := orKeep (p_stack result) (stack base);
     fix_ := orKeep (p_fix result) (fix_ base) |}.

Section RunCheck.
(** The module's [CONFIG.clawdRoot] and the two readings of [Date.now()]. *)
Variable Options : Type.
Variable clawdRoot : jsstring.
Variables startTime endTime : Z.

Definition CheckFn := jsstring -> Options -> Outcome PartialResult.

Definition runCheck (checkName : jsstring) (checkFn : CheckFn)
    (options : Options) : Outcome CheckResult :=
  match checkFn clawdRoot options with
  | Returned result =>
      let duration := (endTime - startTime)%Z in
      Returned
        (spread
           {| name := checkName;
              status := if truthyOpt (p_status result)
                        then orElse (p_status result) []
                        else js "unknown";
              duration := duration;
              message := None; details := None; error := None;
              stack := None; fix_ := None |}
           result)
  | Threw error =>
      let duration := (endTime - startTime)%Z in
      match error with
      | ThrownValue msg stk =>
          Returned
            {| name := checkName;
               status := js "error";
               duration := duration;
               message := None; details := None;
               error := msg;
               stack := stk;
               fix_ := None |}
      | ThrownNullish which => Threw (typeErrorOn which (js "message"))
      end
  end.

End RunCheck.

Record Summary := {
  total : nat;
  passed : nat;
  warnings : nat;
  failed : nat;
  errors : nat;
  overallStatus : jsstring;
  timestamp : jsstring
}.

Definition hasStatus (s : jsstring) (r : CheckResult) : bool :=
  JS.eqb (status r) s.

(** [generateSummary(results)]; [now] is [new Date().toISOString()]. *)
Definition generateSummary (now : jsstring) (results : list CheckResult)
    : Summary :=
  let total := List.length results in
  let passed := List.length (filter (hasStatus (js "pass")) results) in
  let warnings := List.length (filter (hasStatus (js "warning")) results) in
  let failed := List.length (filter (hasStatus (js "fail")) results) in
  let errors := List.length (filter (hasStatus (js "error")) results) in
  let overallStatus :=
    if (0 <? errors) || (0 <? failed) then js "fail"
    else if 0 <? warnings then js "warning"
    else js "pass" in
  {| total := total; passed := passed; warnings := warnings;
     failed := failed; errors := errors; overallStatus := overallStatus;
     timestamp := now |}.

(** What an object literal inherits from [Object.prototype], as the text
    a template literal makes of it: the functions print as native code,
    and [__proto__] is the prototype itself. *)
Definition nativeCode (name : jsstring) : jsstring :=
  js "function " ++ name ++ js "() { [native code] }".

Definition inherited (key : jsstring) : option jsstring :=
  if JS.eqb key (js "constructor") then Some (nativeCode (js "Object"))
  else if JS.eqb key (js "__proto__") then Some (js "[object Object]")
  else if existsb (JS.eqb key)
            [js "hasOwnProperty"; js "isPrototypeOf";
             js "propertyIsEnumerable"; js "toLocaleString"; js "toString";
             js "valueOf"; js "__defineGetter__"; js "__defineSetter__";
             js "__lookupGetter__"; js "__lookupSetter__"]
  then Some (nativeCode key)
  else None.

(** [statusEmoji[key]]: the own keys of the object, then the inherited
    ones. *)
Definition statusEmoji (key : jsstring) : option jsstring :=
  if JS.eqb key (js "pass") then Some (js "✅")
  else if JS.eqb key (js "warning") then Some (js "⚠️")
  else if JS.eqb key (js "fail") then Some (js "❌")
  else if JS.eqb key (js "error") then Some (js "💥")
  else if JS.eqb key (js "unknown") then Some (js "❓")
  else inherited key.

(** A possibly undefined string in a template literal. *)
Definition interpolate (o : option jsstring) : jsstring :=
  orElse o (js "undefined").

Definition detailLine (detail : Detail) : jsstring :=
  let detailEmoji :=
    if JS.eqb (d_status detail) (js "pass") then js "✓" else js "✗" in
  js "   " ++ detailEmoji ++ js " " ++ d_message detail.

Definition resultLines (result : CheckResult) : list jsstring :=
  let emoji := orElse (statusEmoji (status result)) (js "❓") in
  [emoji ++ js " " ++ name result ++ js " ["
     ++ intToString (duration result) ++ js "ms]"]
  ++ (if truthyOpt (message result)
      then [js "   " ++ orElse (message result) []] else [])
  ++ match details result with
     | Some (d :: ds) => map detailLine (d :: ds)
     | _ => []
     end
  ++ (if truthyOpt (error result)
      then [js "   Error: " ++ orElse (error result) []] else [])
  ++ match fix_ result with
     | Some (f :: fs) =>
         js "   💡 Suggested fix:" :: map (fun f => js "      - " ++ f) (f :: fs)
     | _ => []
     end
  ++ [[]].

(** [formatResults(results, summary)]; [localTime] is the text of
    [new Date().toLocaleString('zh-CN', ...)]. *)
Definition formatResults (localTime : jsstring) (results : list CheckResult)
    (summary : Summary) : jsstring :=
  let lines :=
    [js "🏥 Clawdbot Health Check Report";
     js "📅 " ++ localTime;
     js "📊 Overall Status: "
       ++ interpolate (statusEmoji (overallStatus summary)) ++ js " "
       ++ toUpperCase (overallStatus summary);
     [];
     js "## Summary";
     js "Total Checks: " ++ lengthToString (total summary);
     js "✅ Passed: " ++ lengthToString (passed summary);
     js "⚠️  Warnings: " ++ lengthToString (warnings summary);
     js "❌ Failed: " ++ lengthToString (failed summary);
     js "💥 Errors: " ++ lengthToString (errors summary);
     [];
     js "## Details"]
    ++ flat_map resultLines results in
  join LF lines.

End Runner.

(* ===================================================================== *)
(** ** The logger: [lib/logger.js]                                         *)
(* ===================================================================== *)

Module Logger.

Definition separator : jsstring := repeat 61%N 60.

(** The block [append] adds to the log file; [timestamp] is
    [new Date().toISOString()]. *)
Definition logEntry (timestamp content : jsstring) : jsstring :=
  separator ++ LF ++ js "📅 " ++ timestamp ++ LF ++ separator ++ LF
    ++ content ++ LF ++ LF.

(** [append(logPath, content)] on the text the file holds. *)
Definition append (timestamp : jsstring) (file : jsstring)
    (content : jsstring) : jsstring :=
  file ++ logEntry timestamp content.

End Logger.

(* ===================================================================== *)
(** ** The trend parser: [analyze-trends.js]                               *)
(* ===================================================================== *)

Module Trends.

Record TrendSummary := {
  total : Z;
  passed : Z;
  warnings : Z;
  failed : Z;
  errors : Z;
  overallStatus : jsstring
}.

Record TrendCheck := {
  name : jsstring;
  status : jsstring;
  duration : option Z
}.

(** [timestamp] is the text handed to [new Date(...)]. *)
Record TrendEntry := {
  timestamp : jsstring;
  summary : TrendSummary;
  checks : list TrendCheck
}.

(** [/={60}\n📅 /] *)
Definition entrySeparator : regex :=
  seqs [exactly 60 (chr 61); lit (LF ++ js "📅 ")].

(** [/^([\d-]+T[\d:]+.[\d:]+)\n/] *)
Definition timestampRe : regex :=
  seqs [Bol;
        Grp 1 (seqs [plus (either digit (chr 45)); lit (js "T");
                     plus (either digit (chr 58)); Cls dot;
                     plus (either digit (chr 58))]);
        lit LF].

(** [/## Summary\n([\s\S]+?)##/] *)
Definition summaryRe : regex :=
  seqs [lit (js "## Summary" ++ LF); Grp 1 (plusLazy anyUnit); lit (js "##")].

(** [/(Total|Passed|Warnings|Failed|Errors|Overall):\s*(:?\d+|✅|⚠️|❌|💥|PASS|WARNING|FAIL|ERROR|UNKNOWN)/i] *)
Definition summaryLineRe : regex :=
  seqs [Grp 1 (alts [litCI (js "Total"); litCI (js "Passed");
                     litCI (js "Warnings"); litCI (js "Failed");
                     litCI (js "Errors"); litCI (js "Overall")]);
        lit (js ":");
        star space;
        Grp 2 (alts [Seq (opt (chr 58)) (plus digit);
                     litCI (js "✅"); litCI (js "⚠️"); litCI (js "❌");
                     litCI (js "💥"); litCI (js "PASS"); litCI (js "WARNING");
                     litCI (js "FAIL"); litCI (js "ERROR");
                     litCI (js "UNKNOWN")])].

(** [/## Details\n([\s\S]+)$/] *)
Definition detailsRe : regex :=
  seqs [lit (js "## Details" ++ LF); Grp 1 (plus anyUnit); Eol].

(** [/([✅⚠️❌💥❓])\s+(.+?)\s+\[(\d+)ms\]/]: without the [u] flag the class
    holds the code units of the five emoji, one of which it matches. *)
Definition checkLineRe : regex :=
  seqs [Grp 1 (Cls (oneOf (js "✅⚠️❌💥❓")));
        plus space;
        Grp 2 (plusLazy dot);
        plus space;
        lit (js "[");
        Grp 3 (plus digit);
        lit (js "ms]")].

(** [parseInt(value) || 0] *)
Definition parseIntOr0 (value : jsstring) : Z :=
  match parseInt value with Some n => n | None => 0%Z end.

Definition setCount (key : jsstring) (n : Z) (s : TrendSummary) : TrendSummary :=
  if JS.eqb key (js "total") then
    {| total := n; passed := passed s; warnings := warnings s;
       failed := failed s; errors := errors s; overallStatus := overallStatus s |}
  else if JS.eqb key (js "passed") then
    {| total := total s; passed := n; warnings := warnings s;
       failed := failed s; errors := errors s; overallStatus := overallStatus s |}
  else if JS.eqb key (js "warnings") then
    {| total := total s; passed := passed s; warnings := n;
       failed := failed s; errors := errors s; overallStatus := overallStatus s |}
  else if JS.eqb key (js "failed") then
    {| total := total s; passed := passed s; warnings := warnings s;
       failed := n; errors := errors s; overallStatus := overallStatus s |}
  else if JS.eqb key (js "errors") then
    {| total := total s; passed := passed s; warnings := warnings s;
       failed := failed s; errors := n; overallStatus := overallStatus s |}
  else s.

Definition setOverall (st : jsstring) (s : TrendSummary) : TrendSummary :=
  {| total := total s; passed := passed s; warnings := warnings s;
     failed := failed s; errors := errors s; overallStatus := st |}.

Definition summaryLine (s : TrendSummary) (line : jsstring) : TrendSummary :=
  match exec summaryLineRe line with
  | Some m =>
      let key := toLowerCase (text (group 1 m)) in
      let value := text (group 2 m) in
      if JS.eqb key (js "overall") then
        if includes (js "✅") value || includes (js "PASS") value
        then setOverall (js "pass") s
        else if includes (js "⚠️") value || includes (js "WARNING") value
        then setOverall (js "warning") s
        else if includes (js "❌") value || includes (js "FAIL") value
        then setOverall (js "fail") s
        else if includes (js "💥") value || includes (js "ERROR") value
        then setOverall (js "error") s
        else s
      else setCount key (parseIntOr0 value) s
  | None => s
  end.

Definition emptySummary : TrendSummary :=
  {| total := 0; passed := 0; warnings := 0; failed := 0; errors := 0;
     overallStatus := js "unknown" |}.

Definition checkOfLine (line : jsstring) : list TrendCheck :=
  match exec checkLineRe line with
  | Some m =>
      let emoji := text (group 1 m) in
      let status :=
        if JS.eqb emoji (js "✅") then js "pass"
        else if JS.eqb emoji (js "⚠️") then js "warning"
        else if JS.eqb emoji (js "❌") then js "fail"
        else if JS.eqb emoji (js "💥") then js "error"
        else js "unknown" in
      [{| name := trim (text (group 2 m));
          status := status;
          duration := parseInt (text (group 3 m)) |}]
  | None => []
  end.

(** The body of the loop over the raw entries: [None] is [continue]. *)
Definition parseEntry (entry : jsstring) : option TrendEntry :=
  if negb (truthy (trim entry)) then None else
  match exec timestampRe entry with
  | None => None
  | Some timestampMatch =>
      match exec summaryRe entry with
      | None => None
      | Some summaryMatch =>
          let summaryLines := splitOn LF (trim (text (group 1 summaryMatch))) in
          let summary := fold_left summaryLine summaryLines emptySummary in
          let checks :=
            match exec detailsRe entry with
            | Some detailsMatch =>
                flat_map checkOfLine (splitOn LF (text (group 1 detailsMatch)))
            | None => []
            end in
          Some {| timestamp := text (group 1 timestampMatch);
                  summary := summary;
                  checks := checks |}
      end
  end.

Section Sorting.
(** The time value of [new Date(text)]; [None] is an invalid date. *)
Variable dateValue : jsstring -> option Z.

(** [a.timestamp - b.timestamp > 0]; a NaN difference counts as equal. *)
Definition after (a b : TrendEntry) : bool :=
  match dateValue (timestamp a), dateValue (timestamp b) with
  | Some x, Some y => (0 <? x - y)%Z
  | _, _ => false
  end.

(** [entries.sort((a, b) => a.timestamp - b.timestamp)] *)
Definition sortByTimestamp (l : list TrendEntry) : list TrendEntry :=
  Effect.sort after l.

Definition parseHealthCheckLog (content : jsstring) : list TrendEntry :=
  let rawEntries := split entrySeparator content in
  let entries :=
    flat_map (fun entry => match parseEntry entry with
                           | Some e => [e]
                           | None => []
                           end) rawEntries in
  sortByTimestamp entries.

End Sorting.

End Trends.

Local Open Scope outcome_scope.

(* ===================================================================== *)
(** ** The config check: [checks/config.js]                                *)
(* ===================================================================== *)

Module ConfigCheck.
Import Runner.

Definition REQUIRED_ENV_VARS : list jsstring :=
  [js "NOTION_API_KEY";
   js "NOTION_DISCUSSION_DATABASE_ID";
   js "NOTION_DAILY_REPORT_DATABASE_ID";
   js "TELEGRAM_BOT_TOKEN";
   js "TELEGRAM_DISCUSSION_GROUP_ID";
   js "TELEGRAM_DAILY_REPORT_GROUP_ID"].

Definition OPTIONAL_ENV_VARS : list jsstring :=
  [js "TELEGRAM_GENERAL_GROUP_ID";
   js "NOTION_MEETING_DATABASE_ID"].

(** [lines.find(l => l.startsWith(`${varName}=`) || l.startsWith(`${varName} `))] *)
Definition findLine (lines : list jsstring) (varName : jsstring)
    : option jsstring :=
  find (fun l => startsWith (varName ++ js "=") l
                 || startsWith (varName ++ js " ") l) lines.

(** The arrays the loop over the required variables fills. *)
Record Vars := {
  definedVars : list jsstring;
  emptyVars : list jsstring;
  missingVars : list jsstring;
  issues : list jsstring;
  fixes : list jsstring
}.

Definition noVars : Vars :=
  {| definedVars := []; emptyVars := []; missingVars := [];
     issues := []; fixes := [] |}.

(** One turn of the loop.  [line.split('=')[1]] is undefined for a line
    without [=], and calling [trim] on it throws. *)
Definition requiredStep (lines : list jsstring) (v : Vars)
    (varName : jsstring) : Outcome Vars :=
  match findLine lines varName with
  | None =>
      Returned
        {| definedVars := definedVars v;
           emptyVars := emptyVars v;
           missingVars := missingVars v ++ [varName];
           issues := issues v ++ [js "Missing required variable: " ++ varName];
           fixes := fixes v ++ [js "Add " ++ varName ++ js "=your_value to .env"] |}
  | Some line =>
      match nth_error (splitOn (js "=") line) 1 with
      | None => Threw (typeError (js "trim"))
      | Some value =>
          if JS.eqb (trim value) []
          then Returned
                 {| definedVars := definedVars v;
                    emptyVars := emptyVars v ++ [varName];
                    missingVars := missingVars v;
                    issues := issues v ++ [js "Empty value for: " ++ varName];
                    fixes := fixes v
                      ++ [js "Set a value for " ++ varName ++ js " in .env"] |}
          else Returned
                 {| definedVars := definedVars v ++ [varName];
                    emptyVars := emptyVars v;
                    missingVars := missingVars v;
                    issues := issues v;
                    fixes := fixes v |}
      end
  end.

Fixpoint requiredLoop (lines : list jsstring) (vars : list jsstring)
    (v : Vars) : Outcome Vars :=
  match vars with
  | [] => Returned v
  | varName :: rest =>
      v' <- requiredStep lines v varName ;;
      requiredLoop lines rest v'
  end.

Definition missingOptionalOf (lines : list jsstring) : list jsstring :=
  filter (fun varName => match findLine lines varName with
                         | None => true
                         | Some _ => false
                         end) OPTIONAL_ENV_VARS.

(** [/your_token_here|your_api_key|replace_with/i] and
    [/secret|password|token|key/i] with their names. *)
Definition suspiciousPatterns : list (regex * jsstring) :=
  [(alts [litCI (js "your_token_here"); litCI (js "your_api_key");
          litCI (js "replace_with")], js "placeholder value");
   (alts [litCI (js "secret"); litCI (js "password"); litCI (js "token");
          litCI (js "key")], js "potential secret in env")].

Definition suspiciousDetails (content : jsstring) : list Detail :=
  flat_map (fun '(pattern, name) =>
              match exec pattern content with
              | Some m => [{| d_status := js "warning";
                              d_message := js "Found " ++ name ++ js ": "
                                             ++ matched m |}]
              | None => []
              end) suspiciousPatterns.

Definition whenNonEmpty (l : list jsstring) (d : Detail) : list Detail :=
  match l with [] => [] | _ => [d] end.

Definition countOf (l : list jsstring) : jsstring :=
  lengthToString (List.length l).

Definition detailsOf (v : Vars) (missingOptional : list jsstring)
    (content : jsstring) : list Detail :=
  [{| d_status := js "pass";
      d_message := js "Found " ++ countOf (definedVars v) ++ js "/"
                     ++ countOf REQUIRED_ENV_VARS ++ js " required variables" |}]
  ++ whenNonEmpty (definedVars v)
       {| d_status := js "pass";
          d_message := js "Defined: " ++ join (js ", ") (definedVars v) |}
  ++ whenNonEmpty (missingVars v)
       {| d_status := js "fail";
          d_message := js "Missing: " ++ join (js ", ") (missingVars v) |}
  ++ whenNonEmpty (emptyVars v)
       {| d_status := js "fail";
          d_message := js "Empty values: " ++ join (js ", ") (emptyVars v) |}
  ++ whenNonEmpty missingOptional
       {| d_status := js "warning";
          d_message := js "Optional not set: " ++ join (js ", ") missingOptional |}
  ++ suspiciousDetails content.

Definition statusOf (v : Vars) (missingOptional : list jsstring) : jsstring :=
  if (0 <? List.length (missingVars v)) || (0 <? List.length (emptyVars v))
  then js "fail"
  else if 0 <? List.length missingOptional then js "warning"
  else js "pass".

Definition emptyResult : PartialResult :=
  {| p_name := None; p_status := None; p_duration := None;
     p_message := None; p_details := None; p_error := None;
     p_stack := None; p_fix := None |}.

(** The body of the [try] once the file is known to exist. *)
Definition checkContent (content : jsstring) : Outcome PartialResult :=
  let lines := splitOn LF content in
  v <- requiredLoop lines REQUIRED_ENV_VARS noVars ;;
  let missingOptional := missingOptionalOf lines in
  Returned
    {| p_name := None;
       p_status := Some (statusOf v missingOptional);
       p_duration := None;
       p_message := Some (js "Config check: " ++ countOf (definedVars v)
                          ++ js "/" ++ countOf REQUIRED_ENV_VARS
                          ++ js " required vars set");
       p_details := Some (detailsOf v missingOptional content);
       p_error := match issues v with
                  | [] => None
                  | _ => Some (join (js "; ") (issues v))
                  end;
       p_stack := None;
       p_fix := Some (fixes v) |}.

Definition checkEnvFile (fs : FileSystem) (envPath : jsstring)
    : Outcome PartialResult :=
  catch
    (if negb (existsSync fs envPath)
     then Returned
            {| p_name := None;
               p_status := Some (js "fail");
               p_duration := None;
               p_message := Some (js ".env file not found: " ++ envPath);
               p_details := Some [];
               p_error := None;
               p_stack := None;
               p_fix := Some [js "Create .env file at: " ++ envPath] |}
     else
       content <- readFile fs envPath ;;
       checkContent content)
    (fun error =>
       msg <- messageOf error ;;
       Returned
         {| p_name := None;
            p_status := Some (js "error");
            p_duration := None;
            p_message := Some (js "Failed to read .env file");
            p_details := None;
            p_error := msg;
            p_stack := None;
            p_fix := None |}).

End ConfigCheck.

(* ===================================================================== *)
(** ** The log analysis check: [checks/logs.js]                            *)
(* ===================================================================== *)

Module LogsCheck.
Import Runner.

Definition LOG_DIR : jsstring := js "/tmp/clawdbot".

(** [/clawdbot-\d{4}-\d{2}-\d{2}\.log$/] *)
Definition LOG_FILE_PATTERN : regex :=
  seqs [lit (js "clawdbot-"); exactly 4 digit; lit (js "-"); exactly 2 digit;
        lit (js "-"); exactly 2 digit; lit (js ".log"); Eol].

Definition ERROR_PATTERNS : list (regex * jsstring) :=
  [(litCI (js "Error:"), js "General Error");
   (litCI (js "Fatal error:"), js "Fatal Error");
   (litCI (js "SyntaxError:"), js "Syntax Error");
   (litCI (js "Cannot find module"), js "Module Not Found");
   (Alt (litCI (js "EACCES")) (litCI (js "permission denied")),
    js "Permission Error");
   (seqs [litCI (js "ENOENT"); star dot; litCI (js "no such file")],
    js "File Not Found");
   (litCI (js "validation_error"), js "Validation Error");
   (litCI (js "object_not_found"), js "Notion Object Not Found");
   (Alt (seqs [litCI (js "telegram"); star dot; litCI (js "not found")])
        (litCI (js "Bad Request")),
    js "Telegram Error");
   (seqs [litCI (js "dotenv"); star dot; litCI (js "injecting env")],
    js "Dotenv Warning");
   (litCI (js "MODULE_NOT_FOUND"), js "Module Not Found")].

Definition PATH_PATTERNS : list (regex * jsstring) :=
  [(lit (js "skills/skills/"), js "Duplicate " ++ QUOTE ++ js "skills" ++ QUOTE ++ js " in path");
   (seqs [litCI (js "undefined"); star dot;
          alts [litCI (js "url"); litCI (js "id"); litCI (js "database")]],
    js "Undefined critical value")].

Record LogError := {
  e_category : jsstring;
  e_timestamp : jsstring;
  e_message : jsstring
}.

Record CategoryError := {
  c_timestamp : jsstring;
  c_message : jsstring;
  c_fullLine : jsstring
}.

Record LogWarning := {
  w_type : jsstring;
  w_message : jsstring;
  w_line : jsstring
}.

(** The [errorsByCategory] object: its keys in insertion order. *)
Definition ByCategory := list (jsstring * list CategoryError).

Fixpoint pushCategory (category : jsstring) (e : CategoryError)
    (m : ByCategory) : ByCategory :=
  match m with
  | [] => [(category, [e])]
  | (k, es) :: m' =>
      if JS.eqb k category then (k, es ++ [e]) :: m'
      else (k, es) :: pushCategory category e m'
  end.

Record Parsed := {
  errors : list LogError;
  warnings : list LogWarning;
  errorsByCategory : option ByCategory;
  parseError : option jsstring
}.

(** [ERROR_PATTERNS.some(({ pattern }) => pattern.test(line))] *)
Definition matchesError (line : jsstring) : bool :=
  existsb (fun '(pattern, _) => test pattern line) ERROR_PATTERNS.

(** [/^(\d{2}:\d{2}:\d{2})/] *)
Definition timeRe : regex :=
  seqs [Bol; Grp 1 (seqs [exactly 2 digit; lit (js ":"); exactly 2 digit;
                          lit (js ":"); exactly 2 digit])].

(** [/Error: (.+?)(?:\n|$)/] *)
Definition errorTextRe : regex :=
  seqs [lit (js "Error: "); Grp 1 (plusLazy dot); Alt (lit LF) Eol].

(** The body of the loop over the lines, on the three collections. *)
Definition scanLine (st : list LogError * list LogWarning * ByCategory)
    (line : jsstring) : list LogError * list LogWarning * ByCategory :=
  let '(errs, warns, byCat) := st in
  let '(errs1, byCat1) :=
    match find (fun '(pattern, _) => test pattern line) ERROR_PATTERNS with
    | Some (_, category) =>
        let timestamp :=
          match exec timeRe line with
          | Some timeMatch => text (group 1 timeMatch)
          | None => []
          end in
        let message :=
          match exec errorTextRe line with
          | Some errorMatch => text (group 1 errorMatch)
          | None => trim line
          end in
        (errs ++ [{| e_category := category; e_timestamp := timestamp;
                     e_message := message |}],
         pushCategory category
           {| c_timestamp := timestamp;
              c_message := substring0 200 message;
              c_fullLine := substring0 500 line |} byCat)
    | None => (errs, byCat)
    end in
  let warns1 :=
    warns ++ flat_map (fun '(pattern, message) =>
                         if test pattern line
                         then [{| w_type := js "path_issue";
                                  w_message := message;
                                  w_line := trim line |}]
                         else []) PATH_PATTERNS in
  (errs1, warns1, byCat1).

Section Check.
Variable fs : FileSystem.
(** [a.localeCompare(b)] of the host. *)
Variable localeCompare : jsstring -> jsstring -> Z.

Definition parseLogFile (logPath : jsstring) : Outcome Parsed :=
  catch
    (content <- readFile fs logPath ;;
     let lines := splitOn LF content in
     let '(errs, warns, byCat) := fold_left scanLine lines ([], [], []) in
     Returned {| errors := errs; warnings := warns;
                 errorsByCategory := Some byCat; parseError := None |})
    (fun error =>
       msg <- messageOf error ;;
       Returned {| errors := []; warnings := [];
                   errorsByCategory := None; parseError := msg |}).

Record LogFile := {
  f_name : jsstring;
  f_path : jsstring;
  f_time : jsstring
}.

(** [/clawdbot-(.+)\.log/], which every name the filter keeps matches. *)
Definition timeOfName : regex :=
  seqs [lit (js "clawdbot-"); Grp 1 (plus dot); lit (js ".log")].

Definition getLatestLogFile : option jsstring :=
  match readdir fs LOG_DIR with
  | Returned files =>
      let logFiles :=
        Effect.sort
          (fun a b => (0 <? localeCompare (f_time b) (f_time a))%Z)
          (map (fun f =>
                  {| f_name := f;
                     f_path := pathJoin LOG_DIR f;
                     f_time := match exec timeOfName f with
                               | Some m => text (group 1 m)
                               | None => []
                               end |})
               (filter (test LOG_FILE_PATTERN) files)) in
      match logFiles with
      | first :: _ => Some (f_path first)
      | [] => None
      end
  | Threw _ => None
  end.

Definition getLastNLines (logPath : jsstring) (n : nat) : list jsstring :=
  match readFile fs logPath with
  | Returned content => lastN n (splitOn LF content)
  | Threw _ => []
  end.

Definition categoryDetails (entry : jsstring * list CategoryError)
    : list Detail :=
  let '(category, categoryErrors) := entry in
  let n := List.length categoryErrors in
  if 0 <? n then
    [{| d_status := if 10 <? n then js "fail"
                    else if 3 <? n then js "warning" else js "pass";
        d_message := category ++ js ": " ++ lengthToString n
                       ++ js " occurrence(s)" |}]
    ++ match rev categoryErrors with
       | recentExample :: _ =>
           [{| d_status := js "info";
               d_message := js "  Latest: "
                              ++ substring0 80 (c_message recentExample)
                              ++ js "..." |}]
       | [] => []
       end
  else [].

Definition categoryFixes (entry : jsstring * list CategoryError)
    : list jsstring :=
  let '(category, categoryErrors) := entry in
  let n := List.length categoryErrors in
  if 0 <? n then
    (if JS.eqb category (js "Module Not Found") && (0 <? n)
     then [js "Run npm install in affected skill directories"] else [])
    ++ (if JS.eqb category (js "Syntax Error")
        then [js "Fix JavaScript syntax errors in affected files"] else [])
    ++ (if JS.eqb category (js "Notion Object Not Found")
        then [js "Check Notion database IDs and integration permissions"]
        else [])
    ++ (if JS.eqb category (js "Telegram Error")
        then [js "Check TELEGRAM_BOT_TOKEN and group chat IDs"] else [])
  else [].

Definition warningFixes (warning : LogWarning) : list jsstring :=
  if JS.eqb (w_type warning) (js "path_issue")
     && includes (js "Duplicate") (w_message warning)
  then [js "Fix duplicate " ++ QUOTE ++ js "skills" ++ QUOTE ++ js " directory in skill paths"] else [].

Definition statusOf (totalErrors recentErrorCount : nat) : jsstring :=
  if (50 <? totalErrors) || (20 <? recentErrorCount) then js "fail"
  else if (10 <? totalErrors) || (5 <? recentErrorCount) then js "warning"
  else js "pass".

Definition result (st msg : jsstring) (ds : list Detail)
    (fx : option (list jsstring)) : PartialResult :=
  {| p_name := None; p_status := Some st; p_duration := None;
     p_message := Some msg; p_details := Some ds; p_error := None;
     p_stack := None; p_fix := fx |}.

Definition run : Outcome PartialResult :=
  match getLatestLogFile with
  | None =>
      Returned
        (result (js "warning") (js "No log files found")
           [{| d_status := js "warning";
               d_message := js "Log directory not found or empty: " ++ LOG_DIR |}]
           (Some [js "Ensure Clawdbot has run at least once";
                  js "Check log directory permissions"]))
  | Some logPath =>
      let details0 :=
        [{| d_status := js "pass";
            d_message := js "Analyzing log: " ++ basename logPath |}] in
      parsed <- parseLogFile logPath ;;
      if truthyOpt (parseError parsed) then
        Returned
          {| p_name := None; p_status := Some (js "error");
             p_duration := None;
             p_message := Some (js "Failed to parse log file");
             p_details := Some [{| d_status := js "error";
                                   d_message := text (parseError parsed) |}];
             p_error := None; p_stack := None; p_fix := None |}
      else
        let totalErrors := List.length (errors parsed) in
        let totalWarnings := List.length (warnings parsed) in
        let details1 :=
          details0
          ++ [{| d_status := js "info";
                 d_message := js "Found " ++ lengthToString totalErrors
                                ++ js " errors, " ++ lengthToString totalWarnings
                                ++ js " warnings" |}] in
        match errorsByCategory parsed with
        | None =>
            Threw (newError (js "Cannot convert undefined or null to object"))
        | Some byCat =>
            let details2 := details1 ++ flat_map categoryDetails byCat in
            let fixes2 := flat_map categoryFixes byCat in
            let details3 :=
              details2
              ++ map (fun warning =>
                        {| d_status := js "warning";
                           d_message := js "Path issue: " ++ w_message warning |})
                     (warnings parsed) in
            let fixes3 := fixes2 ++ flat_map warningFixes (warnings parsed) in
            let last100Lines := getLastNLines logPath 100 in
            let recentErrorCount :=
              List.length (filter matchesError last100Lines) in
            let details4 :=
              details3
              ++ (if 20 <? recentErrorCount
                  then [{| d_status := js "fail";
                           d_message := js "High error rate: "
                                          ++ lengthToString recentErrorCount
                                          ++ js "% in recent logs" |}]
                  else []) in
            Returned
              (result (statusOf totalErrors recentErrorCount)
                 (js "Log analysis: " ++ lengthToString totalErrors
                  ++ js " errors found, " ++ lengthToString recentErrorCount
                  ++ js "% recent error rate")
                 details4
                 (match fixes3 with [] => None | _ => Some fixes3 end))
        end
  end.

End Check.

End LogsCheck.

(* ===================================================================== *)
(** ** The syntax check: [checks/syntax.js]                                *)
(* ===================================================================== *)

Module SyntaxCheck.
Import Runner.

Definition CRITICAL_FILES : list jsstring :=
  [js "scripts/notion-heartbeat.js";
   js "skills/notion-persistence-universal/scripts/save-content.js";
   js "skills/telegram-notification/scripts/notify-group.js";
   js "skills/event-coordinator/scripts/coordinate.js"].

(** What the identifier [spawn] is bound to in the scope of [syntax.js].
    The module requires [fs], [path] and [existsSync] and nothing of
    [child_process]: the identifier is free. *)
Definition moduleSpawn : option Spawn := None.

(** [/(\w+\.js):(\d+)/] and [/(\d+)$/] *)
Definition locationRe : regex :=
  seqs [Grp 1 (seqs [plus word; lit (js ".js")]); lit (js ":");
        Grp 2 (plus digit)].
Definition lineRe : regex := seqs [Grp 1 (plus digit); Eol].

Section Check.
(** [spawnBinding] is the binding of [spawn] the functions below run
    under; [glob] is the outcome of requiring and calling the glob module
    in a directory. *)
Variable spawnBinding : option Spawn.
Variable fs : FileSystem.
Variable glob : jsstring -> jsstring -> Outcome (list jsstring).

Definition checkFileSyntax (filePath : jsstring) : Outcome PartialResult :=
  match spawnBinding with
  | None => Threw (referenceError (js "spawn"))
  | Some spawn =>
      match spawn (js "node") [js "--check"; filePath] with
      | Refused msg => Threw (newError msg)
      | Closed code stdout stderr =>
          match code with
          | Some 0%Z =>
              Returned
                {| p_name := None; p_status := Some (js "pass");
                   p_duration := None;
                   p_message := Some (basename filePath);
                   p_details := None; p_error := None; p_stack := None;
                   p_fix := None |}
          | _ =>
              let location :=
                match exec locationRe stderr with
                | Some errorMatch =>
                    text (group 1 errorMatch) ++ js ":" ++ text (group 2 errorMatch)
                | None => filePath
                end in
              let firstError :=
                match find (includes (js "Error")) (splitOn LF stderr) with
                | Some l => if truthy (trim l) then trim l else js "Syntax error"
                | None => js "Syntax error"
                end in
              Returned
                {| p_name := None; p_status := Some (js "fail");
                   p_duration := None;
                   p_message := Some (location ++ js ": " ++ firstError);
                   p_details := None;
                   p_error := Some (trim stderr);
                   p_stack := None; p_fix := None |}
          end
      | ErrorEvent msg =>
          Returned
            {| p_name := None; p_status := Some (js "error");
               p_duration := None;
               p_message := Some (js "Failed to check " ++ filePath ++ js ": "
                                  ++ msg);
               p_details := None; p_error := None; p_stack := None;
               p_fix := None |}
      end
  end.

(** The variables of [run]. *)
Record Progress := {
  details : list Detail;
  errors : list jsstring;
  fixes : list jsstring;
  checked : nat;
  passed : nat;
  failed : nat
}.

Definition start : Progress :=
  {| details := []; errors := []; fixes := [];
     checked := 0; passed := 0; failed := 0 |}.

(** [result.message], which [checkFileSyntax] always sets. *)
Definition messageText (result : PartialResult) : jsstring :=
  text (p_message result).

Definition isPass (result : PartialResult) : bool :=
  match p_status result with
  | Some st => JS.eqb st (js "pass")
  | None => false
  end.

(** The loop over the critical files; a rejected [checkFileSyntax] leaves
    the loop and [run]. *)
Fixpoint criticalLoop (clawdRoot : jsstring) (files : list jsstring)
    (st : Progress) : Outcome Progress :=
  match files with
  | [] => Returned st
  | relativePath :: rest =>
      let fullPath := pathJoin clawdRoot relativePath in
      if negb (existsSync fs fullPath) then
        criticalLoop clawdRoot rest
          {| details := details st
               ++ [{| d_status := js "warning";
                      d_message := relativePath ++ js " not found" |}];
             errors := errors st; fixes := fixes st;
             checked := checked st; passed := passed st;
             failed := failed st |}
      else
        result <- checkFileSyntax fullPath ;;
        if isPass result then
          criticalLoop clawdRoot rest
            {| details := details st
                 ++ [{| d_status := js "pass";
                        d_message := relativePath ++ js ": OK" |}];
               errors := errors st; fixes := fixes st;
               checked := S (checked st); passed := S (passed st);
               failed := failed st |}
        else
          let lineFix :=
            if truthyOpt (p_error result) then
              match exec lineRe (text (p_error result)) with
              | Some lineMatch =>
                  [js "Check line " ++ text (group 1 lineMatch) ++ js " in "
                   ++ relativePath]
              | None => []
              end
            else [] in
          criticalLoop clawdRoot rest
            {| details := details st
                 ++ [{| d_status := js "fail";
                        d_message := messageText result |}];
               errors := errors st ++ [messageText result];
               fixes := fixes st
                 ++ [js "Fix syntax error in " ++ relativePath] ++ lineFix;
               checked := S (checked st); passed := passed st;
               failed := S (failed st) |}
  end.

(** The loop over the additional files, inside the [try] whose handler is
    empty: a rejected [checkFileSyntax] ends the loop and keeps what the
    earlier turns recorded. *)
Fixpoint additionalLoop (files : list jsstring) (st : Progress) : Progress :=
  match files with
  | [] => st
  | file :: rest =>
      match checkFileSyntax file with
      | Threw _ => st
      | Returned result =>
          if isPass result then
            additionalLoop rest
              {| details := details st; errors := errors st;
                 fixes := fixes st;
                 checked := S (checked st); passed := S (passed st);
                 failed := failed st |}
          else
            additionalLoop rest
              {| details := details st
                   ++ [{| d_status := js "fail";
                          d_message := messageText result |}];
                 errors := errors st ++ [messageText result];
                 fixes := fixes st;
                 checked := S (checked st); passed := passed st;
                 failed := S (failed st) |}
      end
  end.

Definition run (clawdRoot : jsstring) : Outcome PartialResult :=
  st1 <- criticalLoop clawdRoot CRITICAL_FILES start ;;
  let st2 :=
    match glob (js "skills/*/scripts/*.js") clawdRoot with
    | Returned allJsFiles =>
        let additionalFiles :=
          filter (fun file =>
                    negb (existsb (fun critical => endsWith critical file)
                            CRITICAL_FILES)) allJsFiles in
        additionalLoop (firstn 20 additionalFiles) st1
    | Threw _ => st1
    end in
  let status :=
    if 0 <? failed st2 then js "fail"
    else if checked st2 =? 0 then js "warning"
    else js "pass" in
  Returned
    {| p_name := None;
       p_status := Some status;
       p_duration := None;
       p_message := Some (js "Syntax check: " ++ lengthToString (passed st2)
                          ++ js "/" ++ lengthToString (checked st2)
                          ++ js " files passed");
       p_details := Some (details st2);
       p_error := match errors st2 with
                  | [] => None
                  | _ => Some (join (js "; ") (errors st2))
                  end;
       p_stack := None;
       p_fix := Some (fixes st2) |}.

End Check.

End SyntaxCheck.

(* ===================================================================== *)
(** ** The git check: [checks/git.js]                                      *)
(* ===================================================================== *)

Module GitCheck.
Import Runner.

Definition alnum : codeunit -> bool :=
  either (range 97 122) (either (range 65 90) (range 48 57)).
(** The classes [[a-zA-Z0-9_-]], double or single quote, and
    [[A-Za-z0-9+/]]. *)
Definition tokenChar : codeunit -> bool := either alnum (oneOf (js "_-")).
Definition quote : codeunit -> bool := oneOf (QUOTE ++ js "'").
Definition base64Char : codeunit -> bool := either alnum (oneOf (js "+/")).

(** An optional quote, [\s*[:=]\s*] and an optional quote: the middle of
    three of the patterns. *)
Definition assigned : list regex :=
  [opt quote; star space; Cls (oneOf (js ":=")); star space; opt quote].

Definition bearerToken : regex :=
  seqs [litCI (js "bearer"); plus space; atLeast 20 tokenChar].

Definition SECRET_PATTERNS : list (jsstring * regex) :=
  [(js "Notion API Token", seqs [lit (js "secret_"); atLeast 32 alnum]);
   (js "Telegram Bot Token",
    seqs [atLeast 8 digit; lit (js ":"); exactly 35 tokenChar]);
   (js "API Key",
    seqs ([litCI (js "api"); opt (oneOf (js "_-")); litCI (js "key")]
          ++ assigned ++ [atLeast 20 tokenChar]));
   (js "Password",
    seqs ([litCI (js "password")] ++ assigned
          ++ [plus (notIn (either space quote)); opt quote]));
   (js "Token",
    seqs ([litCI (js "token")] ++ assigned ++ [atLeast 20 tokenChar]));
   (js "Bearer Token", bearerToken);
   (js "Base64 Secret",
    seqs [Cls quote; atLeast 40 base64Char; Rep true 0 (Some 2) (chr 61);
          Cls quote])].

Record Finding := { f_type : jsstring; f_match : jsstring }.

Record Secret := {
  s_commit : option jsstring;
  s_file : jsstring;
  s_type : jsstring;
  s_match : jsstring
}.

Definition safePaths : list jsstring :=
  [js ".env.example"; js "sample.env"; js ".env.template"; js "test/fixtures"].

Definition checkFileForSecrets (content filePath : jsstring) : list Finding :=
  let findings :=
    flat_map (fun '(name, pattern) =>
                match exec pattern content with
                | Some matches =>
                    [{| f_type := name;
                        f_match := substring0 30 (matched matches) ++ js "..." |}]
                | None => []
                end) SECRET_PATTERNS in
  if existsb (fun safe => includes safe filePath) safePaths then []
  else findings.

(** [/\.(js|ts|json|md|env|txt|yml|yaml)$/] *)
Definition textFile : regex :=
  seqs [lit (js ".");
        Grp 1 (alts [lit (js "js"); lit (js "ts"); lit (js "json");
                     lit (js "md"); lit (js "env"); lit (js "txt");
                     lit (js "yml"); lit (js "yaml")]);
        Eol].

(** [text.split('\n').filter(Boolean)] *)
Definition nonEmptyLines (text : jsstring) : list jsstring :=
  filter truthy (splitOn LF text).

(** [[...new Set(list)]]: the first occurrence of each element, in order. *)
Fixpoint unique (seen l : list jsstring) : list jsstring :=
  match l with
  | [] => []
  | x :: l' =>
      if existsb (JS.eqb x) seen then unique seen l'
      else x :: unique (x :: seen) l'
  end.

Section Check.
(** [spawnIn cwd] is [spawn] with the option [{ cwd }]. *)
Variable spawnIn : jsstring -> Spawn.
Variable fs : FileSystem.

Definition gitExec (cwd : jsstring) (args : list jsstring) : Outcome jsstring :=
  match spawnIn cwd (js "git") args with
  | Refused msg => Threw (newError msg)
  | Closed code stdout stderr =>
      match code with
      | Some 0%Z => Returned (trim stdout)
      | _ =>
          Threw (newError (if truthy stderr then stderr
                           else js "git " ++ join (js " ") args ++ js " failed"))
      end
  | ErrorEvent msg => Threw (newError msg)
  end.

Definition checkUncommittedForSecrets (cwd : jsstring) : list Secret :=
  match gitExec cwd [js "diff"; js "--name-only"] with
  | Threw _ => []
  | Returned changed =>
      match gitExec cwd [js "diff"; js "--cached"; js "--name-only"] with
      | Threw _ => []
      | Returned staged =>
          let allChangedFiles :=
            unique [] (nonEmptyLines changed ++ nonEmptyLines staged) in
          flat_map
            (fun file =>
               if test textFile file then
                 match gitExec cwd [js "diff"; file] with
                 | Returned diff =>
                     map (fun finding =>
                            {| s_commit := None; s_file := file;
                               s_type := f_type finding;
                               s_match := f_match finding |})
                         (checkFileForSecrets diff file)
                 | Threw _ => []
                 end
               else [])
            allChangedFiles
      end
  end.

Definition commitSecrets (cwd commit : jsstring) : list Secret :=
  let commitHash := hd [] (splitOn (js " ") commit) in
  match gitExec cwd [js "diff"; js "--name-only";
                     commitHash ++ js "^.." ++ commitHash] with
  | Threw _ => []
  | Returned names =>
      flat_map
        (fun file =>
           if test textFile file then
             match gitExec cwd [js "show"; commitHash ++ js ":" ++ file] with
             | Returned content =>
                 map (fun finding =>
                        {| s_commit := Some commitHash; s_file := file;
                           s_type := f_type finding;
                           s_match := f_match finding |})
                     (checkFileForSecrets content file)
             | Threw _ => []
             end
           else [])
        (nonEmptyLines names)
  end.

Definition checkRecentCommitsForSecrets (cwd : jsstring) : list Secret :=
  match gitExec cwd [js "log"; js "--oneline"; js "-5"] with
  | Threw _ => []
  | Returned log => flat_map (commitSecrets cwd) (nonEmptyLines log)
  end.

Definition statusDetails (clawdRoot : jsstring) : Outcome (list Detail) :=
  catch
    (statusOutput <- gitExec clawdRoot [js "status"; js "--porcelain"] ;;
     if truthy statusOutput then
       let changedFiles := nonEmptyLines statusOutput in
       let envFiles :=
         filter (fun f => includes (js ".env") f
                          && negb (includes (js ".env.example") f))
                changedFiles in
       Returned
         ([{| d_status := js "info";
              d_message := lengthToString (List.length changedFiles)
                             ++ js " uncommitted file(s)" |}]
          ++ (if 0 <? List.length envFiles
              then [{| d_status := js "warning";
                       d_message := lengthToString (List.length envFiles)
                                      ++ js " .env file(s) in changes" |}]
              else []))
     else
       Returned [{| d_status := js "pass";
                    d_message := js "Working directory clean" |}])
    (fun error =>
       msg <- messageOf error ;;
       Returned [{| d_status := js "warning";
                    d_message := js "Could not check git status: "
                                   ++ interpolate msg |}]).

Definition uncommittedDetails (secrets : list Secret) : list Detail :=
  match secrets with
  | [] => []
  | _ =>
      {| d_status := js "fail";
         d_message := js "Found " ++ lengthToString (List.length secrets)
                        ++ js " potential secret(s) in uncommitted changes" |}
      :: map (fun secret =>
                {| d_status := js "fail";
                   d_message := js "  " ++ s_file secret ++ js ": "
                                  ++ s_type secret ++ js " detected" |})
             (firstn 5 secrets)
  end.

Definition uncommittedFixes (secrets : list Secret) : list jsstring :=
  match secrets with
  | [] => []
  | _ => [js "Remove secrets from uncommitted changes before committing";
          js "Use environment variables for sensitive data"]
  end.

Definition commitDetails (secrets : list Secret) : list Detail :=
  match secrets with
  | [] => []
  | _ =>
      {| d_status := js "fail";
         d_message := js "Found " ++ lengthToString (List.length secrets)
                        ++ js " potential secret(s) in recent commits" |}
      :: map (fun secret =>
                {| d_status := js "fail";
                   d_message := js "  Commit " ++ interpolate (s_commit secret)
                                  ++ js ": " ++ s_file secret ++ js " contains "
                                  ++ s_type secret |})
             (firstn 3 secrets)
  end.

Definition commitFixes (secrets : list Secret) : list jsstring :=
  match secrets with
  | [] => []
  | _ => [js "Remove secrets from git history using git-filter-repo or BFG Repo-Cleaner";
          js "Rotate exposed secrets immediately"]
  end.

Definition branchDetails (clawdRoot : jsstring) : list Detail :=
  match gitExec clawdRoot [js "branch"; js "-vv"] with
  | Returned branches =>
      let pushNeeded :=
        filter (fun line => includes (js "*") line && includes (js "[") line
                            && negb (includes (js "[behind") line))
               (splitOn LF branches) in
      if 0 <? List.length pushNeeded
      then [{| d_status := js "info";
               d_message := js "Unpushed commits detected" |}]
      else []
  | Threw _ => []
  end.

Definition run (clawdRoot : jsstring) : Outcome PartialResult :=
  let gitDir := pathJoin clawdRoot (js ".git") in
  if negb (existsSync fs gitDir) then
    Returned
      {| p_name := None; p_status := Some (js "warning"); p_duration := None;
         p_message := Some (js "Not a git repository");
         p_details := Some [{| d_status := js "warning";
                               d_message := js ".git directory not found" |}];
         p_error := None; p_stack := None;
         p_fix := Some [js "Initialize git repo: git init"] |}
  else
    let details0 := [{| d_status := js "pass";
                        d_message := js "Git repository detected" |}] in
    details1 <- statusDetails clawdRoot ;;
    let uncommittedSecrets := checkUncommittedForSecrets clawdRoot in
    let commitSecrets := checkRecentCommitsForSecrets clawdRoot in
    let status :=
      if (0 <? List.length uncommittedSecrets) || (0 <? List.length commitSecrets)
      then js "fail" else js "pass" in
    let fixes := uncommittedFixes uncommittedSecrets ++ commitFixes commitSecrets in
    Returned
      {| p_name := None; p_status := Some status; p_duration := None;
         p_message := Some (js "Git status check completed");
         p_details := Some (details0 ++ details1
                            ++ uncommittedDetails uncommittedSecrets
                            ++ commitDetails commitSecrets
                            ++ branchDetails clawdRoot);
         p_error := None; p_stack := None;
         p_fix := match fixes with [] => None | _ => Some fixes end |}.

End Check.

End GitCheck.

(* ===================================================================== *)
(** ** The notifier: [lib/notifier.js]                                     *)
(* ===================================================================== *)

Module Notifier.
Import Runner.

Record Config := {
  clawdRoot : jsstring;
  healthLog : jsstring;
  notionDbId : option jsstring;
  telegramGroup : jsstring;
  alertOnly : bool
}.

Record Report := {
  summary : Summary;
  results : list CheckResult;
  reportText : jsstring
}.

(** What a channel resolves to, and the element [send] makes of it. *)
Record Sent := {
  success : bool;
  output : option jsstring;
  error : option jsstring
}.

Record ChannelResult := {
  channel : jsstring;
  sent : Sent
}.

(** One call of [spawn]: the command and its arguments. *)
Definition Call := (jsstring * list jsstring)%type.

Definition statusEmoji (key : jsstring) : option jsstring :=
  if JS.eqb key (js "pass") then Some (js "✅")
  else if JS.eqb key (js "warning") then Some (js "⚠️")
  else if JS.eqb key (js "fail") then Some (js "❌")
  else inherited key.

Definition title (report : Report) : jsstring :=
  interpolate (statusEmoji (overallStatus (summary report)))
    ++ js " Health Check: " ++ toUpperCase (overallStatus (summary report)).

Definition summaryText (report : Report) : jsstring :=
  js "Passed: " ++ lengthToString (passed (summary report)) ++ js "/"
    ++ lengthToString (total (summary report)) ++ js " | Warnings: "
    ++ lengthToString (warnings (summary report)) ++ js " | Failed: "
    ++ lengthToString (failed (summary report)).

(** The [message] that [sendTelegram] builds and truncates; the call of
    the script below does not pass it on. *)
Definition telegramMessage (report : Report) : jsstring :=
  let failedChecks :=
    filter (fun r => hasStatus (js "fail") r || hasStatus (js "error") r)
           (results report) in
  let warned := filter (hasStatus (js "warning")) (results report) in
  let message :=
    js "*" ++ title report ++ js "*" ++ LF ++ LF
    ++ summaryText report ++ LF ++ LF
    ++ match failedChecks with
       | [] => []
       | _ =>
           js "*Issues Found:*" ++ LF
           ++ flat_map (fun check =>
                          js "• " ++ name check ++ LF
                          ++ (if truthyOpt (message check)
                              then js "  "
                                   ++ substring0 100 (orElse (message check) [])
                                   ++ js "..." ++ LF
                              else []))
                       failedChecks
           ++ LF
       end
    ++ match warned with
       | [] => []
       | _ =>
           js "*Warnings:*" ++ LF
           ++ flat_map (fun check =>
                          js "• " ++ name check ++ js ": "
                          ++ (if truthyOpt (message check)
                              then orElse (message check) [] else [])
                          ++ LF)
                       warned
       end in
  if 3000 <? List.length message
  then substring0 3000 message ++ js "..." ++ LF ++ LF ++ js "(Full report in logs)"
  else message.

Section Send.
Variable spawn : Spawn.

(** The promise around a spawned script: [close] with code 0 resolves to a
    success, any other [close] and [error] to a failure; a throwing [spawn]
    rejects it. *)
Definition awaitScript (command : jsstring) (args : list jsstring)
    : Outcome Sent :=
  match spawn command args with
  | Closed code stdout stderr =>
      match code with
      | Some 0%Z =>
          Returned {| success := true; output := Some stdout; error := None |}
      | _ =>
          Returned {| success := false; output := None; error := Some stderr |}
      end
  | ErrorEvent msg =>
      Returned {| success := false; output := None; error := Some msg |}
  | Refused msg => Threw (newError msg)
  end.

Definition telegramCall (config : Config) (report : Report) : Call :=
  (js "node",
   [pathJoin (clawdRoot config)
      (js "skills/telegram-notification/scripts/notify-group.js");
    js "--target"; telegramGroup config;
    js "--title"; title report;
    js "--summary"; summaryText report]).

Definition sendTelegram (config : Config) (report : Report)
    : Outcome Sent * list Call :=
  let call := telegramCall config report in
  (awaitScript (fst call) (snd call), [call]).

Definition notionContent (report : Report) : jsstring :=
  js "## Summary" ++ LF ++ LF
  ++ js "- Status: " ++ overallStatus (summary report) ++ LF
  ++ js "- Passed: " ++ lengthToString (passed (summary report)) ++ LF
  ++ js "- Warnings: " ++ lengthToString (warnings (summary report)) ++ LF
  ++ js "- Failed: " ++ lengthToString (failed (summary report)) ++ LF
  ++ js "- Errors: " ++ lengthToString (errors (summary report)) ++ LF ++ LF
  ++ js "## Full Report" ++ LF ++ LF
  ++ reportText report.

Definition notionCall (config : Config) (report : Report) : Call :=
  (js "node",
   [pathJoin (clawdRoot config)
      (js "skills/notion-persistence-universal/scripts/save-content.js");
    js "--type"; js "health_check";
    js "--content"; notionContent report]).

Definition sendNotion (config : Config) (report : Report)
    : Outcome Sent * list Call :=
  if negb (truthyOpt (notionDbId config)) then
    (Returned {| success := false; output := None;
                 error := Some (js "No Notion DB ID") |}, [])
  else
    let call := notionCall config report in
    (awaitScript (fst call) (snd call), [call]).

(** [try { results.push({ channel, ...(await sender) }) }
     catch (error) { results.push({ channel, success: false, error: error.message }) }] *)
Definition attempt (channelName : jsstring) (sender : Outcome Sent * list Call)
    : Outcome (list ChannelResult) * list Call :=
  (match fst sender with
   | Returned r => Returned [{| channel := channelName; sent := r |}]
   | Threw e =>
       msg <- messageOf e ;;
       Returned [{| channel := channelName;
                    sent := {| success := false; output := None;
                               error := msg |} |}]
   end,
   snd sender).

(** [send(config, report)]: the per-channel results and the calls of
    [spawn] made on the way, in order. *)
Definition send (config : Config) (report : Report)
    : Outcome (list ChannelResult) * list Call :=
  let '(telegram, calls1) := attempt (js "telegram") (sendTelegram config report) in
  match telegram with
  | Threw e => (Threw e, calls1)
  | Returned results1 =>
      if truthyOpt (notionDbId config) then
        let '(notion, calls2) := attempt (js "notion") (sendNotion config report) in
        match notion with
        | Threw e => (Threw e, calls1 ++ calls2)
        | Returned results2 => (Returned (results1 ++ results2), calls1 ++ calls2)
        end
      else (Returned results1, calls1)
  end.

End Send.

End Notifier.


(* ===================================================================== *)
(** ** Notions used to state the properties, and sample inputs             *)
(* ===================================================================== *)

(** *** What a regular expression matches *)

Definition within (max : option nat) (n : nat) : Prop :=
  match max with Some m => n <= m | None => True end.

(** [denotes r pos w rest]: at position [pos] of its subject, [r] can match
    the text [w] when [rest] follows it. *)
Fixpoint denotes (r : regex) (pos : nat) (w rest : jsstring) : Prop :=
  match r with
  | Eps => w = []
  | Cls p => exists c, w = [c] /\ p c = true
  | Rep _ min max p =>
      Forall (fun c => p c = true) w /\ min <= List.length w
      /\ within max (List.length w)
  | Seq r1 r2 =>
      exists w1 w2, w = w1 ++ w2 /\ denotes r1 pos w1 (w2 ++ rest)
                    /\ denotes r2 (pos + List.length w1) w2 rest
  | Alt r1 r2 => denotes r1 pos w rest \/ denotes r2 pos w rest
  | Grp _ r1 => denotes r1 pos w rest
  | Bol => w = [] /\ pos = 0
  | Eol => w = [] /\ rest = []
  end.

(** The numbers of the capture groups of [r]. *)
Fixpoint groupsOf (r : regex) : list nat :=
  match r with
  | Seq r1 r2 | Alt r1 r2 => groupsOf r1 ++ groupsOf r2
  | Grp i r1 => i :: groupsOf r1
  | _ => []
  end.

(** [r] matches somewhere in [s]. *)
Definition matchesIn (r : regex) (s : jsstring) : Prop :=
  exists before w rest,
    s = before ++ w ++ rest /\ denotes r (List.length before) w rest.

Definition jsstring_dec : forall a b : jsstring, {a = b} + {a <> b} :=
  list_eq_dec N.eq_dec.

(** The number of results whose status is [st]. *)
Definition countStatus (st : jsstring) (results : list Runner.CheckResult)
    : nat :=
  count_occ jsstring_dec (map Runner.status results) st.

(** A result that carries a name, a status and a duration only. *)
Definition plainResult (name status : jsstring) (duration : Z)
    : Runner.CheckResult :=
  {| Runner.name := name; Runner.status := status;
     Runner.duration := duration; Runner.message := None;
     Runner.details := None; Runner.error := None; Runner.stack := None;
     Runner.fix_ := None |}.

Definition samplePass : Runner.CheckResult :=
  plainResult (js "Config Check") (js "pass") 12.
Definition sampleWarning : Runner.CheckResult :=
  plainResult (js "Syntax Check") (js "warning") 3.
Definition sampleFail : Runner.CheckResult :=
  plainResult (js "Dependencies Check") (js "fail") 40.
Definition sampleError : Runner.CheckResult :=
  plainResult (js "Logs Analysis") (js "error") 0.
Definition sampleUnknown : Runner.CheckResult :=
  plainResult (js "Git Status") (js "unknown") 7.

Definition sampleNow : jsstring := js "2026-01-05T08:30:00.123Z".

(** A partial result with the given status and nothing else. *)
Definition onlyStatus (st : option jsstring) : Runner.PartialResult :=
  {| Runner.p_name := None; Runner.p_status := st;
     Runner.p_duration := None; Runner.p_message := None;
     Runner.p_details := None; Runner.p_error := None;
     Runner.p_stack := None; Runner.p_fix := None |}.

(** Three check functions: one whose result carries a [name] of its own,
    one whose result carries no status, one that throws an Error. *)
Definition renamingCheck : Runner.CheckFn unit :=
  fun _ _ =>
    Returned
      {| Runner.p_name := Some (js "Renamed"); Runner.p_status := Some (js "pass");
         Runner.p_duration := None; Runner.p_message := None;
         Runner.p_details := None; Runner.p_error := None;
         Runner.p_stack := None; Runner.p_fix := None |}.

Definition silentCheck : Runner.CheckFn unit :=
  fun _ _ => Returned (onlyStatus None).

Definition throwingCheck : Runner.CheckFn unit :=
  fun _ _ => Threw (ThrownValue (Some (js "boom")) (Some (js "Error: boom"))).

(** A run of five checks, one of each status, and its report. *)
Definition sampleResults : list Runner.CheckResult :=
  [samplePass; sampleWarning; sampleFail; sampleError; sampleUnknown].

Definition sampleLocalTime : jsstring := js "2026/1/5 16:30:00".

Definition sampleReport : jsstring :=
  Runner.formatResults sampleLocalTime sampleResults
    (Runner.generateSummary sampleNow sampleResults).

Definition trendCheck (name status : jsstring) (duration : Z)
    : Trends.TrendCheck :=
  {| Trends.name := name; Trends.status := status;
     Trends.duration := Some duration |}.

(** A directory in which the first critical file exists, and nothing else;
    a glob that finds no file; a [spawn] whose child exits with code 1
    after a SyntaxError on its error pipe. *)
Definition sampleRoot : jsstring := js "/clawd".

Definition heartbeatOnly : FileSystem :=
  {| existsSync := fun p => JS.eqb p (js "/clawd/scripts/notion-heartbeat.js");
     readFile := fun _ => Threw (newError (js "ENOENT"));
     readdir := fun _ => Threw (newError (js "ENOENT")) |}.

Definition emptyDisk : FileSystem :=
  {| existsSync := fun _ => false;
     readFile := fun _ => Threw (newError (js "ENOENT"));
     readdir := fun _ => Threw (newError (js "ENOENT")) |}.

Definition noGlob : jsstring -> jsstring -> Outcome (list jsstring) :=
  fun _ _ => Returned [].

Definition failingNode : Spawn :=
  fun _ _ =>
    Closed (Some 1%Z) []
      (js "/clawd/scripts/notion-heartbeat.js:3" ++ LF
       ++ js "SyntaxError: Unexpected token" ++ LF).

(** The syntax check as the runner calls it. *)
Definition syntaxCheckFn (binding : option Spawn) (fs : FileSystem)
    : Runner.CheckFn unit :=
  fun root _ => SyntaxCheck.run binding fs noGlob root.

(** What the notifier makes of the end of a spawned script. *)
Definition sentOf (p : Process) : Notifier.Sent :=
  match p with
  | Closed (Some 0%Z) stdout _ =>
      {| Notifier.success := true; Notifier.output := Some stdout;
         Notifier.error := None |}
  | Closed _ _ stderr =>
      {| Notifier.success := false; Notifier.output := None;
         Notifier.error := Some stderr |}
  | ErrorEvent msg | Refused msg =>
      {| Notifier.success := false; Notifier.output := None;
         Notifier.error := Some msg |}
  end.

Definition runCall (spawn : Spawn) (c : Notifier.Call) : Process :=
  spawn (fst c) (snd c).

(** A configuration with a Notion database, a report of the five sample
    results, and a [spawn] under which the Telegram script exits with
    code 1 and every other child with code 0. *)
Definition sampleConfig : Notifier.Config :=
  {| Notifier.clawdRoot := sampleRoot;
     Notifier.healthLog := js "/tmp/clawdbot/health-check.log";
     Notifier.notionDbId := Some (js "db-1");
     Notifier.telegramGroup := js "discussion";
     Notifier.alertOnly := true |}.

Definition sampleNotice : Notifier.Report :=
  {| Notifier.summary := Runner.generateSummary sampleNow sampleResults;
     Notifier.results := sampleResults;
     Notifier.reportText := js "the report" |}.

Definition failingTelegram : Spawn :=
  fun _ args =>
    if existsb (endsWith (js "notify-group.js")) args
    then Closed (Some 1%Z) [] (js "chat not found")
    else Closed (Some 0%Z) (js "saved") [].

(** *** Settings files *)

(** How a settings file presents a variable to [checkEnvFile]: no line
    starts with its name and [=] or a space; or the first such line has an
    empty, or a non-empty, text between its first and second [=]; or that
    line has no [=] at all. *)
Inductive Presence := Absent | Blank | Valued | NoEquals.

Definition presence (lines : list jsstring) (varName : jsstring) : Presence :=
  match ConfigCheck.findLine lines varName with
  | None => Absent
  | Some line =>
      match nth_error (splitOn (js "=") line) 1 with
      | None => NoEquals
      | Some value => if JS.eqb (trim value) [] then Blank else Valued
      end
  end.

Definition isAbsent (lines : list jsstring) (v : jsstring) : bool :=
  match presence lines v with Absent => true | _ => false end.
Definition isBlank (lines : list jsstring) (v : jsstring) : bool :=
  match presence lines v with Blank => true | _ => false end.
Definition isValued (lines : list jsstring) (v : jsstring) : bool :=
  match presence lines v with Valued => true | _ => false end.

(** A disk that holds one readable file. *)
Definition oneFile (path content : jsstring) : FileSystem :=
  {| existsSync := fun p => JS.eqb p path;
     readFile := fun p => if JS.eqb p path then Returned content
                          else Threw (newError (js "ENOENT"));
     readdir := fun _ => Threw (newError (js "ENOENT")) |}.

Definition envPath : jsstring := js "/clawd/.env".

Definition requiredSet : list jsstring :=
  [js "NOTION_API_KEY=secret_abc";
   js "NOTION_DISCUSSION_DATABASE_ID=db1";
   js "NOTION_DAILY_REPORT_DATABASE_ID=db2";
   js "TELEGRAM_BOT_TOKEN=123:abc";
   js "TELEGRAM_DISCUSSION_GROUP_ID=-1001";
   js "TELEGRAM_DAILY_REPORT_GROUP_ID=-1002"].

Definition optionalSet : list jsstring :=
  [js "TELEGRAM_GENERAL_GROUP_ID=-1003";
   js "NOTION_MEETING_DATABASE_ID=db3"].

(** Settings files: every key set; the required keys only; the first
    required key absent; the first required key empty; the first required
    key written with a space and no [=]; and that line after a proper line
    of the same key. *)
Definition envComplete : jsstring := join LF (requiredSet ++ optionalSet).
Definition envRequiredOnly : jsstring := join LF requiredSet.
Definition envOneAbsent : jsstring := join LF (tl requiredSet ++ optionalSet).
Definition envOneEmpty : jsstring :=
  join LF (js "NOTION_API_KEY=" :: tl requiredSet ++ optionalSet).
Definition envWithSpace : jsstring :=
  join LF (js "NOTION_API_KEY secret_abc" :: tl requiredSet ++ optionalSet).
Definition envSpaceAfterProper : jsstring :=
  join LF (requiredSet ++ optionalSet ++ [js "NOTION_API_KEY secret_abc"]).

(** *** Dated logs *)

(** The text of a day: four digits, two digits and two digits, with
    hyphens between them. *)
Definition isDate (date : jsstring) : Prop :=
  exists y m d,
    date = y ++ js "-" ++ m ++ js "-" ++ d /\
    List.length y = 4 /\ List.length m = 2 /\ List.length d = 2 /\
    Forall (fun c => (48 <= c <= 57)%N) (y ++ m ++ d).



(** The last [n] lines of a list of lines, or all of them when there are
    fewer. *)
Definition lastLines (n : nat) (lines window : list jsstring) : Prop :=
  exists older,
    lines = older ++ window /\
    List.length window = Nat.min n (List.length lines).

(** *** Log directories *)


(** A comparison of strings by code units, in the place of the host's
    [localeCompare]. *)
Fixpoint compareUnits (a b : jsstring) : Z :=
  match a, b with
  | [], [] => 0
  | [], _ :: _ => -1
  | _ :: _, [] => 1
  | x :: a', y :: b' =>
      if (x <? y)%N then -1 else if (y <? x)%N then 1 else compareUnits a' b'
  end.

(** A disk whose log directory holds two dated logs, the later one listed
    first and with the given text, the earlier one full of errors. *)
Definition logDisk (latest : jsstring) : FileSystem :=
  {| existsSync := fun _ => true;
     readFile := fun p =>
       if JS.eqb p (js "/tmp/clawdbot/clawdbot-2026-01-05.log")
       then Returned latest
       else if JS.eqb p (js "/tmp/clawdbot/clawdbot-2026-01-04.log")
       then Returned
              (join LF (repeat (js "08:30:02 Error: request failed") 60))
       else Threw (newError (js "ENOENT"));
     readdir := fun _ =>
       Returned [js "clawdbot-2026-01-05.log"; js "notes.txt";
                 js "clawdbot-2026-01-04.log"] |}.



(** *** Secrets, as the git check looks for them *)








(** *** Git work trees *)











(* ===================================================================== *)
(** ** The main function of [health-check.js]                              *)
(* ===================================================================== *)

Module Main.
Import Runner.

Record Args := {
  full : bool;
  notify : bool;
  dryRun : bool;
  verbose : bool
}.

(** [parseArgs()] on [process.argv]. *)
Definition parseArgs (argv : list jsstring) : Args :=
  let args := skipn 2 argv in
  let has flag := existsb (JS.eqb flag) args in
  {| full := has (js "--full");
     notify := has (js "--notify");
     dryRun := has (js "--dry-run");
     verbose := has (js "--verbose") || has (js "-v") |}.

(** [process.env.NAME || fallback] *)
Definition envOr (value : option jsstring) (fallback : jsstring) : jsstring :=
  if truthyOpt value then text value else fallback.

(** The [CONFIG] object; [clawdRoot] is the value of
    [path.join(__dirname, '../../')]. *)
Definition CONFIG (env : jsstring -> option jsstring) (clawdRoot : jsstring)
    : Notifier.Config :=
  {| Notifier.clawdRoot := clawdRoot;
     Notifier.healthLog :=
       envOr (env (js "HEALTH_CHECK_LOG_FILE"))
             (js "/tmp/clawdbot/health-check.log");
     Notifier.notionDbId := env (js "HEALTH_CHECK_NOTION_DB_ID");
     Notifier.telegramGroup :=
       envOr (env (js "HEALTH_CHECK_TELEGRAM_GROUP")) (js "discussion");
     Notifier.alertOnly :=
       match env (js "HEALTH_CHECK_ALERT_ONLY") with
       | Some v => negb (JS.eqb v (js "false"))
       | None => true
       end |}.

(** The options object [{ full }] handed to every check. *)
Record CheckOptions := { o_full : bool }.

(** How the call of a check ends: its promise settles, with a result or
    with what it throws, or the process dies of an exception that nothing
    handles while the check runs, as the dependency check lets it on the
    [error] event of a git that cannot be started. *)
Inductive Ending :=
| Settles (o : Outcome PartialResult)
| EndsProcess (msg : jsstring).

Definition Check := jsstring -> CheckOptions -> Ending.

(** The [run] functions of the five check modules. *)
Record Checks := {
  config : Check;
  syntax : Check;
  dependencies : Check;
  logs : Check;
  git : Check
}.

Definition basicChecks (c : Checks) : list (jsstring * Check) :=
  [(js "Config Check", config c);
   (js "Syntax Check", syntax c);
   (js "Dependencies Check", dependencies c)].

Definition fullChecks (c : Checks) : list (jsstring * Check) :=
  basicChecks c
  ++ [(js "Logs Analysis", logs c);
      (js "Git Status", git c)].

(** What [main] itself does to its surroundings, in order: the directory
    and the file of the logger and the scripts of the notifier.  The lines
    written to the console are left out, and so is what the checks do,
    which are given to [main] as functions. *)
Inductive Event :=
| Mkdir (dir : jsstring)
| AppendFile (path data : jsstring)
| Spawned (call : Notifier.Call).

(** The host: the successive readings of the clock ([Date.now()] and
    [new Date()]), the two renderings of a date, the outcome of
    [fs.appendFile] and [spawn]. *)
Record Host := {
  clock : nat -> Z;
  toISOString : Z -> jsstring;
  toLocaleString : Z -> jsstring;
  appendFile : jsstring -> jsstring -> Outcome unit;
  spawn : Spawn
}.

(** [list] without its longest prefix of elements that satisfy [f]. *)
Fixpoint dropWhile {A} (f : A -> bool) (l : list A) : list A :=
  match l with
  | [] => []
  | x :: l' => if f x then dropWhile f l' else l
  end.

Definition isSlash (c : codeunit) : bool := N.eqb c 47.

(** [path.dirname(p)] of [path.posix]: the scan runs from the last unit
    down to the second one, over the slashes the path ends in and over the
    name before them, to the slash [end] that closes the directory. *)
Definition dirname (p : jsstring) : jsstring :=
  match p with
  | [] => js "."
  | first :: others =>
      let beforeName :=
        dropWhile (fun c => negb (isSlash c)) (dropWhile isSlash (rev others)) in
      match beforeName with
      | [] => if isSlash first then js "/" else js "."
      | _ :: _ =>
          let end_ := List.length beforeName in
          if isSlash first && (end_ =? 1) then js "//" else firstn end_ p
      end
  end.

Section Run.
Variable host : Host.

(** How the loop over the checks ends: with the results of all checks
    and the number of readings of the clock, or with the rejection of
    [runCheck], or with the death of the process. *)
Inductive Loop :=
| Completed (results : list CheckResult) (tick : nat)
| Rejected (e : Thrown)
| Died (msg : jsstring).

(** The loop over the checks: [tick] counts the readings of the clock made
    so far, two for each check.  A rejected [runCheck] ends [main]. *)
Fixpoint runChecks (clawdRoot : jsstring) (isFull : bool)
    (checks : list (jsstring * Check)) (tick : nat)
    (results : list CheckResult) : Loop :=
  match checks with
  | [] => Completed results tick
  | (checkName, check) :: rest =>
      match check clawdRoot {| o_full := isFull |} with
      | EndsProcess msg => Died msg
      | Settles settled =>
          match runCheck clawdRoot (clock host tick) (clock host (S tick))
                  checkName (fun _ _ => settled) {| o_full := isFull |} with
          | Returned result =>
              runChecks clawdRoot isFull rest (S (S tick)) (results ++ [result])
          | Threw e => Rejected e
          end
      end
  end.

(** [logger.append(logPath, content)] with its effects: the directory is
    made (a failure of [mkdir] is swallowed), then the block is appended. *)
Definition loggerAppend (logPath content : jsstring) (tick : nat)
    : Outcome unit * list Event :=
  let timestamp := toISOString host (clock host tick) in
  let logEntry := Logger.logEntry timestamp content in
  (appendFile host logPath logEntry,
   [Mkdir (dirname logPath); AppendFile logPath logEntry]).

(** How the process ends: its exit code and what it did. *)
Record End := {
  exitCode : Z;
  events : list Event
}.

(** [main()] with the handler of its rejection, which exits with 1, as
    the process does when an exception that nothing handles ends it. *)
Definition main (env : jsstring -> option jsstring) (clawdRoot : jsstring)
    (checks : Checks) (argv : list jsstring) : End :=
  let options := parseArgs argv in
  let cfg := CONFIG env clawdRoot in
  let checksToRun :=
    if full options then fullChecks checks else basicChecks checks in
  match runChecks clawdRoot (full options) checksToRun 0 [] with
  | Rejected _ | Died _ => {| exitCode := 1; events := [] |}
  | Completed results tick =>
      let summary :=
        generateSummary (toISOString host (clock host tick)) results in
      let reportText :=
        formatResults (toLocaleString host (clock host (S tick))) results
          summary in
      let '(logged, events1) :=
        if dryRun options then (Returned tt, [])
        else loggerAppend (Notifier.healthLog cfg) reportText (S (S tick)) in
      match logged with
      | Threw _ => {| exitCode := 1; events := events1 |}
      | Returned _ =>
          let shouldNotify :=
            negb (Notifier.alertOnly cfg)
            || negb (JS.eqb (overallStatus summary) (js "pass")) in
          let '(sent, calls) :=
            if notify options && shouldNotify
            then Notifier.send (spawn host) cfg
                   {| Notifier.summary := summary;
                      Notifier.results := results;
                      Notifier.reportText := reportText |}
            else (Returned [], []) in
          let events2 := events1 ++ map Spawned calls in
          match sent with
          | Threw _ => {| exitCode := 1; events := events2 |}
          | Returned _ =>
              {| exitCode := if JS.eqb (overallStatus summary) (js "pass")
                             then 0 else 1;
                 events := events2 |}
          end
      end
  end.

End Run.

End Main.

(* ===================================================================== *)
(** ** The other functions of [lib/logger.js]                              *)
(* ===================================================================== *)

Module LogFile.

(** The files on disk: the text each path holds, if any. *)
Definition Disk := jsstring -> option jsstring.

Definition store (path text : jsstring) (disk : Disk) : Disk :=
  fun p => if JS.eqb p path then Some text else disk p.

(** [fs.appendFile] and [fs.writeFile] when they succeed: [append] adds
    its block to what the file holds, or creates the file; [write]
    replaces what the file holds. *)
Definition append (timestamp logPath content : jsstring) (disk : Disk) : Disk :=
  store logPath (Logger.append timestamp (text (disk logPath)) content) disk.

Definition write (logPath content : jsstring) (disk : Disk) : Disk :=
  store logPath content disk.

(** [/={60}\n📅 \d{4}-\d{2}-\d{2}T/] *)
Definition recentSeparator : regex :=
  seqs [exactly 60 (chr 61); lit (LF ++ js "📅 ");
        exactly 4 digit; lit (js "-"); exactly 2 digit; lit (js "-");
        exactly 2 digit; lit (js "T")].

(** [array.slice(-n)] for every [n]: [slice(-0)] is [slice(0)], the whole
    array. *)
Definition sliceLast {A} (n : nat) (l : list A) : list A :=
  match n with
  | O => l
  | S _ => skipn (List.length l - n) l
  end.

(** [readRecent(logPath, n)] *)
Definition readRecent (fs : FileSystem) (logPath : jsstring) (n : nat)
    : list jsstring :=
  if negb (existsSync fs logPath) then []
  else match readFile fs logPath with
       | Returned content => sliceLast n (split recentSeparator content)
       | Threw _ => []
       end.

(** The file system a disk presents to the readers. *)
Definition reading (disk : Disk) : FileSystem :=
  {| existsSync := fun p => match disk p with Some _ => true | None => false end;
     readFile := fun p => match disk p with
                          | Some text => Returned text
                          | None => Threw (newError (js "ENOENT"))
                          end;
     readdir := fun _ => Threw (newError (js "ENOTDIR")) |}.

End LogFile.

(* ===================================================================== *)
(** ** The whole config check: [run] of [checks/config.js]                 *)
(* ===================================================================== *)

Module ConfigRun.
Import Runner ConfigCheck.

(** The counters and the details the loop over the skills works on. *)
Record Skills := {
  details : list Detail;
  skillsChecked : nat;
  skillsWithIssues : nat
}.

Definition isPass (st : option jsstring) : bool :=
  match st with Some s => JS.eqb s (js "pass") | None => false end.

Section Run.
Variable fs : FileSystem.

(** [fs.access(p)], which tests that the path exists. *)
Definition access (p : jsstring) : Outcome unit :=
  if existsSync fs p then Returned tt
  else Threw (newError (js "ENOENT: no such file or directory, access '"
                        ++ p ++ js "'")).

(** One turn of the loop over the skills.  Its [try] has an empty handler:
    a skill without [.env], or whose check rejects, changes nothing. *)
Definition skillStep (skillsDir : jsstring) (st : Skills) (skill : jsstring)
    : Skills :=
  let skillEnv := pathJoin (pathJoin skillsDir skill) (js ".env") in
  match access skillEnv with
  | Threw _ => st
  | Returned _ =>
      match checkEnvFile fs skillEnv with
      | Threw _ => st
      | Returned skillResult =>
          let failing := negb (isPass (p_status skillResult)) in
          {| details :=
               details st
               ++ (if failing
                   then [{| d_status := text (p_status skillResult);
                            d_message := skill ++ js "/.env: "
                                           ++ interpolate (p_message skillResult) |}]
                   else [])
               ++ match p_details skillResult with
                  | Some ds =>
                      map (fun d => {| d_status := d_status d;
                                       d_message := skill ++ js ": " ++ d_message d |})
                          ds
                  | None => []
                  end;
             skillsChecked := S (skillsChecked st);
             skillsWithIssues :=
               if failing then S (skillsWithIssues st) else skillsWithIssues st |}
      end
  end.

Definition keyFiles (clawdRoot : jsstring) : list (jsstring * jsstring) :=
  [(pathJoin clawdRoot (js "package.json"), js "Root package.json");
   (pathJoin (pathJoin (pathJoin clawdRoot (js "skills"))
                       (js "notion-persistence-universal")) (js "SKILL.md"),
    js "Notion skill config");
   (pathJoin (pathJoin (pathJoin clawdRoot (js "skills"))
                       (js "telegram-notification")) (js "SKILL.md"),
    js "Telegram skill config")].

Definition keyFileDetail (file : jsstring * jsstring) : Detail :=
  let '(filePath, name) := file in
  match access filePath with
  | Returned _ => {| d_status := js "pass"; d_message := name ++ js " exists" |}
  | Threw _ => {| d_status := js "fail"; d_message := name ++ js " missing" |}
  end.

Definition keyFileFixes (file : jsstring * jsstring) : list jsstring :=
  let '(filePath, name) := file in
  match access filePath with
  | Returned _ => []
  | Threw _ => [js "Restore or create " ++ filePath]
  end.

Definition run (clawdRoot : jsstring) : Outcome PartialResult :=
  let mainEnv := pathJoin clawdRoot (js ".env") in
  mainResult <- checkEnvFile fs mainEnv ;;
  let details0 := match p_details mainResult with Some ds => ds | None => [] end in
  let allIssues :=
    if truthyOpt (p_error mainResult) then [text (p_error mainResult)] else [] in
  let allFixes0 := match p_fix mainResult with Some fx => fx | None => [] end in
  let skillsDir := pathJoin clawdRoot (js "skills") in
  skills <-
    match readdir fs skillsDir with
    | Returned names =>
        let st := fold_left (skillStep skillsDir) names
                    {| details := details0; skillsChecked := 0;
                       skillsWithIssues := 0 |} in
        Returned
          {| details :=
               details st
               ++ (if 0 <? skillsChecked st
                   then [{| d_status := js "pass";
                            d_message := js "Checked "
                                           ++ lengthToString (skillsChecked st)
                                           ++ js " skill .env files" |}]
                        ++ (if 0 <? skillsWithIssues st
                            then [{| d_status := js "warning";
                                     d_message :=
                                       lengthToString (skillsWithIssues st)
                                       ++ js " skills have config issues" |}]
                            else [])
                   else []);
             skillsChecked := skillsChecked st;
             skillsWithIssues := skillsWithIssues st |}
    | Threw error =>
        msg <- messageOf error ;;
        Returned
          {| details :=
               details0
               ++ [{| d_status := js "warning";
                      d_message := js "Could not check skills: "
                                     ++ interpolate msg |}];
             skillsChecked := 0;
             skillsWithIssues := 0 |}
    end ;;
  let status :=
    if (0 <? skillsWithIssues skills) && isPass (p_status mainResult)
    then Some (js "warning")
    else p_status mainResult in
  Returned
    {| p_name := None;
       p_status := status;
       p_duration := None;
       p_message := Some (js "Config check: " ++ countOf REQUIRED_ENV_VARS
                          ++ js " required vars checked across "
                          ++ lengthToString (skillsChecked skills + 1)
                          ++ js " env files");
       p_details := Some (details skills
                          ++ map keyFileDetail (keyFiles clawdRoot));
       p_error := match allIssues with
                  | [] => None
                  | _ => Some (join (js "; ") allIssues)
                  end;
       p_stack := None;
       p_fix := Some (allFixes0 ++ flat_map keyFileFixes (keyFiles clawdRoot)) |}.

End Run.

End ConfigRun.

(* ===================================================================== *)
(** ** The dependency check: [checks/dependencies.js]                      *)
(* ===================================================================== *)

Module DependenciesCheck.
Import Runner.

(** What the check reads of a parsed manifest: the keys of
    [pkg.dependencies || {}] and of [pkg.devDependencies || {}]. *)
Record Package := {
  dependencies : list jsstring;
  devDependencies : list jsstring
}.

(** The value of [JSON.parse(content)]: [null], on which reading a property
    throws, or any other value. *)
Inductive Parsed :=
| ParsedNull
| ParsedValue (pkg : Package).

(** How [run] ends: its promise settles, or the process dies of the
    [error] event of the [git] child, for which [run] has no listener. *)
Inductive End :=
| Settled (o : Outcome PartialResult)
| Crashed (msg : jsstring).

Definition CRITICAL : list jsstring :=
  [js "dotenv"; js "@notionhq/client"; js "node-telegram-bot-api"].

Definition contains (l : list jsstring) (x : jsstring) : bool :=
  existsb (JS.eqb x) l.

(** The TypeError of reading [dependencies] of [null], with the text V8
    gives it. *)
Definition nullRead : Thrown :=
  newError (js "Cannot read properties of null (reading 'dependencies')").

Record Progress := {
  details : list Detail;
  fixes : list jsstring;
  checked : nat;
  passed : nat;
  failed : nat
}.

Definition isPass (result : PartialResult) : bool :=
  match p_status result with
  | Some st => JS.eqb st (js "pass")
  | None => false
  end.

Definition detailsOf (result : PartialResult) : list Detail :=
  match p_details result with Some ds => ds | None => [] end.

Section Check.
Variable fs : FileSystem.
(** [JSON.parse] of the host, and [spawn] with the option [{ cwd }]. *)
Variable JSON_parse : jsstring -> Outcome Parsed.
Variable spawnIn : jsstring -> Spawn.
(** The TypeError the engine throws on spreading [undefined] into the
    arguments of a call. *)
Variable spreadOfUndefined : Thrown.

Definition checkPackageJson (pkgPath : jsstring) : Outcome PartialResult :=
  catch
    (content <- readFile fs pkgPath ;;
     parsed <- JSON_parse content ;;
     match parsed with
     | ParsedNull => Threw nullRead
     | ParsedValue pkg =>
         let nodeModulesDir := pathJoin (Main.dirname pkgPath) (js "node_modules") in
         let nodeModulesExists := existsSync fs nodeModulesDir in
         let criticalDeps :=
           filter (fun dep => contains (dependencies pkg) dep
                              || contains (devDependencies pkg) dep) CRITICAL in
         let missingCritical :=
           filter (fun dep => negb (existsSync fs (pathJoin nodeModulesDir dep)))
                  criticalDeps in
         Returned
           {| p_name := None;
              p_status := Some (match missingCritical with
                                | [] => js "pass"
                                | _ => js "fail"
                                end);
              p_duration := None;
              p_message := None;
              p_details :=
                Some ([{| d_status := js "pass";
                          d_message :=
                            lengthToString (List.length (dependencies pkg))
                            ++ js " dependencies defined" |};
                       {| d_status := if nodeModulesExists then js "pass"
                                      else js "fail";
                          d_message :=
                            js "node_modules "
                            ++ (if nodeModulesExists then js "exists"
                                else js "missing") |}]
                      ++ match criticalDeps with
                         | [] => []
                         | _ => [{| d_status := js "pass";
                                    d_message := js "Critical deps: "
                                                   ++ join (js ", ") criticalDeps |}]
                         end
                      ++ match missingCritical with
                         | [] => []
                         | _ => [{| d_status := js "fail";
                                    d_message := js "Missing critical deps: "
                                                   ++ join (js ", ") missingCritical |}]
                         end);
              p_error := None;
              p_stack := None;
              p_fix := Some (match missingCritical with
                             | [] => []
                             | _ => [js "Run: npm install in "
                                     ++ Main.dirname pkgPath]
                             end) |}
     end)
    (fun error =>
       msg <- messageOf error ;;
       Returned
         {| p_name := None;
            p_status := Some (js "error");
            p_duration := None;
            p_message := None;
            p_details := Some [{| d_status := js "error";
                                  d_message := js "Failed to check " ++ pkgPath
                                                 ++ js ": " ++ interpolate msg |}];
            p_error := None;
            p_stack := None;
            p_fix := None |}).

(** The part of [run] about the root manifest.  Spreading the missing
    [fix] of an error result throws. *)
Definition rootStep (clawdRoot : jsstring) : Outcome Progress :=
  let rootPkg := pathJoin clawdRoot (js "package.json") in
  if existsSync fs rootPkg then
    result <- checkPackageJson rootPkg ;;
    let details1 :=
      [{| d_status := js "pass"; d_message := js "Root package.json OK" |}]
      ++ detailsOf result in
    if isPass result then
      Returned {| details := details1; fixes := []; checked := 1;
                  passed := 1; failed := 0 |}
    else
      match p_fix result with
      | Some fx => Returned {| details := details1; fixes := fx; checked := 1;
                               passed := 0; failed := 1 |}
      | None => Threw spreadOfUndefined
      end
  else
    Returned {| details := []; fixes := []; checked := 0; passed := 0;
                failed := 0 |}.

(** The loop over the skills: what it has recorded, and the exception that
    ended it, if one did.  Calling [map] on the missing [fix] of an error
    result throws after the counters and the details are updated. *)
Fixpoint skillsLoop (skillsDir : jsstring) (skills : list jsstring)
    (st : Progress) : Progress * option Thrown :=
  match skills with
  | [] => (st, None)
  | skill :: rest =>
      let skillPkg := pathJoin (pathJoin skillsDir skill) (js "package.json") in
      if existsSync fs skillPkg then
        match checkPackageJson skillPkg with
        | Threw e =>
            ({| details := details st; fixes := fixes st;
                checked := S (checked st); passed := passed st;
                failed := failed st |}, Some e)
        | Returned result =>
            let statusLine :=
              {| d_status := text (p_status result);
                 d_message := skill ++ js "/package.json: "
                                ++ (if isPass result then js "OK"
                                    else js "Issues found") |} in
            if isPass result then
              skillsLoop skillsDir rest
                {| details := details st ++ [statusLine]; fixes := fixes st;
                   checked := S (checked st); passed := S (passed st);
                   failed := failed st |}
            else
              let st1 :=
                {| details := details st ++ [statusLine] ++ detailsOf result;
                   fixes := fixes st;
                   checked := S (checked st); passed := passed st;
                   failed := S (failed st) |} in
              match p_fix result with
              | Some fx =>
                  skillsLoop skillsDir rest
                    {| details := details st1;
                       fixes := fixes st1
                         ++ map (fun f => f ++ js " (skill: " ++ skill ++ js ")") fx;
                       checked := checked st1; passed := passed st1;
                       failed := failed st1 |}
              | None => (st1, Some (typeError (js "map")))
              end
        end
      else skillsLoop skillsDir rest st
  end.

Definition couldNotCheck (st : Progress) (msg : option jsstring) : Progress :=
  {| details := details st
       ++ [{| d_status := js "warning";
              d_message := js "Could not check skills: " ++ interpolate msg |}];
     fixes := fixes st; checked := checked st; passed := passed st;
     failed := failed st |}.

Definition finish (st : Progress) : PartialResult :=
  {| p_name := None;
     p_status := Some (if 0 <? failed st then js "fail"
                       else if checked st =? 0 then js "warning"
                       else js "pass");
     p_duration := None;
     p_message := Some (js "Dependencies: " ++ lengthToString (passed st)
                        ++ js "/" ++ lengthToString (checked st)
                        ++ js " package.json checks passed");
     p_details := Some (details st);
     p_error := None;
     p_stack := None;
     p_fix := Some (fixes st) |}.

Definition run (clawdRoot : jsstring) : End :=
  match rootStep clawdRoot with
  | Threw e => Settled (Threw e)
  | Returned st0 =>
      let skillsDir := pathJoin clawdRoot (js "skills") in
      match readdir fs skillsDir with
      | Threw error =>
          Settled (msg <- messageOf error ;;
                   Returned (finish (couldNotCheck st0 msg)))
      | Returned skills =>
          match skillsLoop skillsDir skills st0 with
          | (st1, Some error) =>
              Settled (msg <- messageOf error ;;
                       Returned (finish (couldNotCheck st1 msg)))
          | (st1, None) =>
              match spawnIn clawdRoot (js "git")
                      [js "ls-files"; js "node_modules/"; js "*/*/node_modules/"] with
              | Refused _ => Settled (Returned (finish st1))
              | ErrorEvent msg => Crashed msg
              | Closed _ stdout _ =>
                  let trackedModules := GitCheck.nonEmptyLines (trim stdout) in
                  Settled
                    (Returned
                       (finish
                          (match trackedModules with
                           | [] => st1
                           | _ =>
                               {| details := details st1
                                    ++ [{| d_status := js "warning";
                                           d_message :=
                                             js "node_modules files tracked in git: "
                                             ++ lengthToString
                                                  (List.length trackedModules) |}];
                                  fixes := fixes st1
                                    ++ [js "Add node_modules/ to .gitignore and remove from git: git rm -r --cached node_modules/"];
                                  checked := checked st1; passed := passed st1;
                                  failed := failed st1 |}
                           end)))
              end
          end
      end
  end.

End Check.

End DependenciesCheck.

(* ===================================================================== *)
(** ** Notions and sample inputs for the main function and the checks      *)
(* ===================================================================== *)

(** A result that leaves the overall status at pass. *)
Definition untroubled (r : Runner.CheckResult) : Prop :=
  Runner.status r <> js "fail" /\ Runner.status r <> js "error"
  /\ Runner.status r <> js "warning".

(** What the runner makes of a check: the result of a check that returns
    has the returned status, or unknown, and the returned name, or the
    name of the check; the result of a check that throws an Error is an
    error under the name of the check, with the message of the Error. *)
Definition reports (root : jsstring) (isFull : bool)
    (check : jsstring * Main.Check) (r : Runner.CheckResult) : Prop :=
  match snd check root {| Main.o_full := isFull |} with
  | Main.Settles (Returned p) =>
      Runner.status r = Runner.orElse (Runner.p_status p) (js "unknown")
      /\ Runner.name r = Runner.orElse (Runner.p_name p) (fst check)
  | Main.Settles (Threw (ThrownValue msg _)) =>
      Runner.status r = js "error" /\ Runner.name r = fst check
      /\ Runner.error r = msg
  | _ => False
  end.

(** A check that gets a result: it returns, or throws a value that has
    properties. *)
Definition reported (root : jsstring) (isFull : bool)
    (check : jsstring * Main.Check) : Prop :=
  match snd check root {| Main.o_full := isFull |} with
  | Main.Settles (Returned _) | Main.Settles (Threw (ThrownValue _ _)) => True
  | _ => False
  end.

(** An argument the run was called with: one of those that follow the
    program and the script. *)
Definition given (flag : jsstring) (argv : list jsstring) : Prop :=
  exists program file before after,
    argv = program :: file :: before ++ flag :: after.

(** The checks of a quick run and those of a full run, under the names
    the report gives them. *)
Definition quickRun (c : Main.Checks) : list (jsstring * Main.Check) :=
  [(js "Config Check", Main.config c);
   (js "Syntax Check", Main.syntax c);
   (js "Dependencies Check", Main.dependencies c)].

Definition fullRun (c : Main.Checks) : list (jsstring * Main.Check) :=
  [(js "Config Check", Main.config c);
   (js "Syntax Check", Main.syntax c);
   (js "Dependencies Check", Main.dependencies c);
   (js "Logs Analysis", Main.logs c);
   (js "Git Status", Main.git c)].

(** A run whose checks were all given a result: the five checks under
    [--full], the first three without it. *)
Definition completes (host : Main.Host) (root : jsstring)
    (checks : Main.Checks) (argv : list jsstring)
    (results : list Runner.CheckResult) (tick : nat) : Prop :=
  (given (js "--full") argv /\
   Main.runChecks host root true (fullRun checks) 0 []
     = Main.Completed results tick)
  \/
  (~ given (js "--full") argv /\
   Main.runChecks host root false (quickRun checks) 0 []
     = Main.Completed results tick).

(** A result that keeps the overall status from pass. *)
Definition troubled (r : Runner.CheckResult) : Prop :=
  Runner.status r = js "fail" \/ Runner.status r = js "error"
  \/ Runner.status r = js "warning".

(** The title of the notice of a run: it fails when a result has the
    status fail or error, else it warns when a result has the status
    warning, else it passes. *)
Definition titled (results : list Runner.CheckResult) (title : jsstring)
    : Prop :=
  (Exists (fun r => Runner.status r = js "fail"
                    \/ Runner.status r = js "error") results /\
   title = js "❌ Health Check: FAIL")
  \/
  (Forall (fun r => Runner.status r <> js "fail"
                    /\ Runner.status r <> js "error") results /\
   Exists (fun r => Runner.status r = js "warning") results /\
   title = js "⚠️ Health Check: WARNING")
  \/
  (Forall untroubled results /\ title = js "✅ Health Check: PASS").

(** The value of a setting: the text the environment gives the variable
    when it is not empty, the fallback otherwise. *)
Definition setting (env : jsstring -> option jsstring)
    (name fallback value : jsstring) : Prop :=
  match env name with
  | Some (c :: v) => value = c :: v
  | _ => value = fallback
  end.

(** The path of a file of the given name in the given directory: the name
    holds no slash and the directory does not end with one. *)
Definition inDirectory (dir name path : jsstring) : Prop :=
  path = dir ++ js "/" ++ name /\
  name <> [] /\ ~ In 47%N name /\
  exists d c, dir = d ++ [c] /\ c <> 47%N.

(** The text that opens an entry of the log, up to the time of the day. *)
Definition isSeparator (m : jsstring) : Prop :=
  exists date,
    isDate date /\ m = repeat 61%N 60 ++ LF ++ js "📅 " ++ date ++ js "T".

(** The pieces that the separators cut a text into, from left to right:
    each separator is the first to start in what is left of the text. *)
Inductive cutBy (sep : jsstring -> Prop) : jsstring -> list jsstring -> Prop :=
| cut_last (s : jsstring) :
    (forall a m b, s = a ++ m ++ b -> ~ sep m) ->
    cutBy sep s [s]
| cut_piece (piece m rest : jsstring) (pieces : list jsstring) :
    sep m ->
    (forall a m' b,
       piece ++ m ++ rest = a ++ m' ++ b -> sep m' ->
       List.length piece <= List.length a) ->
    cutBy sep rest pieces ->
    cutBy sep (piece ++ m ++ rest) (piece :: pieces).

(** The checks the main function runs under the given arguments. *)
Definition checksToRun (checks : Main.Checks) (argv : list jsstring)
    : list (jsstring * Main.Check) :=
  if Main.full (Main.parseArgs argv) then Main.fullChecks checks
  else Main.basicChecks checks.

(** A host whose clock advances by one at each reading, whose disk takes
    every write and whose children all exit with code 0. *)
Definition steadyHost : Main.Host :=
  {| Main.clock := fun tick => (100 + Z.of_nat tick)%Z;
     Main.toISOString := fun _ => sampleNow;
     Main.toLocaleString := fun _ => sampleLocalTime;
     Main.appendFile := fun _ _ => Returned tt;
     Main.spawn := fun _ _ => Closed (Some 0%Z) [] [] |}.

(** A check that returns the given status, one that throws an Error and
    one that throws [null]. *)
Definition answering (st : jsstring) : Main.Check :=
  fun _ _ => Main.Settles (Returned (onlyStatus (Some st))).
Definition failingCheck : Main.Check :=
  fun _ _ =>
    Main.Settles
      (Threw (ThrownValue (Some (js "boom")) (Some (js "Error: boom")))).
Definition nullThrowingCheck : Main.Check :=
  fun _ _ => Main.Settles (Threw (ThrownNullish Null)).

(** The dependency check as the main function calls it. *)
Definition dependenciesRun (fs : FileSystem)
    (JSON_parse : jsstring -> Outcome DependenciesCheck.Parsed)
    (spawnIn : jsstring -> Spawn) (spreadOfUndefined : Thrown) : Main.Check :=
  fun clawdRoot _ =>
    match DependenciesCheck.run fs JSON_parse spawnIn spreadOfUndefined
            clawdRoot with
    | DependenciesCheck.Settled o => Main.Settles o
    | DependenciesCheck.Crashed msg => Main.EndsProcess msg
    end.

Definition allPassing : Main.Checks :=
  {| Main.config := answering (js "pass");
     Main.syntax := answering (js "pass");
     Main.dependencies := answering (js "pass");
     Main.logs := answering (js "pass");
     Main.git := answering (js "pass") |}.

(** The syntax check throws and the log analysis warns. *)
Definition oneThrowing : Main.Checks :=
  {| Main.config := answering (js "pass");
     Main.syntax := failingCheck;
     Main.dependencies := answering (js "pass");
     Main.logs := answering (js "warning");
     Main.git := answering (js "pass") |}.

Definition noEnv : jsstring -> option jsstring := fun _ => None.

Definition node : jsstring := js "/usr/bin/node".
Definition script : jsstring := js "/clawd/skills/self-health-check/scripts/health-check.js".

(** A skill whose [.env] file exists and is checked with a status other
    than pass. *)
Definition skillHasIssues (fs : FileSystem) (skillsDir skill : jsstring)
    : Prop :=
  let skillEnv := pathJoin (pathJoin skillsDir skill) (js ".env") in
  existsSync fs skillEnv = true /\
  exists skillResult,
    ConfigCheck.checkEnvFile fs skillEnv = Returned skillResult /\
    Runner.p_status skillResult <> Some (js "pass").

(** A disk that holds the listed files and directories. *)
Definition diskOf (files : list (jsstring * jsstring))
    (dirs : list (jsstring * list jsstring)) : FileSystem :=
  {| existsSync := fun p =>
       existsb (fun '(q, _) => JS.eqb q p) files
       || existsb (fun '(q, _) => JS.eqb q p) dirs;
     readFile := fun p =>
       match find (fun '(q, _) => JS.eqb q p) files with
       | Some (_, content) => Returned content
       | None => Threw (newError (js "ENOENT"))
       end;
     readdir := fun p =>
       match find (fun '(q, _) => JS.eqb q p) dirs with
       | Some (_, names) => Returned names
       | None => Threw (newError (js "ENOTDIR"))
       end |}.

(** A root whose [.env] sets every key, with two skills: one has an
    [.env] that lacks the first required key, the other has none. *)
Definition configDisk : FileSystem :=
  diskOf [(js "/clawd/.env", envComplete);
          (js "/clawd/skills/notes/.env", envOneAbsent);
          (js "/clawd/package.json", js "{}")]
         [(js "/clawd/skills", [js "notes"; js "plain"])].

(** A manifest that cannot be used: reading it fails, or parsing it
    fails, or it is the JSON text [null]; [msg] is the message of what is
    thrown on the way. *)
Definition unusable (fs : FileSystem)
    (JSON_parse : jsstring -> Outcome DependenciesCheck.Parsed)
    (pkgPath : jsstring) (msg : option jsstring) : Prop :=
  (exists stk, readFile fs pkgPath = Threw (ThrownValue msg stk)) \/
  (exists content,
     readFile fs pkgPath = Returned content /\
     ((exists stk, JSON_parse content = Threw (ThrownValue msg stk)) \/
      (JSON_parse content = Returned DependenciesCheck.ParsedNull /\
       DependenciesCheck.nullRead = ThrownValue msg None))).

(** What [checkPackageJson] returns for such a manifest. *)
Definition unusableResult (pkgPath : jsstring) (msg : option jsstring)
    : Runner.PartialResult :=
  {| Runner.p_name := None;
     Runner.p_status := Some (js "error");
     Runner.p_duration := None;
     Runner.p_message := None;
     Runner.p_details :=
       Some [{| Runner.d_status := js "error";
                Runner.d_message := js "Failed to check " ++ pkgPath
                                      ++ js ": " ++ Runner.interpolate msg |}];
     Runner.p_error := None;
     Runner.p_stack := None;
     Runner.p_fix := None |}.

(** Three manifests, and a parser that knows them: an empty object, an
    object that declares dotenv, and the text [null]. *)
Definition manifestPlain : jsstring := js "{}".
Definition manifestDotenv : jsstring :=
  js "{" ++ QUOTE ++ js "dependencies" ++ QUOTE ++ js ":{" ++ QUOTE
  ++ js "dotenv" ++ QUOTE ++ js ":" ++ QUOTE ++ js "^16.0.0" ++ QUOTE
  ++ js "}}".
Definition manifestNull : jsstring := js "null".

Definition sampleParse : jsstring -> Outcome DependenciesCheck.Parsed :=
  fun content =>
    if JS.eqb content manifestPlain then
      Returned (DependenciesCheck.ParsedValue
                  {| DependenciesCheck.dependencies := [];
                     DependenciesCheck.devDependencies := [] |})
    else if JS.eqb content manifestDotenv then
      Returned (DependenciesCheck.ParsedValue
                  {| DependenciesCheck.dependencies := [js "dotenv"];
                     DependenciesCheck.devDependencies := [] |})
    else if JS.eqb content manifestNull then
      Returned DependenciesCheck.ParsedNull
    else Threw (newError (js "Unexpected token in JSON")).

Definition sampleSpread : Thrown :=
  newError (js "Spread syntax requires ...iterable[Symbol.iterator] to be a function").

(** A root whose manifest declares dotenv, not installed, with three
    skills: the manifest of the first is fine, that of the second is
    broken, that of the third declares dotenv. *)
Definition dependenciesDisk : FileSystem :=
  diskOf [(js "/clawd/package.json", manifestDotenv);
          (js "/clawd/skills/notes/package.json", manifestPlain);
          (js "/clawd/skills/broken/package.json", js "{oops");
          (js "/clawd/skills/later/package.json", manifestDotenv)]
         [(js "/clawd/skills", [js "notes"; js "broken"; js "later"])].

(** A root whose manifest is the text [null]. *)
Definition nullManifestDisk : FileSystem :=
  diskOf [(js "/clawd/package.json", manifestNull)] [].

(** A [git] that cannot be started, and one that lists no file. *)
Definition noGit : jsstring -> Spawn :=
  fun _ _ _ => ErrorEvent (js "spawn git ENOENT").
Definition quietGit : jsstring -> Spawn :=
  fun _ _ _ => Closed (Some 0%Z) [] [].

(** A category that the scan of a log line can file an error under. *)
Definition assignable (category : jsstring) : Prop :=
  category <> js "Fatal Error" /\ category <> js "Syntax Error".

Definition syntaxFix : jsstring :=
  js "Fix JavaScript syntax errors in affected files".

(** A log whose one line reports a syntax error. *)
Definition syntaxErrorLog : jsstring :=
  js "08:30:02 SyntaxError: Unexpected token".

(** A root without manifest or skills, checked where [git] cannot be
    started: the dependency check ends the process. *)
Definition gitless : Main.Checks :=
  {| Main.config := answering (js "pass");
     Main.syntax := answering (js "pass");
     Main.dependencies :=
       dependenciesRun (diskOf [] [(js "/clawd/skills", [])]) sampleParse
         noGit sampleSpread;
     Main.logs := answering (js "pass");
     Main.git := answering (js "pass") |}.

(** A root whose manifest declares dotenv, installed. *)
Definition installedDisk : FileSystem :=
  diskOf [(js "/clawd/package.json", manifestDotenv)]
         [(js "/clawd/node_modules", [js "dotenv"]);
          (js "/clawd/node_modules/dotenv", [])].

(** A log of two entries, as [append] writes them. *)
Definition twoEntries : jsstring :=
  Logger.append (js "2026-01-06T09:00:00.000Z")
    (Logger.append sampleNow [] (js "first report"))
    (js "second report").

(** The results of a full run of [oneThrowing] on the steady host. *)
Definition oneThrowingResults : list Runner.CheckResult :=
  [plainResult (js "Config Check") (js "pass") 1;
   {| Runner.name := js "Syntax Check"; Runner.status := js "error";
      Runner.duration := 1; Runner.message := None; Runner.details := None;
      Runner.error := Some (js "boom");
      Runner.stack := Some (js "Error: boom"); Runner.fix_ := None |};
   plainResult (js "Dependencies Check") (js "pass") 1;
   plainResult (js "Logs Analysis") (js "warning") 1;
   plainResult (js "Git Status") (js "pass") 1].
(* ===================================================================== *)
(** * Properties                                                           *)
(* ===================================================================== *)

Unset Implicit Arguments.

(** ** Strings *)

(** The literals of the sources as code units: the warning sign carries a
    variation selector and the collision sign is a surrogate pair. *)
Example warning_sign_units : js "⚠️" = [9888; 65039]%N.
Proof. reflexivity. Qed.

Example collision_sign_units : js "💥" = [55357; 56485]%N.
Proof. reflexivity. Qed.

Example check_mark_units : js "✅" = [9989]%N.
Proof. reflexivity. Qed.

Lemma eqb_eq (a b : jsstring) : JS.eqb a b = true <-> a = b.
Proof.
  revert b; induction a as [|x a IH]; intros [|y b]; simpl;
    try (split; [discriminate | discriminate]); try tauto.
  rewrite andb_true_iff, N.eqb_eq, IH.
  split; [intros [-> ->]; reflexivity | intros H; inversion H; auto].
Qed.

Lemma eqb_refl (a : jsstring) : JS.eqb a a = true.
Proof. apply eqb_eq; reflexivity. Qed.

Lemma eqb_neq (a b : jsstring) : JS.eqb a b = false <-> a <> b.
Proof.
  rewrite <- eqb_eq. destruct (JS.eqb a b); split; congruence.
Qed.

Lemma startsWith_app (pre s : jsstring) : startsWith pre (pre ++ s) = true.
Proof.
  induction pre as [|x pre IH]; simpl; [reflexivity|].
  now rewrite N.eqb_refl, IH.
Qed.

Lemma includes_app_r (sub a b : jsstring) :
  includes sub b = true -> includes sub (a ++ b) = true.
Proof.
  intros H; induction a as [|x a IH]; simpl; [exact H|].
  rewrite IH. apply orb_true_r.
Qed.

Lemma includes_startsWith (sub s : jsstring) :
  startsWith sub s = true -> includes sub s = true.
Proof. intros H; destruct s; simpl; rewrite H; reflexivity. Qed.

Lemma includes_middle (sub a b : jsstring) :
  includes sub (a ++ sub ++ b) = true.
Proof. apply includes_app_r, includes_startsWith, startsWith_app. Qed.

Lemma includes_join (sep x : jsstring) (l : list jsstring) :
  In x l -> includes x (join sep l) = true.
Proof.
  induction l as [|y l IH]; [intros []|].
  intros [-> | H].
  - destruct l; simpl join.
    + rewrite <- (app_nil_r x) at 2. apply includes_startsWith, startsWith_app.
    + apply includes_startsWith, startsWith_app.
  - destruct l as [|z l]; [destruct H|].
    change (join sep (y :: z :: l)) with (y ++ sep ++ join sep (z :: l)).
    rewrite app_assoc. apply includes_app_r, IH, H.
Qed.

(** ** The matcher finds what the expressions denote *)

Section MatcherFacts.
Variable A : Type.
Implicit Types (k : Regex.cont A) (p : codeunit -> bool).

Lemma within_less (max : option nat) (n : nat) :
  allows max = true -> within (less max) n -> within max (S n).
Proof. destruct max as [[|m]|]; simpl; intros; try discriminate; lia. Qed.

Lemma less_within (max : option nat) (n : nat) :
  within max (S n) -> allows max = true /\ within (less max) n.
Proof. destruct max as [[|m]|]; simpl; intros; split; auto; lia. Qed.

Lemma repGreedy_sound p (s : jsstring) :
  forall min max pos cs k x,
    repGreedy p min max pos s cs k = Some x ->
    exists w rest,
      s = w ++ rest /\ Forall (fun c => p c = true) w /\
      min <= List.length w /\ within max (List.length w) /\
      k (pos + List.length w) rest cs = Some x.
Proof.
  induction s as [|c s IH]; intros min max pos cs k x H; cbn [repGreedy] in H.
  - destruct min; [|discriminate].
    exists [], []. rewrite Nat.add_0_r.
    destruct max; repeat split; simpl; auto; lia.
  - assert (Stop : match min with O => k pos (c :: s) cs | S _ => None end
                   = Some x ->
                   exists w rest,
                     c :: s = w ++ rest /\ Forall (fun c => p c = true) w /\
                     min <= List.length w /\ within max (List.length w) /\
                     k (pos + List.length w) rest cs = Some x).
    { intros E. destruct min; [|discriminate].
      exists [], (c :: s). rewrite Nat.add_0_r.
      destruct max; repeat split; simpl; auto; lia. }
    destruct (p c) eqn:Pc; [|exact (Stop H)].
    destruct (allows max) eqn:Al; [|exact (Stop H)].
    cbn [andb] in H.
    destruct (repGreedy p (Nat.pred min) (less max) (S pos) s cs k)
      as [y|] eqn:E; [|exact (Stop H)].
    inversion H; subst y.
    destruct (IH _ _ _ _ _ _ E) as [w [rest (-> & F & M & W & K)]].
    exists (c :: w), rest. repeat split; simpl; auto.
    + lia.
    + now apply within_less.
    + now rewrite Nat.add_succ_r.
Qed.

Lemma repLazy_sound p (s : jsstring) :
  forall min max pos cs k x,
    repLazy p min max pos s cs k = Some x ->
    exists w rest,
      s = w ++ rest /\ Forall (fun c => p c = true) w /\
      min <= List.length w /\ within max (List.length w) /\
      k (pos + List.length w) rest cs = Some x.
Proof.
  induction s as [|c s IH]; intros min max pos cs k x H; cbn [repLazy] in H.
  - destruct min; [|discriminate].
    destruct (k pos [] cs) eqn:E; [|discriminate]. inversion H; subst.
    exists [], []. rewrite Nat.add_0_r.
    destruct max; repeat split; simpl; auto; lia.
  - assert (More : (if p c && allows max
                    then repLazy p (Nat.pred min) (less max) (S pos) s cs k
                    else None) = Some x ->
                   exists w rest,
                     c :: s = w ++ rest /\ Forall (fun c => p c = true) w /\
                     min <= List.length w /\ within max (List.length w) /\
                     k (pos + List.length w) rest cs = Some x).
    { intros E. destruct (p c) eqn:Pc; [|discriminate].
      destruct (allows max) eqn:Al; [|discriminate]. cbn [andb] in E.
      destruct (IH _ _ _ _ _ _ E) as [w [rest (-> & F & M & W & K)]].
      exists (c :: w), rest. repeat split; simpl; auto.
      - lia.
      - now apply within_less.
      - now rewrite Nat.add_succ_r. }
    destruct min; [|exact (More H)].
    destruct (k pos (c :: s) cs) eqn:E; [|exact (More H)].
    inversion H; subst.
    exists [], (c :: s). rewrite Nat.add_0_r.
    destruct max; repeat split; simpl; auto; lia.
Qed.

(** Soundness: a successful run has matched a text the expression denotes
    and handed the rest to its continuation. *)
Lemma run_sound (r : regex) :
  forall pos s cs k x,
    Regex.run r pos s cs k = Some x ->
    exists w rest cs',
      s = w ++ rest /\ denotes r pos w rest /\
      k (pos + List.length w) rest cs' = Some x.
Proof.
  induction r as [|p|greedy min max p|r1 IH1 r2 IH2|r1 IH1 r2 IH2|i r1 IH1| |];
    intros pos s cs k x H; cbn [Regex.run] in H.
  - exists [], s, cs. rewrite Nat.add_0_r. now repeat split.
  - destruct s as [|c s]; [discriminate|].
    destruct (p c) eqn:Pc; [|discriminate].
    exists [c], s, cs. simpl. rewrite Nat.add_1_r. repeat split; eauto.
  - destruct greedy;
      [apply repGreedy_sound in H | apply repLazy_sound in H];
      destruct H as [w [rest (-> & F & M & W & K)]];
      exists w, rest, cs; simpl; auto.
  - apply IH1 in H. destruct H as [w1 [rest1 [cs1 (-> & D1 & K1)]]].
    apply IH2 in K1. destruct K1 as [w2 [rest [cs2 (-> & D2 & K2)]]].
    exists (w1 ++ w2), rest, cs2. rewrite <- app_assoc, length_app, Nat.add_assoc.
    repeat split; auto. simpl. eauto.
  - destruct (Regex.run r1 pos s cs k) as [y|] eqn:E.
    + inversion H; subst y. apply IH1 in E.
      destruct E as [w [rest [cs' (-> & D & K)]]].
      exists w, rest, cs'. simpl; auto.
    + apply IH2 in H. destruct H as [w [rest [cs' (-> & D & K)]]].
      exists w, rest, cs'. simpl; auto.
  - apply IH1 in H. destruct H as [w [rest [cs' (-> & D & K)]]].
    eexists w, rest, _. simpl; eauto.
  - destruct (Nat.eqb_spec pos 0); [|discriminate].
    exists [], s, cs. rewrite Nat.add_0_r. now repeat split.
  - destruct s; [|discriminate].
    exists [], [], cs. rewrite Nat.add_0_r. now repeat split.
Qed.

Lemma repGreedy_complete p (w : jsstring) :
  forall min max pos rest cs k,
    Forall (fun c => p c = true) w -> min <= List.length w ->
    within max (List.length w) ->
    k (pos + List.length w) rest cs <> None ->
    repGreedy p min max pos (w ++ rest) cs k <> None.
Proof.
  induction w as [|c w IH]; intros min max pos rest cs k F M W K.
  - simpl in *. rewrite Nat.add_0_r in K.
    assert (min = 0) as -> by lia.
    destruct rest as [|c rest]; cbn [repGreedy]; [exact K|].
    destruct (p c && allows max); [|exact K].
    destruct (repGreedy p (Nat.pred 0) (less max) (S pos) rest cs k);
      [discriminate | exact K].
  - inversion F as [|? ? Pc F']; subst. simpl in M, W, K.
    apply less_within in W. destruct W as [Al W].
    cbn [app repGreedy]. rewrite Pc, Al. cbn [andb].
    rewrite Nat.add_succ_r in K.
    pose proof (IH (Nat.pred min) (less max) (S pos) rest cs k F'
                  ltac:(lia) W K) as R.
    destruct (repGreedy p (Nat.pred min) (less max) (S pos) (w ++ rest) cs k);
      [discriminate | congruence].
Qed.

Lemma repLazy_complete p (w : jsstring) :
  forall min max pos rest cs k,
    Forall (fun c => p c = true) w -> min <= List.length w ->
    within max (List.length w) ->
    k (pos + List.length w) rest cs <> None ->
    repLazy p min max pos (w ++ rest) cs k <> None.
Proof.
  induction w as [|c w IH]; intros min max pos rest cs k F M W K.
  - simpl in *. rewrite Nat.add_0_r in K.
    assert (min = 0) as -> by lia.
    destruct rest as [|c rest]; cbn [repLazy];
      destruct (k pos _ cs); try discriminate; congruence.
  - inversion F as [|? ? Pc F']; subst. simpl in M, W, K.
    apply less_within in W. destruct W as [Al W].
    cbn [app repLazy]. rewrite Pc, Al. cbn [andb].
    rewrite Nat.add_succ_r in K.
    pose proof (IH (Nat.pred min) (less max) (S pos) rest cs k F'
                  ltac:(lia) W K) as R.
    destruct min; [|exact R].
    destruct (k pos (c :: w ++ rest) cs); [discriminate | exact R].
Qed.

(** Completeness: when the expression denotes a text and the continuation
    accepts what follows it, the run succeeds. *)
Lemma run_complete (r : regex) :
  forall pos w rest cs k,
    denotes r pos w rest ->
    (forall cs', k (pos + List.length w) rest cs' <> None) ->
    Regex.run r pos (w ++ rest) cs k <> None.
Proof.
  induction r as [|p|greedy min max p|r1 IH1 r2 IH2|r1 IH1 r2 IH2|i r1 IH1| |];
    intros pos w rest cs k D K; cbn [Regex.run]; simpl in D.
  - subst w. simpl in *. rewrite Nat.add_0_r in K. apply K.
  - destruct D as [c [-> Pc]]. simpl. rewrite Pc. simpl in K.
    rewrite Nat.add_1_r in K. apply K.
  - destruct D as (F & M & W).
    destruct greedy; [apply repGreedy_complete | apply repLazy_complete]; auto.
  - destruct D as [w1 [w2 (-> & D1 & D2)]]. rewrite <- app_assoc.
    apply IH1; [exact D1|]. intros cs1. apply IH2; [exact D2|].
    intros cs2. rewrite <- Nat.add_assoc, <- length_app. apply K.
  - destruct D as [D|D].
    + pose proof (IH1 pos w rest cs k D K) as R.
      destruct (Regex.run r1 pos (w ++ rest) cs k); [discriminate|congruence].
    + destruct (Regex.run r1 pos (w ++ rest) cs k); [discriminate|].
      now apply IH2.
  - apply IH1; [exact D|]. intros cs'. apply K.
  - destruct D as [-> ->]. simpl in *. apply K.
  - destruct D as [-> ->]. simpl in *. rewrite Nat.add_0_r in K. apply K.
Qed.

(** A run leaves alone the captures of the groups that are not its own. *)
Lemma run_frame (r : regex) :
  forall pos s cs k x,
    Regex.run r pos s cs k = Some x ->
    exists pos' s' cs',
      k pos' s' cs' = Some x /\
      forall i, ~ In i (groupsOf r) -> capture i cs' = capture i cs.
Proof.
  induction r as [|p|greedy min max p|r1 IH1 r2 IH2|r1 IH1 r2 IH2|j r1 IH1| |];
    intros pos s cs k x H; cbn [Regex.run] in H; cbn [groupsOf].
  - eauto.
  - destruct s as [|c s]; [discriminate|].
    destruct (p c); [eauto|discriminate].
  - destruct greedy;
      [apply repGreedy_sound in H | apply repLazy_sound in H];
      destruct H as [w [rest (_ & _ & _ & _ & K)]]; eauto.
  - apply IH1 in H. destruct H as [pos1 [s1 [cs1 [H F1]]]].
    apply IH2 in H. destruct H as [pos2 [s2 [cs2 [H F2]]]].
    exists pos2, s2, cs2. split; [exact H|].
    intros i N. rewrite F2, F1; auto; intros I; apply N, in_or_app; auto.
  - destruct (Regex.run r1 pos s cs k) as [y|] eqn:E.
    + inversion H; subst y. apply IH1 in E.
      destruct E as [pos1 [s1 [cs1 [K F1]]]].
      exists pos1, s1, cs1. split; [exact K|].
      intros i N. apply F1. intros I; apply N, in_or_app; auto.
    + apply IH2 in H. destruct H as [pos2 [s2 [cs2 [K F2]]]].
      exists pos2, s2, cs2. split; [exact K|].
      intros i N. apply F2. intros I; apply N, in_or_app; auto.
  - apply IH1 in H. destruct H as [pos1 [s1 [cs1 [K F1]]]].
    eexists pos1, s1, _. split; [exact K|].
    intros i N. cbn [capture].
    destruct (Nat.eqb_spec i j) as [->|D]; [exfalso; apply N; now left|].
    apply F1. intros I; apply N; now right.
  - destruct (Nat.eqb pos 0); [eauto|discriminate].
  - destruct s; [eauto|discriminate].
Qed.

End MatcherFacts.

Lemma searchFrom_is_matchAt (r : regex) (s : jsstring) :
  forall pos m,
    searchFrom r pos s = Some m ->
    exists pos' s', matchAt r pos' s' = Some m.
Proof.
  induction s as [|c s IH]; intros pos m H; cbn [searchFrom] in H.
  - destruct (matchAt r pos []) eqn:E; [|discriminate].
    inversion H; subst. eauto.
  - destruct (matchAt r pos (c :: s)) eqn:E.
    + inversion H; subst. eauto.
    + eapply IH; eauto.
Qed.

Lemma matchAt_denotes (r : regex) (pos : nat) (s : jsstring) :
  (exists m, matchAt r pos s = Some m) <->
  (exists w rest, s = w ++ rest /\ denotes r pos w rest).
Proof.
  unfold matchAt. split.
  - intros [m H]. apply run_sound in H.
    destruct H as [w [rest [_ (-> & D & _)]]]. eauto.
  - intros [w [rest [-> D]]].
    destruct (Regex.run r pos (w ++ rest) []
                (fun pos' _ cs =>
                   Some {| index := pos;
                           matched := firstn (pos' - pos) (w ++ rest);
                           groups := cs |})) as [m|] eqn:E; [eauto|].
    exfalso. revert E. apply run_complete with (w := w) (rest := rest); auto.
    discriminate.
Qed.

Lemma searchFrom_denotes (r : regex) (s : jsstring) :
  forall pos,
    (exists m, searchFrom r pos s = Some m) <->
    (exists before w rest,
       s = before ++ w ++ rest /\
       denotes r (pos + List.length before) w rest).
Proof.
  induction s as [|c s IH]; intros pos; cbn [searchFrom].
  - destruct (matchAt r pos []) as [m|] eqn:E.
    + split; [intros _|eauto].
      destruct (proj1 (matchAt_denotes r pos []) (ex_intro _ m E))
        as [w [rest [S D]]].
      exists [], w, rest. simpl. rewrite Nat.add_0_r. auto.
    + split; [intros [m H]; discriminate|].
      intros [before [w [rest [S D]]]].
      destruct before; [|discriminate]. simpl in *. rewrite Nat.add_0_r in D.
      destruct (proj2 (matchAt_denotes r pos []) (ex_intro _ w (ex_intro _ rest (conj S D))))
        as [m H]. congruence.
  - destruct (matchAt r pos (c :: s)) as [m|] eqn:E.
    + split; [intros _|eauto].
      destruct (proj1 (matchAt_denotes r pos (c :: s)) (ex_intro _ m E))
        as [w [rest [S D]]].
      exists [], w, rest. simpl. rewrite Nat.add_0_r. auto.
    + rewrite IH. split.
      * intros [before [w [rest [-> D]]]].
        exists (c :: before), w, rest. simpl.
        rewrite Nat.add_succ_r. auto.
      * intros [before [w [rest [S D]]]].
        destruct before as [|b before].
        -- simpl in *. rewrite Nat.add_0_r in D.
           destruct (proj2 (matchAt_denotes r pos (c :: s))
                       (ex_intro _ w (ex_intro _ rest (conj S D)))) as [m H].
           congruence.
        -- simpl in S. inversion S; subst.
           exists before, w, rest. simpl in D.
           rewrite Nat.add_succ_r in D. auto.
Qed.

(** [r.test(s)] holds exactly when [r] matches somewhere in [s]. *)
Lemma test_matchesIn (r : regex) (s : jsstring) :
  test r s = true <-> matchesIn r s.
Proof.
  unfold test, exec, matchesIn.
  rewrite <- (searchFrom_denotes r s 0).
  destruct (searchFrom r 0 s); split; eauto; try discriminate.
  intros [m H]; discriminate.
Qed.

Section LiteralFacts.

Lemma denotes_seqs_cons (r : regex) (l : list regex) (pos : nat)
    (w rest : jsstring) :
  denotes (seqs (r :: l)) pos w rest <->
  exists w1 w2,
    w = w1 ++ w2 /\ denotes r pos w1 (w2 ++ rest) /\
    denotes (seqs l) (pos + List.length w1) w2 rest.
Proof.
  destruct l as [|r' l].
  - cbn [seqs denotes]. split.
    + intros D. exists w, []. rewrite app_nil_r. cbn [app]. auto.
    + intros [w1 [w2 (-> & D & ->)]]. rewrite app_nil_r. exact D.
  - change (seqs (r :: r' :: l)) with (Seq r (seqs (r' :: l))).
    cbn [denotes]. reflexivity.
Qed.

(** A literal under the [i] flag matches the texts that agree with it unit
    by unit up to case, wherever they stand. *)
Lemma denotes_litCI (s : jsstring) (pos : nat) (w rest : jsstring) :
  denotes (litCI s) pos w rest <->
  Forall2 (fun c x => chrCI c x = true) s w.
Proof.
  unfold litCI. revert pos w. induction s as [|c s IH]; intros pos w.
  - cbn [map seqs denotes]. split.
    + intros ->. constructor.
    + intros F. now inversion F.
  - cbn [map]. rewrite denotes_seqs_cons. split.
    + intros [w1 [w2 (-> & [x [-> P]] & D)]]. apply IH in D.
      cbn [app]. now constructor.
    + intros F. inversion F as [|? x ? w2 P F2]; subst.
      exists [x], w2. split; [reflexivity|]. split; [now exists x|].
      now apply IH.
Qed.

Lemma chrCI_same_letter (s s' w : jsstring) :
  map upperUnit s = map upperUnit s' ->
  Forall2 (fun c x => chrCI c x = true) s w ->
  Forall2 (fun c x => chrCI c x = true) s' w.
Proof.
  revert s' w. induction s as [|c s IH]; intros [|c' s'] w E F;
    try discriminate.
  - exact F.
  - cbn [map] in E. injection E as Ec Es.
    inversion F as [|? x ? w2 P F2]; subst. constructor.
    + unfold chrCI in *. now rewrite <- Ec.
    + now apply IH.
Qed.

(** A text in which a literal is found holds every literal that ends it,
    in any case of letters. *)
Lemma matchesIn_litCI_suffix (a b b' line : jsstring) :
  map upperUnit b = map upperUnit b' ->
  matchesIn (litCI (a ++ b)) line -> matchesIn (litCI b') line.
Proof.
  intros Same [before [w [rest [-> D]]]].
  apply denotes_litCI in D. apply Forall2_app_inv_l in D.
  destruct D as [wa [wb (Fa & Fb & ->)]].
  exists (before ++ wa), wb, rest. split.
  - now rewrite <- !app_assoc.
  - apply denotes_litCI. now apply chrCI_same_letter with (s := b).
Qed.

End LiteralFacts.


Section RegexShapes.

(** A literal matches its own text, wherever it stands. *)
Lemma denotes_lit (s : jsstring) (pos : nat) (w rest : jsstring) :
  denotes (lit s) pos w rest <-> w = s.
Proof.
  unfold lit. revert pos w. induction s as [|c s IH]; intros pos w.
  - cbn [map seqs denotes]. reflexivity.
  - cbn [map]. rewrite denotes_seqs_cons. split.
    + intros [w1 [w2 (-> & [x [-> P]] & D)]]. apply IH in D. subst w2.
      unfold chr in P. apply N.eqb_eq in P. now subst x.
    + intros ->. exists [c], s. split; [reflexivity|]. split.
      * exists c. split; [reflexivity|]. unfold chr. apply N.eqb_refl.
      * now apply IH.
Qed.

Lemma denotes_exactly (n : nat) (p : codeunit -> bool) (pos : nat)
    (w rest : jsstring) :
  denotes (exactly n p) pos w rest <->
  List.length w = n /\ Forall (fun c => p c = true) w.
Proof.
  unfold exactly. cbn [denotes within]. split.
  - intros (F & L1 & L2). split; [lia|exact F].
  - intros [L F]. split; [exact F|]. lia.
Qed.

(** What a successful match has matched. *)
Lemma matchAt_sound (r : regex) (pos : nat) (s : jsstring) (m : result) :
  matchAt r pos s = Some m ->
  exists w rest,
    s = w ++ rest /\ denotes r pos w rest /\ matched m = w /\ index m = pos.
Proof.
  unfold matchAt. intros H. apply run_sound in H.
  destruct H as [w [rest [cs' (-> & D & K)]]].
  injection K as <-. exists w, rest. cbn [matched index].
  replace (pos + List.length w - pos) with (List.length w) by lia.
  rewrite firstn_app, Nat.sub_diag, firstn_all. cbn [firstn].
  rewrite app_nil_r. auto.
Qed.



End RegexShapes.

(** ** The summary reducer *)

Section Summary.
Import Runner.

Lemma filter_hasStatus (st : jsstring) (results : list CheckResult) :
  List.length (filter (hasStatus st) results) = countStatus st results.
Proof.
  unfold countStatus, hasStatus.
  induction results as [|r l IH]; simpl; [reflexivity|].
  destruct (jsstring_dec (status r) st) as [E|E].
  - rewrite (proj2 (eqb_eq _ _) E); simpl; now rewrite IH.
  - rewrite (proj2 (eqb_neq _ _) E); exact IH.
Qed.

Lemma countStatus_pos (st : jsstring) (results : list CheckResult) :
  0 < countStatus st results <-> Exists (fun r => status r = st) results.
Proof.
  unfold countStatus. rewrite Exists_exists.
  split.
  - intros H. apply count_occ_In in H. apply in_map_iff in H.
    destruct H as [r [E I]]. now exists r.
  - intros [r [I E]]. apply count_occ_In. apply in_map_iff. now exists r.
Qed.

Lemma countStatus_zero (st : jsstring) (results : list CheckResult) :
  countStatus st results = 0 <-> ~ Exists (fun r => status r = st) results.
Proof. rewrite <- countStatus_pos. lia. Qed.

Lemma overallStatus_cases (now : jsstring) (results : list CheckResult) :
  overallStatus (generateSummary now results) =
    if (0 <? countStatus (js "error") results)
       || (0 <? countStatus (js "fail") results) then js "fail"
    else if 0 <? countStatus (js "warning") results then js "warning"
    else js "pass".
Proof.
  unfold generateSummary; cbn [overallStatus].
  now rewrite !filter_hasStatus.
Qed.

End Summary.

(** C1.  For every list of results, [generateSummary] counts the list in
    [total] and the results of each status pass, warning, fail and error in
    [passed], [warnings], [failed] and [errors]; the overall status is fail
    when some result is fail or error, else warning when some result is
    warning, else pass. *)
Theorem generateSummary_counts_and_overall
    (now : jsstring) (results : list Runner.CheckResult) :
  let s := Runner.generateSummary now results in
  let has st := Exists (fun r => Runner.status r = st) results in
  Runner.total s = List.length results /\
  Runner.passed s = countStatus (js "pass") results /\
  Runner.warnings s = countStatus (js "warning") results /\
  Runner.failed s = countStatus (js "fail") results /\
  Runner.errors s = countStatus (js "error") results /\
  (has (js "fail") \/ has (js "error") -> Runner.overallStatus s = js "fail") /\
  (~ has (js "fail") -> ~ has (js "error") -> has (js "warning") ->
   Runner.overallStatus s = js "warning") /\
  (~ has (js "fail") -> ~ has (js "error") -> ~ has (js "warning") ->
   Runner.overallStatus s = js "pass").
Proof.
  intros s has. subst s.
  repeat split; try (cbn; now rewrite ?filter_hasStatus).
  - intros H. rewrite overallStatus_cases.
    destruct H as [H|H]; apply countStatus_pos, Nat.ltb_lt in H; rewrite H;
      [rewrite orb_true_r|]; reflexivity.
  - intros F E W. rewrite overallStatus_cases.
    apply countStatus_zero in F, E. apply countStatus_pos, Nat.ltb_lt in W.
    now rewrite F, E, W.
  - intros F E W. rewrite overallStatus_cases.
    apply countStatus_zero in F, E, W.
    now rewrite F, E, W.
Qed.

Lemma generateSummary_counts_and_overall_witness :
  Runner.overallStatus
    (Runner.generateSummary sampleNow [samplePass; sampleWarning; sampleFail])
    = js "fail" /\
  Runner.overallStatus
    (Runner.generateSummary sampleNow [samplePass; sampleWarning])
    = js "warning" /\
  Runner.overallStatus (Runner.generateSummary sampleNow [samplePass])
    = js "pass".
Proof.
  split; [|split].
  - apply (generateSummary_counts_and_overall sampleNow
             [samplePass; sampleWarning; sampleFail]).
    left. apply Exists_cons_tl, Exists_cons_tl, Exists_cons_hd. reflexivity.
  - apply (generateSummary_counts_and_overall sampleNow
             [samplePass; sampleWarning]).
    + intros H; apply Exists_exists in H; destruct H as [r [I E]];
        simpl in I; destruct I as [<-|[<-|[]]]; vm_compute in E; discriminate.
    + intros H; apply Exists_exists in H; destruct H as [r [I E]];
        simpl in I; destruct I as [<-|[<-|[]]]; vm_compute in E; discriminate.
    + apply Exists_cons_tl, Exists_cons_hd. reflexivity.
  - apply (generateSummary_counts_and_overall sampleNow [samplePass]).
    all: intros H; apply Exists_exists in H; destruct H as [r [I E]];
      simpl in I; destruct I as [<-|[]]; vm_compute in E; discriminate.
Defined.

(** ** The runner *)

Section RunCheckFacts.
Import Runner.
Variable Options : Type.
Variables (root : jsstring) (t0 t1 : Z).

Lemma runCheck_returned (checkName : jsstring) (fn : CheckFn Options)
    (options : Options) (r : PartialResult) :
  fn root options = Returned r ->
  runCheck root t0 t1 checkName fn options =
    Returned
      {| name := orElse (p_name r) checkName;
         status := orElse (p_status r) (js "unknown");
         duration := orElse (p_duration r) (t1 - t0)%Z;
         message := p_message r; details := p_details r;
         error := p_error r; stack := p_stack r; fix_ := p_fix r |}.
Proof.
  intros H. unfold runCheck. rewrite H. unfold spread; cbn.
  f_equal. f_equal.
  - destruct (p_status r) as [st|]; cbn; reflexivity.
  - destruct (p_message r); reflexivity.
  - destruct (p_details r); reflexivity.
  - destruct (p_error r); reflexivity.
  - destruct (p_stack r); reflexivity.
  - destruct (p_fix r); reflexivity.
Qed.

Lemma runCheck_threw (checkName : jsstring) (fn : CheckFn Options)
    (options : Options) (msg stk : option jsstring) :
  fn root options = Threw (ThrownValue msg stk) ->
  runCheck root t0 t1 checkName fn options =
    Returned
      {| name := checkName; status := js "error";
         duration := (t1 - t0)%Z; message := None; details := None;
         error := msg; stack := stk; fix_ := None |}.
Proof. intros H. unfold runCheck. now rewrite H. Qed.

(** A thrown [null] or [undefined] gets past the handler: reading its
    [message] throws in turn. *)
Lemma runCheck_thrown_nullish (checkName : jsstring) (fn : CheckFn Options)
    (options : Options) (which : Nullish) :
  fn root options = Threw (ThrownNullish which) ->
  runCheck root t0 t1 checkName fn options
    = Threw (typeErrorOn which (js "message")).
Proof. intros H. unfold runCheck. now rewrite H. Qed.

End RunCheckFacts.

(** C3, as the code has it.  When the check function returns a partial
    result [r], [runCheck] returns [r]'s fields, with the given name and the
    measured duration for the fields [r] does not carry itself and the
    status unknown when [r] carries none; when the check function throws a
    value [e] other than null and undefined, [runCheck] returns the record
    of the name, the status error, the measured duration and [e.message]
    (with [e.stack]), and nothing is propagated. *)
Theorem runCheck_merges_or_reports
    (Options : Type) (root : jsstring) (t0 t1 : Z) (checkName : jsstring)
    (fn : Runner.CheckFn Options) (options : Options) :
  (forall r, fn root options = Returned r ->
     Runner.runCheck root t0 t1 checkName fn options =
       Returned
         {| Runner.name := Runner.orElse (Runner.p_name r) checkName;
            Runner.status := Runner.orElse (Runner.p_status r) (js "unknown");
            Runner.duration := Runner.orElse (Runner.p_duration r) (t1 - t0)%Z;
            Runner.message := Runner.p_message r;
            Runner.details := Runner.p_details r;
            Runner.error := Runner.p_error r;
            Runner.stack := Runner.p_stack r;
            Runner.fix_ := Runner.p_fix r |}) /\
  (forall msg stk, fn root options = Threw (ThrownValue msg stk) ->
     Runner.runCheck root t0 t1 checkName fn options =
       Returned
         {| Runner.name := checkName; Runner.status := js "error";
            Runner.duration := (t1 - t0)%Z; Runner.message := None;
            Runner.details := None; Runner.error := msg;
            Runner.stack := stk; Runner.fix_ := None |}).
Proof.
  split; intros.
  - now apply runCheck_returned.
  - now apply runCheck_threw.
Qed.

Lemma runCheck_merges_or_reports_witness :
  Runner.runCheck (js "/clawd") 100 112 (js "Config Check") silentCheck tt =
    Returned (plainResult (js "Config Check") (js "unknown") 12) /\
  Runner.runCheck (js "/clawd") 100 112 (js "Config Check") throwingCheck tt =
    Returned
      {| Runner.name := js "Config Check"; Runner.status := js "error";
         Runner.duration := 12; Runner.message := None;
         Runner.details := None; Runner.error := Some (js "boom");
         Runner.stack := Some (js "Error: boom"); Runner.fix_ := None |}.
Proof.
  split.
  - apply (proj1 (runCheck_merges_or_reports unit (js "/clawd") 100 112
                    (js "Config Check") silentCheck tt) (onlyStatus None)).
    reflexivity.
  - apply (proj2 (runCheck_merges_or_reports unit (js "/clawd") 100 112
                    (js "Config Check") throwingCheck tt)).
    reflexivity.
Defined.

(** C3 as stated fails: the result of a check function that carries a
    [name] keeps that name, not the one given to [runCheck]. *)
Lemma runCheck_name_counterexample :
  exists c,
    Runner.runCheck (js "/clawd") 100 112 (js "Config Check") renamingCheck tt
      = Returned c /\
    Runner.name c = js "Renamed" /\
    Runner.name c <> js "Config Check".
Proof.
  eexists. split; [reflexivity|]. split; [reflexivity|].
  vm_compute. discriminate.
Qed.

(** C9.  A result whose status is none of pass, warning, fail and error
    adds one to [total] and changes no other count nor the overall status;
    a run whose results all have the status unknown is overall pass; and
    unknown is the status [runCheck] gives the result of a check function
    that carries no status. *)
Theorem unknown_status_counts_only_in_total
    (now : jsstring) (before after results : list Runner.CheckResult)
    (r : Runner.CheckResult)
    (Hr : Runner.status r <> js "pass" /\ Runner.status r <> js "warning" /\
          Runner.status r <> js "fail" /\ Runner.status r <> js "error")
    (Hall : Forall (fun x => Runner.status x = js "unknown") results) :
  let s := Runner.generateSummary now (before ++ r :: after) in
  let s0 := Runner.generateSummary now (before ++ after) in
  (Runner.total s = S (Runner.total s0) /\
   Runner.passed s = Runner.passed s0 /\
   Runner.warnings s = Runner.warnings s0 /\
   Runner.failed s = Runner.failed s0 /\
   Runner.errors s = Runner.errors s0 /\
   Runner.overallStatus s = Runner.overallStatus s0) /\
  Runner.overallStatus (Runner.generateSummary now results) = js "pass" /\
  (forall (Options : Type) root t0 t1 checkName (fn : Runner.CheckFn Options)
          options p,
     fn root options = Returned p -> Runner.p_status p = None ->
     exists c,
       Runner.runCheck root t0 t1 checkName fn options = Returned c /\
       Runner.status c = js "unknown").
Proof.
  intros s s0. destruct Hr as (Hp & Hw & Hf & He).
  assert (C : forall st, Runner.status r <> st ->
            countStatus st (before ++ r :: after)
            = countStatus st (before ++ after)).
  { intros st H. unfold countStatus. rewrite !map_app; simpl.
    now apply count_occ_elt_neq. }
  split; [|split].
  - subst s s0. rewrite !overallStatus_cases.
    cbn [Runner.generateSummary Runner.total Runner.passed Runner.warnings
         Runner.failed Runner.errors].
    rewrite !filter_hasStatus, !C by assumption.
    repeat split. rewrite !length_app; simpl; lia.
  - rewrite overallStatus_cases.
    assert (Z : forall st, st <> js "unknown" -> countStatus st results = 0).
    { intros st H. apply countStatus_zero. intros E.
      apply Exists_exists in E. destruct E as [x [I E]].
      rewrite Forall_forall in Hall. apply Hall in I. congruence. }
    rewrite !Z by (vm_compute; discriminate). reflexivity.
  - intros Options root t0 t1 checkName fn options p H N.
    eexists. split; [apply runCheck_returned, H|].
    cbn. now rewrite N.
Qed.

Lemma unknown_status_counts_only_in_total_witness :
  Runner.total (Runner.generateSummary sampleNow [samplePass; sampleUnknown])
    = 2 /\
  Runner.passed (Runner.generateSummary sampleNow [samplePass; sampleUnknown])
    = 1 /\
  Runner.overallStatus
    (Runner.generateSummary sampleNow [samplePass; sampleUnknown]) = js "pass" /\
  Runner.overallStatus
    (Runner.generateSummary sampleNow [sampleUnknown; sampleUnknown]) = js "pass" /\
  (exists c,
     Runner.runCheck sampleRoot 100 112 (js "Git Status") silentCheck tt
       = Returned c /\
     Runner.status c = js "unknown").
Proof.
  assert (Hr : Runner.status sampleUnknown <> js "pass" /\
               Runner.status sampleUnknown <> js "warning" /\
               Runner.status sampleUnknown <> js "fail" /\
               Runner.status sampleUnknown <> js "error")
    by (repeat split; vm_compute; discriminate).
  assert (Hall : Forall (fun x => Runner.status x = js "unknown")
                   [sampleUnknown; sampleUnknown])
    by (repeat constructor).
  destruct (unknown_status_counts_only_in_total sampleNow [samplePass] []
              [sampleUnknown; sampleUnknown] sampleUnknown Hr Hall)
    as [(T & P & _ & _ & _ & O) [A U]].
  simpl app in *.
  split; [|split; [|split; [|split]]].
  - rewrite T. reflexivity.
  - rewrite P. reflexivity.
  - rewrite O. reflexivity.
  - exact A.
  - apply (U unit sampleRoot 100%Z 112%Z (js "Git Status") silentCheck tt
             (onlyStatus None)); reflexivity.
Defined.

(** ** The report, written and read back *)

Lemma first_line_unique (x y r1 r2 : jsstring) :
  ~ In 10%N x -> ~ In 10%N y ->
  x ++ LF ++ r1 = y ++ LF ++ r2 -> x = y.
Proof.
  revert y; induction x as [|a x IH]; intros [|b y] Nx Ny E; simpl in E.
  - reflexivity.
  - inversion E; subst. exfalso. apply Ny. now left.
  - inversion E; subst. exfalso. apply Nx. now left.
  - inversion E; subst. f_equal. apply IH with (y := y); auto.
    + intros I; apply Nx; now right.
    + intros I; apply Ny; now right.
Qed.

Lemma Forall_not_In (p : codeunit -> bool) (c : codeunit) (l : jsstring) :
  p c = false -> Forall (fun x => p x = true) l -> ~ In c l.
Proof.
  intros Pc F I. rewrite Forall_forall in F. apply F in I. congruence.
Qed.

(** The timestamp pattern finds nothing at the head of a text whose first
    line ends in Z: it wants a digit or a colon before the line feed. *)
Lemma timestampRe_rejects_Z (stamp rest : jsstring) :
  ~ In 10%N (stamp ++ [90%N]) ->
  exec Trends.timestampRe ((stamp ++ [90%N]) ++ LF ++ rest) = None.
Proof.
  intros NoLF.
  destruct (exec Trends.timestampRe ((stamp ++ [90%N]) ++ LF ++ rest))
    as [m|] eqn:E; [exfalso|reflexivity].
  assert (M : exists m, searchFrom Trends.timestampRe 0
                          ((stamp ++ [90%N]) ++ LF ++ rest) = Some m)
    by (exists m; exact E).
  apply searchFrom_denotes in M.
  destruct M as [before [w [rest' [S D]]]].
  cbn [Trends.timestampRe seqs denotes] in D.
  destruct D as [w0 [w1 (-> & [-> B] & D)]].
  simpl in B. destruct before; [|discriminate]. clear B.
  destruct D as [g [l (-> & G & L)]].
  change (lit LF) with (Cls (chr 10)) in L. cbn [denotes] in L.
  destruct L as [c [-> C]]. apply N.eqb_eq in C. subst c.
  change (lit (js "T")) with (Cls (chr 84)) in G.
  cbn [seqs denotes plus] in G.
  destruct G as [a [g1 (-> & (Fa & _) & [t [g2 (-> & [c [-> Ct]] & G)]])]].
  destruct G as [b [g3 (-> & (Fb & _) & [d [e (-> & [c' [-> Cd]] & (Fe & Le & _))]])]].
  apply N.eqb_eq in Ct. subst c.
  simpl in S. rewrite <- !app_assoc in S. simpl in S.
  assert (Eq : stamp ++ [90%N] = a ++ 84%N :: b ++ c' :: e).
  { apply first_line_unique
      with (r1 := rest) (r2 := rest'); auto.
    - intros I. apply in_app_or in I. destruct I as [I|I].
      + revert I.
        apply (Forall_not_In (either digit (chr 45)) 10%N a);
          [reflexivity|exact Fa].
      + destruct I as [I|I]; [discriminate|].
        apply in_app_or in I. destruct I as [I|I].
        * revert I.
          apply (Forall_not_In (either digit (chr 58)) 10%N b);
            [reflexivity|exact Fb].
        * destruct I as [I|I]; [subst c'; discriminate|].
          revert I.
          apply (Forall_not_In (either digit (chr 58)) 10%N e);
            [reflexivity|exact Fe].
    - unfold LF. rewrite <- !app_assoc. simpl.
      rewrite <- !app_assoc in S. simpl in S.
      rewrite <- !app_assoc. simpl. exact S. }
  assert (Last : exists e', e = e' ++ [90%N]).
  { destruct (exists_last (l := e)) as [e' [z Ez]];
      [intros ->; simpl in Le; lia|].
    exists e'. subst e.
    replace (a ++ 84%N :: b ++ c' :: e' ++ [z])
      with ((a ++ 84%N :: b ++ c' :: e') ++ [z]) in Eq
      by (rewrite <- !app_assoc; simpl; rewrite <- !app_assoc; reflexivity).
    apply app_inj_tail in Eq. destruct Eq as [_ ->]. reflexivity. }
  destruct Last as [e' ->].
  rewrite Forall_forall in Fe.
  assert (I : In 90%N (e' ++ [90%N])) by (apply in_or_app; right; now left).
  apply Fe in I. discriminate.
Qed.

(** So the block that [append] writes under a timestamp that ends in Z, as
    those of [toISOString] do, is skipped by the parser, whatever the
    report. *)
Lemma logged_entry_is_skipped (stamp content : jsstring) :
  ~ In 10%N (stamp ++ [90%N]) ->
  Trends.parseEntry
    ((stamp ++ [90%N]) ++ LF ++ Logger.separator ++ LF ++ content ++ LF ++ LF)
    = None.
Proof.
  intros H. unfold Trends.parseEntry.
  match goal with |- context [negb ?b] => destruct (negb b) end;
    [reflexivity|].
  rewrite (timestampRe_rejects_Z stamp
             (Logger.separator ++ LF ++ content ++ LF ++ LF) H).
  reflexivity.
Qed.

(** The emoji a check line is recognised by is one code unit long. *)
Lemma checkLine_emoji_unit (line : jsstring) (m : result) :
  exec Trends.checkLineRe line = Some m ->
  exists c, group 1 m = Some [c].
Proof.
  intros H. apply searchFrom_is_matchAt in H.
  destruct H as [pos [s H]].
  unfold matchAt, Trends.checkLineRe in H.
  match type of H with
  | context [seqs (?first :: ?others)] =>
      change (seqs (first :: others)) with (Seq first (seqs others)) in H;
      remember (seqs others) as tail eqn:Tail
  end.
  cbn [Regex.run] in H.
  destruct s as [|c s]; [discriminate|].
  destruct (oneOf (js "✅⚠️❌💥❓") c); [|discriminate].
  apply run_frame in H. destruct H as [pos' [s' [cs' [K F]]]].
  cbv beta in K. injection K as <-. exists c. unfold group. cbn [groups].
  rewrite (F 1).
  - cbn [capture Nat.eqb]. replace (S pos - pos) with 1 by lia. reflexivity.
  - subst tail. vm_compute. intuition discriminate.
Qed.

(** So no check line reads back as warning or error, the two statuses whose
    emoji are two code units long. *)
Lemma checkOfLine_never_warning_nor_error (line : jsstring)
    (c : Trends.TrendCheck) :
  In c (Trends.checkOfLine line) ->
  Trends.status c <> js "warning" /\ Trends.status c <> js "error".
Proof.
  unfold Trends.checkOfLine.
  destruct (exec Trends.checkLineRe line) as [m|] eqn:E; [|intros []].
  destruct (checkLine_emoji_unit line m E) as [u ->].
  intros [<-|[]]. cbn [text Trends.status].
  assert (Two : forall a b, JS.eqb [u] [a; b] = false)
    by (intros a b; simpl; apply andb_false_r).
  change (js "⚠️") with [9888; 65039]%N.
  change (js "💥") with [55357; 56485]%N.
  rewrite !Two.
  destruct (JS.eqb [u] (js "✅")); [split; vm_compute; discriminate|].
  destruct (JS.eqb [u] (js "❌")); split; vm_compute; discriminate.
Qed.

Lemma insertSorted_In {A} (positive : A -> A -> bool) (x y : A) (l : list A) :
  In y (Effect.insertSorted positive x l) -> y = x \/ In y l.
Proof.
  induction l as [|z l IH]; simpl.
  - intros [<-|[]]; auto.
  - destruct (positive x z); simpl.
    + intros [<-|I]; auto. destruct (IH I); auto.
    + intros [<-|[<-|I]]; auto.
Qed.

Lemma sort_In {A} (positive : A -> A -> bool) (y : A) (l : list A) :
  In y (Effect.sort positive l) -> In y l.
Proof.
  induction l as [|x l IH]; simpl; [auto|].
  intros I. apply insertSorted_In in I. destruct I as [->|I]; auto.
Qed.

(** Whatever the log holds, no check of any entry read from it has the
    status warning or error. *)
Lemma parseHealthCheckLog_never_warning_nor_error
    (dateValue : jsstring -> option Z) (content : jsstring)
    (e : Trends.TrendEntry) (c : Trends.TrendCheck) :
  In e (Trends.parseHealthCheckLog dateValue content) ->
  In c (Trends.checks e) ->
  Trends.status c <> js "warning" /\ Trends.status c <> js "error".
Proof.
  unfold Trends.parseHealthCheckLog, Trends.sortByTimestamp.
  intros Ie Ic. apply sort_In in Ie. apply in_flat_map in Ie.
  destruct Ie as [raw [_ Ie]].
  unfold Trends.parseEntry in Ie.
  destruct (negb (truthy (trim raw))); [destruct Ie|].
  destruct (exec Trends.timestampRe raw); [|destruct Ie].
  destruct (exec Trends.summaryRe raw); [|destruct Ie].
  destruct Ie as [<-|[]]. cbn [Trends.checks] in Ic.
  destruct (exec Trends.detailsRe raw); [|destruct Ic].
  apply in_flat_map in Ic. destruct Ic as [line [_ Ic]].
  now apply checkOfLine_never_warning_nor_error with (line := line).
Qed.

(** C2, evaluated.  The report of five results, one of each status,
    appended to an empty log under the timestamp [toISOString] gives,
    parses to no entry at all: the timestamp pattern wants a digit or a
    colon before the line end and the timestamp ends in Z.  With the Z
    taken away by hand an entry is found, whose total is 0, whose overall
    status is unknown, and whose warning and error checks have the status
    unknown. *)
Theorem parseHealthCheckLog_loses_the_report
    (dateValue : jsstring -> option Z) :
  Trends.parseHealthCheckLog dateValue
    (Logger.append sampleNow [] sampleReport) = [] /\
  Trends.parseHealthCheckLog dateValue
    (Logger.append (js "2026-01-05T08:30:00.123") [] sampleReport) =
    [{| Trends.timestamp := js "2026-01-05T08:30:00.123";
        Trends.summary :=
          {| Trends.total := 0; Trends.passed := 1; Trends.warnings := 1;
             Trends.failed := 1; Trends.errors := 1;
             Trends.overallStatus := js "unknown" |};
        Trends.checks :=
          [trendCheck (js "Config Check") (js "pass") 12;
           trendCheck (js "Syntax Check") (js "unknown") 3;
           trendCheck (js "Dependencies Check") (js "fail") 40;
           trendCheck (js "Logs Analysis") (js "unknown") 0;
           trendCheck (js "Git Status") (js "unknown") 7] |}] /\
  Runner.total (Runner.generateSummary sampleNow sampleResults) = 5 /\
  Runner.overallStatus (Runner.generateSummary sampleNow sampleResults)
    = js "fail".
Proof.
  split; [|split; [|split]]; vm_compute; reflexivity.
Qed.

(** ** The syntax check *)

Lemma criticalLoop_unbound (fs : FileSystem) (root : jsstring)
    (files : list jsstring) (st : SyntaxCheck.Progress) :
  existsb (fun f => existsSync fs (pathJoin root f)) files = true ->
  SyntaxCheck.criticalLoop None fs root files st
    = Threw (referenceError (js "spawn")).
Proof.
  revert st; induction files as [|f files IH]; intros st H; [discriminate|].
  simpl in H. cbn [SyntaxCheck.criticalLoop].
  destruct (existsSync fs (pathJoin root f)); simpl in *.
  - reflexivity.
  - apply IH, H.
Qed.

(** Critical files that do not exist add their warning details and leave
    the three counters as they are, whatever [spawn] is bound to. *)
Lemma criticalLoop_absent (binding : option Spawn) (fs : FileSystem)
    (root : jsstring) (files : list jsstring) (st : SyntaxCheck.Progress) :
  (forall f, In f files -> existsSync fs (pathJoin root f) = false) ->
  SyntaxCheck.criticalLoop binding fs root files st =
    Returned
      {| SyntaxCheck.details :=
           SyntaxCheck.details st
           ++ map (fun f => {| Runner.d_status := js "warning";
                               Runner.d_message := f ++ js " not found" |})
                  files;
         SyntaxCheck.errors := SyntaxCheck.errors st;
         SyntaxCheck.fixes := SyntaxCheck.fixes st;
         SyntaxCheck.checked := SyntaxCheck.checked st;
         SyntaxCheck.passed := SyntaxCheck.passed st;
         SyntaxCheck.failed := SyntaxCheck.failed st |}.
Proof.
  revert st; induction files as [|f files IH]; intros st H.
  - destruct st; cbn. now rewrite app_nil_r.
  - cbn [SyntaxCheck.criticalLoop]. rewrite (H f) by now left.
    cbn [negb]. rewrite IH by (intros; apply H; now right).
    cbn. now rewrite <- app_assoc.
Qed.

(** With [spawn] unbound, as it is in the module, [run] rejects as soon as
    one critical file exists. *)
Lemma syntax_run_unbound (fs : FileSystem)
    (glob : jsstring -> jsstring -> Outcome (list jsstring)) (root : jsstring) :
  existsb (fun f => existsSync fs (pathJoin root f)) SyntaxCheck.CRITICAL_FILES
    = true ->
  SyntaxCheck.run SyntaxCheck.moduleSpawn fs glob root
    = Threw (referenceError (js "spawn")).
Proof.
  intros H. unfold SyntaxCheck.run, SyntaxCheck.moduleSpawn.
  now rewrite (criticalLoop_unbound fs root _ _ H).
Qed.

(** C6, evaluated.  In a directory where the first critical file exists,
    [run] rejects with the ReferenceError of the unbound [spawn] and the
    runner reports the status error, whatever the file holds; with [spawn]
    bound and a child that exits with code 1 the status would be fail.
    Where no critical file exists each one gets its warning detail and the
    status is warning. *)
Theorem syntax_run_rejects_on_existing_critical_file :
  SyntaxCheck.run SyntaxCheck.moduleSpawn heartbeatOnly noGlob sampleRoot
    = Threw (referenceError (js "spawn")) /\
  (exists c,
     Runner.runCheck sampleRoot 100 112 (js "Syntax Check")
       (syntaxCheckFn SyntaxCheck.moduleSpawn heartbeatOnly) tt = Returned c /\
     Runner.status c = js "error") /\
  (exists r,
     SyntaxCheck.run (Some failingNode) heartbeatOnly noGlob sampleRoot
       = Returned r /\
     Runner.p_status r = Some (js "fail")) /\
  (exists r,
     SyntaxCheck.run SyntaxCheck.moduleSpawn emptyDisk noGlob sampleRoot
       = Returned r /\
     Runner.p_status r = Some (js "warning") /\
     Runner.p_details r =
       Some (map (fun f => {| Runner.d_status := js "warning";
                              Runner.d_message := f ++ js " not found" |})
                 SyntaxCheck.CRITICAL_FILES)).
Proof.
  split; [|split; [|split]].
  - apply syntax_run_unbound. reflexivity.
  - eexists. split; [vm_compute; reflexivity | reflexivity].
  - eexists. split; [vm_compute; reflexivity | reflexivity].
  - eexists. split; [vm_compute; reflexivity | split; reflexivity].
Qed.

(** ** The notifier *)

(** What [send] returns and spawns, in terms of its two calls. *)
Lemma send_in_calls
    (spawn : Spawn) (config : Notifier.Config) (report : Notifier.Report) :
  let telegram := Notifier.telegramCall config report in
  let notion := Notifier.notionCall config report in
  Notifier.send spawn config report =
    if truthyOpt (Notifier.notionDbId config)
    then (Returned
            [{| Notifier.channel := js "telegram";
                Notifier.sent := sentOf (runCall spawn telegram) |};
             {| Notifier.channel := js "notion";
                Notifier.sent := sentOf (runCall spawn notion) |}],
          [telegram; notion])
    else (Returned
            [{| Notifier.channel := js "telegram";
                Notifier.sent := sentOf (runCall spawn telegram) |}],
          [telegram]).
Proof.
  intros telegram notion.
  assert (A : forall name (c : Notifier.Call),
            Notifier.attempt name
              (Notifier.awaitScript spawn (fst c) (snd c), [c])
            = (Returned [{| Notifier.channel := name;
                            Notifier.sent := sentOf (runCall spawn c) |}],
               [c])).
  { intros name c. unfold Notifier.attempt, Notifier.awaitScript, runCall.
    cbn [fst snd].
    destruct (spawn (fst c) (snd c)) as [[[|?|?]|] ? ?|?|?]; reflexivity. }
  subst telegram notion.
  unfold Notifier.send, Notifier.sendTelegram, Notifier.sendNotion.
  cbv zeta.
  rewrite (A (js "telegram") (Notifier.telegramCall config report)).
  destruct (truthyOpt (Notifier.notionDbId config)); cbn [negb].
  - now rewrite (A (js "notion") (Notifier.notionCall config report)).
  - reflexivity.
Qed.

(** C8.  [send] always spawns node on the notify-group script of the
    telegram-notification skill first, with the target group, the title
    and the summary line of the counts, and spawns node on the
    save-content script of the notion-persistence-universal skill, with
    the type health_check and the content, exactly when [notionDbId] is a
    non-empty string, whatever the Telegram script did.  It returns one
    element per spawned script, in that order: the element of a script
    that closes with code 0 has [success] true and its output, the element
    of any other has [success] false and the error text.  [send] itself
    never throws.  The title is written out for the three overall statuses
    that [generateSummary] gives. *)
Theorem send_attempts_each_channel
    (spawn : Spawn) (config : Notifier.Config) (report : Notifier.Report) :
  let s := Notifier.summary report in
  let overall := Runner.overallStatus s in
  exists title,
    (overall = js "pass" -> title = js "✅ Health Check: PASS") /\
    (overall = js "warning" -> title = js "⚠️ Health Check: WARNING") /\
    (overall = js "fail" -> title = js "❌ Health Check: FAIL") /\
    let telegram : Notifier.Call :=
      (js "node",
       [pathJoin (Notifier.clawdRoot config)
          (js "skills/telegram-notification/scripts/notify-group.js");
        js "--target"; Notifier.telegramGroup config;
        js "--title"; title;
        js "--summary";
        js "Passed: " ++ lengthToString (Runner.passed s) ++ js "/"
          ++ lengthToString (Runner.total s) ++ js " | Warnings: "
          ++ lengthToString (Runner.warnings s) ++ js " | Failed: "
          ++ lengthToString (Runner.failed s)]) in
    let notion : Notifier.Call :=
      (js "node",
       [pathJoin (Notifier.clawdRoot config)
          (js "skills/notion-persistence-universal/scripts/save-content.js");
        js "--type"; js "health_check";
        js "--content";
        js "## Summary" ++ LF ++ LF
          ++ js "- Status: " ++ overall ++ LF
          ++ js "- Passed: " ++ lengthToString (Runner.passed s) ++ LF
          ++ js "- Warnings: " ++ lengthToString (Runner.warnings s) ++ LF
          ++ js "- Failed: " ++ lengthToString (Runner.failed s) ++ LF
          ++ js "- Errors: " ++ lengthToString (Runner.errors s) ++ LF ++ LF
          ++ js "## Full Report" ++ LF ++ LF
          ++ Notifier.reportText report]) in
    Notifier.send spawn config report =
      if truthyOpt (Notifier.notionDbId config)
      then (Returned
              [{| Notifier.channel := js "telegram";
                  Notifier.sent := sentOf (spawn (fst telegram) (snd telegram)) |};
               {| Notifier.channel := js "notion";
                  Notifier.sent := sentOf (spawn (fst notion) (snd notion)) |}],
            [telegram; notion])
      else (Returned
              [{| Notifier.channel := js "telegram";
                  Notifier.sent := sentOf (spawn (fst telegram) (snd telegram)) |}],
            [telegram]).
Proof.
  cbv zeta. exists (Notifier.title report).
  split; [|split; [|split]].
  - unfold Notifier.title. intros ->. vm_compute. reflexivity.
  - unfold Notifier.title. intros ->. vm_compute. reflexivity.
  - unfold Notifier.title. intros ->. vm_compute. reflexivity.
  - exact (send_in_calls spawn config report).
Qed.

Lemma send_attempts_each_channel_witness :
  Notifier.send failingTelegram sampleConfig sampleNotice =
    (Returned
       [{| Notifier.channel := js "telegram";
           Notifier.sent :=
             {| Notifier.success := false; Notifier.output := None;
                Notifier.error := Some (js "chat not found") |} |};
        {| Notifier.channel := js "notion";
           Notifier.sent :=
             {| Notifier.success := true;
                Notifier.output := Some (js "saved");
                Notifier.error := None |} |}],
     [(js "node",
       [js "/clawd/skills/telegram-notification/scripts/notify-group.js";
        js "--target"; js "discussion";
        js "--title"; js "❌ Health Check: FAIL";
        js "--summary"; js "Passed: 1/5 | Warnings: 1 | Failed: 1"]);
      (js "node",
       [js "/clawd/skills/notion-persistence-universal/scripts/save-content.js";
        js "--type"; js "health_check";
        js "--content";
        join LF [js "## Summary"; []; js "- Status: fail"; js "- Passed: 1";
                 js "- Warnings: 1"; js "- Failed: 1"; js "- Errors: 1"; [];
                 js "## Full Report"; []; js "the report"]])]).
Proof.
  destruct (send_attempts_each_channel failingTelegram sampleConfig sampleNotice)
    as [title [_ [_ [Fail Sent]]]].
  assert (Overall : Runner.overallStatus (Notifier.summary sampleNotice)
                    = js "fail") by (vm_compute; reflexivity).
  specialize (Fail Overall). subst title.
  rewrite Sent. vm_compute. reflexivity.
Defined.

(** ** The config check *)

Section ConfigFacts.
Import Runner ConfigCheck.

Lemma splitFrom_no_separator (c : codeunit) (s piece : jsstring) (pos : nat) :
  ~ In c s ->
  splitFrom (Cls (chr c)) piece 0 pos s = [rev piece ++ s].
Proof.
  revert piece pos; induction s as [|x s IH]; intros piece pos H; simpl.
  - now rewrite app_nil_r.
  - unfold matchAt; simpl. unfold chr at 1.
    destruct (N.eqb_spec x c) as [->|_].
    + exfalso; apply H; now left.
    + rewrite IH by (intros I; apply H; now right).
      simpl. now rewrite <- app_assoc.
Qed.

(** A line without [=] is the only piece of its split at [=]. *)
Lemma splitOn_equals_absent (line : jsstring) :
  ~ In 61%N line -> splitOn (js "=") line = [line].
Proof.
  intros H. change (splitOn (js "=") line)
    with (splitFrom (Cls (chr 61)) [] 0 0 line).
  now rewrite splitFrom_no_separator.
Qed.





Variable lines : list jsstring.

Lemma requiredStep_cases (v : Vars) (varName : jsstring) :
  match presence lines varName with
  | NoEquals => requiredStep lines v varName = Threw (typeError (js "trim"))
  | _ =>
      exists v',
        requiredStep lines v varName = Returned v' /\
        definedVars v' = definedVars v
                           ++ (if isValued lines varName then [varName] else []) /\
        emptyVars v' = emptyVars v
                         ++ (if isBlank lines varName then [varName] else []) /\
        missingVars v' = missingVars v
                           ++ (if isAbsent lines varName then [varName] else [])
  end.
Proof.
  unfold isValued, isBlank, isAbsent, presence, requiredStep.
  destruct (findLine lines varName) as [line|].
  - destruct (nth_error (splitOn (js "=") line) 1) as [value|].
    + destruct (JS.eqb (trim value) []); eexists; (split; [reflexivity|]);
        cbn; rewrite ?app_nil_r; auto.
    + reflexivity.
  - eexists; split; [reflexivity|]; cbn; rewrite ?app_nil_r; auto.
Qed.

Lemma requiredLoop_throws (vars : list jsstring) (v : Vars) :
  (exists varName, In varName vars /\ presence lines varName = NoEquals) ->
  requiredLoop lines vars v = Threw (typeError (js "trim")).
Proof.
  revert v; induction vars as [|x vars IH]; intros v [varName [I P]].
  - destruct I.
  - cbn [requiredLoop]. pose proof (requiredStep_cases v x) as C.
    destruct (presence lines x) eqn:Px; [| | |now rewrite C];
      (destruct C as [v' [-> _]]; cbn [bind];
       destruct I as [->|I]; [congruence | apply IH; eauto]).
Qed.

Lemma requiredLoop_returns (vars : list jsstring) (v : Vars) :
  (forall varName, In varName vars -> presence lines varName <> NoEquals) ->
  exists v',
    requiredLoop lines vars v = Returned v' /\
    definedVars v' = definedVars v ++ filter (isValued lines) vars /\
    emptyVars v' = emptyVars v ++ filter (isBlank lines) vars /\
    missingVars v' = missingVars v ++ filter (isAbsent lines) vars.
Proof.
  revert v; induction vars as [|x vars IH]; intros v H.
  - exists v; cbn; rewrite !app_nil_r; auto.
  - cbn [requiredLoop]. pose proof (requiredStep_cases v x) as C.
    assert (Hx : presence lines x <> NoEquals) by (apply H; now left).
    destruct (presence lines x) eqn:Px; try congruence;
      destruct C as [v1 [-> (D & E & M)]]; cbn [bind];
      (destruct (IH v1) as [v2 [-> (D2 & E2 & M2)]];
       [intros; apply H; now right|]);
      exists v2; (split; [reflexivity|]);
      rewrite D2, E2, M2, D, E, M; cbn [filter];
      destruct (isValued lines x), (isBlank lines x), (isAbsent lines x);
      rewrite <- ?app_assoc; auto.
Qed.

End ConfigFacts.

Section CheckEnvFileFacts.
Import Runner ConfigCheck.

Variables (fs : FileSystem) (path content : jsstring).
Hypothesis present : existsSync fs path = true.
Hypothesis readable : readFile fs path = Returned content.

Lemma checkEnvFile_checks_content :
  checkEnvFile fs path =
    catch (checkContent content)
      (fun error =>
         bind (messageOf error) (fun msg =>
           Returned
             {| p_name := None; p_status := Some (js "error");
                p_duration := None;
                p_message := Some (js "Failed to read .env file");
                p_details := None; p_error := msg; p_stack := None;
                p_fix := None |})).
Proof.
  unfold checkEnvFile. rewrite present, readable. reflexivity.
Qed.

Lemma checkEnvFile_returns_status :
  (forall varName, In varName REQUIRED_ENV_VARS ->
     presence (splitOn LF content) varName <> NoEquals) ->
  exists v,
    checkEnvFile fs path =
      Returned
        {| p_name := None;
           p_status := Some (statusOf v (missingOptionalOf (splitOn LF content)));
           p_duration := None;
           p_message := Some (js "Config check: " ++ countOf (definedVars v)
                              ++ js "/" ++ countOf REQUIRED_ENV_VARS
                              ++ js " required vars set");
           p_details := Some (detailsOf v (missingOptionalOf (splitOn LF content))
                                content);
           p_error := match issues v with
                      | [] => None
                      | _ => Some (join (js "; ") (issues v))
                      end;
           p_stack := None;
           p_fix := Some (fixes v) |} /\
    emptyVars v = filter (isBlank (splitOn LF content)) REQUIRED_ENV_VARS /\
    missingVars v = filter (isAbsent (splitOn LF content)) REQUIRED_ENV_VARS.
Proof.
  intros H. rewrite checkEnvFile_checks_content. unfold checkContent.
  destruct (requiredLoop_returns (splitOn LF content) REQUIRED_ENV_VARS noVars H)
    as [v [-> (_ & E & M)]].
  exists v. split; [reflexivity|]. now rewrite E, M.
Qed.

End CheckEnvFileFacts.

Lemma filter_empty_when_none {A} (f : A -> bool) (l : list A) :
  (forall x, In x l -> f x = false) -> filter f l = [].
Proof.
  induction l as [|x l IH]; intros H; simpl; [reflexivity|].
  rewrite (H x) by now left. apply IH; intros; apply H; now right.
Qed.

Lemma length_pos_of_In {A} (x : A) (l : list A) :
  In x l -> (0 <? List.length l) = true.
Proof. destruct l; [intros []|reflexivity]. Qed.

(** C5, as the code has it.  For a settings file that exists, can be read
    and has no required key on a line without [=]: when every required key
    has a non-empty value the status is pass if every optional key is
    present too and warning if one is not; when a required key is absent
    the status is fail and the key is named in the detail line that starts
    with Missing; when a required key has an empty value the status is
    fail. *)
Theorem checkEnvFile_status_of_settings
    (fs : FileSystem) (path content : jsstring)
    (present : existsSync fs path = true)
    (readable : readFile fs path = Returned content)
    (wellFormed : forall varName, In varName ConfigCheck.REQUIRED_ENV_VARS ->
        presence (splitOn LF content) varName <> NoEquals) :
  let lines := splitOn LF content in
  let allSet := forall varName, In varName ConfigCheck.REQUIRED_ENV_VARS ->
                  presence lines varName = Valued in
  let hasOptional varName := ConfigCheck.findLine lines varName <> None in
  exists r,
    ConfigCheck.checkEnvFile fs path = Returned r /\
    (allSet ->
     (forall varName, In varName ConfigCheck.OPTIONAL_ENV_VARS ->
        hasOptional varName) ->
     Runner.p_status r = Some (js "pass")) /\
    (allSet ->
     (exists varName, In varName ConfigCheck.OPTIONAL_ENV_VARS /\
        ~ hasOptional varName) ->
     Runner.p_status r = Some (js "warning")) /\
    (forall varName, In varName ConfigCheck.REQUIRED_ENV_VARS ->
       presence lines varName = Absent ->
       Runner.p_status r = Some (js "fail") /\
       exists ds d,
         Runner.p_details r = Some ds /\ In d ds /\
         Runner.d_status d = js "fail" /\
         startsWith (js "Missing: ") (Runner.d_message d) = true /\
         includes varName (Runner.d_message d) = true) /\
    (forall varName, In varName ConfigCheck.REQUIRED_ENV_VARS ->
       presence lines varName = Blank ->
       Runner.p_status r = Some (js "fail")).
Proof.
  intros lines allSet hasOptional.
  destruct (checkEnvFile_returns_status fs path content present readable
              wellFormed) as [v [-> [E M]]].
  fold lines in E, M |- *.
  eexists; split; [reflexivity|]. cbn [Runner.p_status Runner.p_details].
  assert (SetAll : allSet ->
            ConfigCheck.missingVars v = [] /\ ConfigCheck.emptyVars v = []).
  { intros A. rewrite E, M. split; apply filter_empty_when_none;
      intros x I; unfold isAbsent, isBlank; now rewrite (A x I). }
  split; [|split; [|split]].
  - intros A O. destruct (SetAll A) as [Mv Ev].
    unfold ConfigCheck.statusOf. rewrite Mv, Ev.
    unfold ConfigCheck.missingOptionalOf.
    rewrite filter_empty_when_none; [reflexivity|].
    intros x I. specialize (O x I). unfold hasOptional in O.
    destruct (ConfigCheck.findLine lines x); congruence.
  - intros A [x [I N]]. destruct (SetAll A) as [Mv Ev].
    unfold ConfigCheck.statusOf. rewrite Mv, Ev.
    assert (In x (ConfigCheck.missingOptionalOf lines)) as Ix.
    { unfold ConfigCheck.missingOptionalOf. apply filter_In. split; [exact I|].
      unfold hasOptional in N.
      destruct (ConfigCheck.findLine lines x); [exfalso; apply N; congruence|].
      reflexivity. }
    now rewrite (length_pos_of_In _ _ Ix).
  - intros varName I P.
    assert (Ix : In varName (ConfigCheck.missingVars v)).
    { rewrite M. apply filter_In. split; [assumption|].
      unfold isAbsent. now rewrite P. }
    split.
    + unfold ConfigCheck.statusOf. now rewrite (length_pos_of_In _ _ Ix).
    + eexists.
      exists {| Runner.d_status := js "fail";
                Runner.d_message :=
                  js "Missing: "
                  ++ join (js ", ") (ConfigCheck.missingVars v) |}.
      split; [reflexivity|]. split; [|split; [reflexivity|split]].
      * unfold ConfigCheck.detailsOf.
        apply in_or_app; right. apply in_or_app; right. apply in_or_app; left.
        destruct (ConfigCheck.missingVars v); [destruct Ix | now left].
      * apply startsWith_app.
      * cbn [Runner.d_message]. apply includes_app_r, includes_join, Ix.
  - intros varName I P.
    assert (Ix : In varName (ConfigCheck.emptyVars v)).
    { rewrite E. apply filter_In. split; [assumption|].
      unfold isBlank. now rewrite P. }
    unfold ConfigCheck.statusOf. rewrite (length_pos_of_In _ _ Ix).
    now rewrite orb_true_r.
Qed.

(** [In x l] for a closed list [l], by cases. *)
Ltac each_member I :=
  repeat (destruct I as [<-|I]; [|]); [..|destruct I].

Lemma checkEnvFile_status_of_settings_witness :
  (exists r,
     ConfigCheck.checkEnvFile (oneFile envPath envComplete) envPath = Returned r /\
     Runner.p_status r = Some (js "pass")) /\
  (exists r,
     ConfigCheck.checkEnvFile (oneFile envPath envOneAbsent) envPath = Returned r /\
     Runner.p_status r = Some (js "fail")) /\
  (exists r,
     ConfigCheck.checkEnvFile (oneFile envPath envOneEmpty) envPath = Returned r /\
     Runner.p_status r = Some (js "fail")) /\
  (exists r,
     ConfigCheck.checkEnvFile (oneFile envPath envRequiredOnly) envPath
       = Returned r /\
     Runner.p_status r = Some (js "warning")).
Proof.
  split; [|split; [|split]].
  - assert (WF : forall v, In v ConfigCheck.REQUIRED_ENV_VARS ->
                   presence (splitOn LF envComplete) v <> NoEquals).
    { intros v I. simpl in I. each_member I; vm_compute; discriminate. }
    destruct (checkEnvFile_status_of_settings (oneFile envPath envComplete)
                envPath envComplete eq_refl eq_refl WF) as [r [R [P _]]].
    exists r. split; [exact R|]. apply P.
    + intros v I. simpl in I. each_member I; vm_compute; reflexivity.
    + intros v I. simpl in I. each_member I; vm_compute; discriminate.
  - assert (WF : forall v, In v ConfigCheck.REQUIRED_ENV_VARS ->
                   presence (splitOn LF envOneAbsent) v <> NoEquals).
    { intros v I. simpl in I. each_member I; vm_compute; discriminate. }
    destruct (checkEnvFile_status_of_settings (oneFile envPath envOneAbsent)
                envPath envOneAbsent eq_refl eq_refl WF)
      as [r [R [_ [_ [A _]]]]].
    exists r. split; [exact R|].
    apply (A (js "NOTION_API_KEY")); [now left | vm_compute; reflexivity].
  - assert (WF : forall v, In v ConfigCheck.REQUIRED_ENV_VARS ->
                   presence (splitOn LF envOneEmpty) v <> NoEquals).
    { intros v I. simpl in I. each_member I; vm_compute; discriminate. }
    destruct (checkEnvFile_status_of_settings (oneFile envPath envOneEmpty)
                envPath envOneEmpty eq_refl eq_refl WF)
      as [r [R [_ [_ [_ B]]]]].
    exists r. split; [exact R|].
    apply (B (js "NOTION_API_KEY")); [now left | vm_compute; reflexivity].
  - assert (WF : forall v, In v ConfigCheck.REQUIRED_ENV_VARS ->
                   presence (splitOn LF envRequiredOnly) v <> NoEquals).
    { intros v I. simpl in I. each_member I; vm_compute; discriminate. }
    destruct (checkEnvFile_status_of_settings (oneFile envPath envRequiredOnly)
                envPath envRequiredOnly eq_refl eq_refl WF)
      as [r [R [_ [W _]]]].
    exists r. split; [exact R|]. apply W.
    + intros v I. simpl in I. each_member I; vm_compute; reflexivity.
    + exists (js "TELEGRAM_GENERAL_GROUP_ID"). split; [now left|].
      vm_compute. intros H; apply H; reflexivity.
Defined.

(** C5 as stated fails: with every required key set to a non-empty value
    and no optional key in the file, the status is warning. *)
Lemma checkEnvFile_all_required_counterexample :
  Forall (fun v => presence (splitOn LF envRequiredOnly) v = Valued)
    ConfigCheck.REQUIRED_ENV_VARS /\
  exists r,
    ConfigCheck.checkEnvFile (oneFile envPath envRequiredOnly) envPath
      = Returned r /\
    Runner.p_status r = Some (js "warning") /\
    Runner.p_status r <> Some (js "pass").
Proof.
  split.
  - repeat constructor.
  - eexists. split; [vm_compute; reflexivity|].
    split; [reflexivity | vm_compute; discriminate].
Qed.

Lemma find_first {A} (f : A -> bool) (before : list A) (x : A)
    (after : list A) :
  (forall y, In y before -> f y = false) -> f x = true ->
  find f (before ++ x :: after) = Some x.
Proof.
  intros B X. induction before as [|y before IH]; cbn [app find].
  - now rewrite X.
  - rewrite (B y (or_introl eq_refl)). apply IH.
    intros z I. apply B. now right.
Qed.

(** C10, as the code has it.  When the settings file exists and can be
    read, and the first of its lines that starts with the name of a
    required variable and [=] or a space starts with the name and a space
    and holds no [=], the variable is neither set, missing nor empty: the
    check returns the status error with the message of a failed read and
    the text of the TypeError. *)
Theorem checkEnvFile_line_without_equals
    (fs : FileSystem) (path content varName line : jsstring)
    (before after : list jsstring)
    (present : existsSync fs path = true)
    (readable : readFile fs path = Returned content)
    (required : In varName ConfigCheck.REQUIRED_ENV_VARS)
    (lines : splitOn LF content = before ++ line :: after)
    (first : forall l, In l before ->
               startsWith (varName ++ js "=") l = false /\
               startsWith (varName ++ js " ") l = false)
    (spaced : startsWith (varName ++ js " ") line = true)
    (noEquals : ~ In 61%N line) :
  presence (splitOn LF content) varName = NoEquals /\
  ConfigCheck.checkEnvFile fs path =
    Returned
      {| Runner.p_name := None;
         Runner.p_status := Some (js "error");
         Runner.p_duration := None;
         Runner.p_message := Some (js "Failed to read .env file");
         Runner.p_details := None;
         Runner.p_error :=
           Some (js "Cannot read properties of undefined (reading 'trim')");
         Runner.p_stack := None;
         Runner.p_fix := None |}.
Proof.
  assert (found : ConfigCheck.findLine (splitOn LF content) varName = Some line).
  { unfold ConfigCheck.findLine. rewrite lines. apply find_first.
    - intros l I. destruct (first l I) as [E S]. now rewrite E, S.
    - rewrite spaced. apply orb_true_r. }
  assert (P : presence (splitOn LF content) varName = NoEquals).
  { unfold presence. rewrite found, splitOn_equals_absent by assumption.
    reflexivity. }
  split; [exact P|].
  rewrite (checkEnvFile_checks_content fs path content present readable).
  unfold ConfigCheck.checkContent.
  rewrite (requiredLoop_throws (splitOn LF content)
             ConfigCheck.REQUIRED_ENV_VARS ConfigCheck.noVars)
    by (exists varName; auto).
  reflexivity.
Qed.

Lemma checkEnvFile_line_without_equals_witness :
  ConfigCheck.checkEnvFile (oneFile envPath envWithSpace) envPath =
    Returned
      {| Runner.p_name := None;
         Runner.p_status := Some (js "error");
         Runner.p_duration := None;
         Runner.p_message := Some (js "Failed to read .env file");
         Runner.p_details := None;
         Runner.p_error :=
           Some (js "Cannot read properties of undefined (reading 'trim')");
         Runner.p_stack := None;
         Runner.p_fix := None |}.
Proof.
  apply (checkEnvFile_line_without_equals (oneFile envPath envWithSpace)
           envPath envWithSpace (js "NOTION_API_KEY")
           (js "NOTION_API_KEY secret_abc") []
           (tl requiredSet ++ optionalSet)).
  - reflexivity.
  - reflexivity.
  - now left.
  - vm_compute. reflexivity.
  - intros l [].
  - vm_compute. reflexivity.
  - vm_compute. intuition discriminate.
Defined.

(** C10 as stated fails: a line that starts with a required name and a
    space and holds no [=] does no harm after a proper line of the same
    name, which is the one [find] returns. *)
Lemma checkEnvFile_space_line_counterexample :
  In (js "NOTION_API_KEY secret_abc") (splitOn LF envSpaceAfterProper) /\
  startsWith (js "NOTION_API_KEY" ++ js " ") (js "NOTION_API_KEY secret_abc")
    = true /\
  ~ In 61%N (js "NOTION_API_KEY secret_abc") /\
  exists r,
    ConfigCheck.checkEnvFile (oneFile envPath envSpaceAfterProper) envPath
      = Returned r /\
    Runner.p_status r = Some (js "pass").
Proof.
  split; [|split; [|split]].
  - vm_compute. do 8 right. now left.
  - reflexivity.
  - vm_compute. intuition discriminate.
  - eexists. split; [vm_compute; reflexivity | reflexivity].
Qed.

Section DatedLogs.
Import Runner LogsCheck.

Lemma isDigit_range (c : codeunit) :
  isDigit c = true <-> (48 <= c <= 57)%N.
Proof.
  unfold isDigit. rewrite andb_true_iff, !N.leb_le. reflexivity.
Qed.

Lemma Forall_digit (w : jsstring) :
  Forall (fun c => digit c = true) w <-> Forall (fun c => (48 <= c <= 57)%N) w.
Proof.
  split; intros F; eapply Forall_impl; try exact F; intros c H;
    now apply isDigit_range.
Qed.



End DatedLogs.

Section LogTimes.
Import Runner LogsCheck.






End LogTimes.

Section LatestLog.
Import Runner LogsCheck.


Variable fs : FileSystem.
Variable localeCompare : jsstring -> jsstring -> Z.
Hypothesis opposed :
  forall a b, (localeCompare a b < 0)%Z -> (0 < localeCompare b a)%Z.




End LatestLog.

(** ** The log analysis check *)

Section LogsFacts.
Import Runner LogsCheck.


(** A line counts as an error line exactly when one of the error patterns
    matches somewhere in it. *)
Lemma matchesError_spec (line : jsstring) :
  matchesError line = true <->
  exists pattern category,
    In (pattern, category) ERROR_PATTERNS /\ matchesIn pattern line.
Proof.
  unfold matchesError. rewrite existsb_exists. split.
  - intros [[pattern category] [I T]]. exists pattern, category.
    split; [exact I|]. now apply test_matchesIn.
  - intros [pattern [category [I M]]]. exists (pattern, category).
    split; [exact I|]. now apply test_matchesIn.
Qed.



Lemma filter_lastN_le {A} (f : A -> bool) (n : nat) (l : list A) :
  List.length (filter f (lastN n l)) <= List.length (filter f l).
Proof.
  unfold lastN.
  assert (E : List.length (filter f l) =
              List.length (filter f (firstn (List.length l - n) l))
              + List.length (filter f (skipn (List.length l - n) l))).
  { now rewrite <- length_app, <- filter_app, firstn_skipn. }
  lia.
Qed.

Variable fs : FileSystem.
Variable localeCompare : jsstring -> jsstring -> Z.


End LogsFacts.








(** ** The git check *)

Section GitFacts.
Import Runner GitCheck.



Variable spawnIn : jsstring -> Spawn.
Variable fs : FileSystem.
Variable root : jsstring.




End GitFacts.

Section GitScans.
Import Runner GitCheck.







Variable spawnIn : jsstring -> Spawn.
Variable root : jsstring.



End GitScans.







(* ===================================================================== *)
(** * Further properties                                                   *)
(* ===================================================================== *)

(** ** The main function *)

Section MainFacts.
Import Runner.

Lemma status_texts_differ :
  js "fail" <> js "pass" /\ js "warning" <> js "pass".
Proof. split; vm_compute; discriminate. Qed.

Lemma overallStatus_pass (now : jsstring) (results : list CheckResult) :
  overallStatus (generateSummary now results) = js "pass" <->
  Forall untroubled results.
Proof.
  rewrite overallStatus_cases.
  destruct (0 <? countStatus (js "error") results) eqn:Ee;
    [|destruct (0 <? countStatus (js "fail") results) eqn:Ef;
      [|destruct (0 <? countStatus (js "warning") results) eqn:Ew]];
    cbn [orb].
  - apply Nat.ltb_lt, countStatus_pos, Exists_exists in Ee.
    destruct Ee as [r [I E]]. split.
    + intros H; exfalso; revert H; apply status_texts_differ.
    + intros F. rewrite Forall_forall in F. destruct (F r I) as (_ & N & _).
      now elim N.
  - apply Nat.ltb_lt, countStatus_pos, Exists_exists in Ef.
    destruct Ef as [r [I E]]. split.
    + intros H; exfalso; revert H; apply status_texts_differ.
    + intros F. rewrite Forall_forall in F. destruct (F r I) as (N & _).
      now elim N.
  - apply Nat.ltb_lt, countStatus_pos, Exists_exists in Ew.
    destruct Ew as [r [I E]]. split.
    + intros H; exfalso; revert H; apply status_texts_differ.
    + intros F. rewrite Forall_forall in F. destruct (F r I) as (_ & _ & N).
      now elim N.
  - split; [intros _|reflexivity].
    apply Nat.ltb_ge in Ee, Ef, Ew.
    assert (Ze : countStatus (js "error") results = 0) by lia.
    assert (Zf : countStatus (js "fail") results = 0) by lia.
    assert (Zw : countStatus (js "warning") results = 0) by lia.
    apply countStatus_zero in Ze, Zf, Zw.
    rewrite Forall_forall. intros r I. unfold untroubled.
    repeat split; intros E.
    + apply Zf, Exists_exists. eauto.
    + apply Ze, Exists_exists. eauto.
    + apply Zw, Exists_exists. eauto.
Qed.

Lemma awaitScript_settles (spawn : Spawn) (command : jsstring)
    (args : list jsstring) :
  (exists s, Notifier.awaitScript spawn command args = Returned s) \/
  (exists msg, Notifier.awaitScript spawn command args = Threw (newError msg)).
Proof.
  unfold Notifier.awaitScript.
  destruct (spawn command args) as [[[| |]|] ? ?|?|?]; eauto.
Qed.

Lemma attempt_returns (spawn : Spawn) (channelName command : jsstring)
    (args : list jsstring) (calls : list Notifier.Call) :
  exists sent,
    fst (Notifier.attempt channelName
           (Notifier.awaitScript spawn command args, calls)) = Returned sent.
Proof.
  unfold Notifier.attempt. cbn [fst snd].
  destruct (awaitScript_settles spawn command args) as [[s ->]|[msg ->]];
    cbn; eauto.
Qed.

(** The notifier never rejects: what a channel throws becomes a result. *)
Lemma send_returns (spawn : Spawn) (config : Notifier.Config)
    (report : Notifier.Report) :
  exists sent, fst (Notifier.send spawn config report) = Returned sent.
Proof.
  unfold Notifier.send, Notifier.sendTelegram, Notifier.sendNotion.
  cbv zeta.
  destruct (attempt_returns spawn (js "telegram")
              (fst (Notifier.telegramCall config report))
              (snd (Notifier.telegramCall config report))
              [Notifier.telegramCall config report]) as [s1 E1].
  destruct (Notifier.attempt (js "telegram") _) as [t c1].
  cbn [fst] in E1. subst t.
  destruct (truthyOpt (Notifier.notionDbId config)); cbn [negb];
    [|now exists s1].
  destruct (attempt_returns spawn (js "notion")
              (fst (Notifier.notionCall config report))
              (snd (Notifier.notionCall config report))
              [Notifier.notionCall config report]) as [s2 E2].
  destruct (Notifier.attempt (js "notion") _) as [t c2].
  cbn [fst] in E2. subst t. now exists (s1 ++ s2).
Qed.
End MainFacts.

Section MainTheorems.
Import Runner.

Lemma overallStatus_troubled (now : jsstring) (results : list CheckResult) :
  overallStatus (generateSummary now results) <> js "pass" ->
  Exists troubled results.
Proof.
  rewrite overallStatus_cases. unfold troubled.
  destruct (0 <? countStatus (js "error") results) eqn:Ee;
    [|destruct (0 <? countStatus (js "fail") results) eqn:Ef;
      [|destruct (0 <? countStatus (js "warning") results) eqn:Ew]];
    cbn [orb]; intros H.
  - apply Nat.ltb_lt, countStatus_pos in Ee.
    eapply Exists_impl; [|exact Ee]. cbv beta; auto.
  - apply Nat.ltb_lt, countStatus_pos in Ef.
    eapply Exists_impl; [|exact Ef]. cbv beta; auto.
  - apply Nat.ltb_lt, countStatus_pos in Ew.
    eapply Exists_impl; [|exact Ew]. cbv beta; auto.
  - now elim H.
Qed.

(** The flags that [parseArgs] finds are the arguments that follow the
    program and the script. *)
Lemma has_given (flag : jsstring) (argv : list jsstring) :
  existsb (JS.eqb flag) (skipn 2 argv) = true <-> given flag argv.
Proof.
  unfold given. rewrite existsb_exists. split.
  - intros [x [I E]]. apply eqb_eq in E. subst x.
    destruct argv as [|program [|file rest]]; cbn [skipn] in I;
      try now destruct I.
    apply in_split in I. destruct I as [before [after ->]].
    now exists program, file, before, after.
  - intros [program [file [before [after ->]]]]. exists flag.
    cbn [skipn]. split; [apply in_elt|apply eqb_refl].
Qed.

Lemma not_given (flag : jsstring) (argv : list jsstring) :
  existsb (JS.eqb flag) (skipn 2 argv) = false <-> ~ given flag argv.
Proof.
  rewrite <- has_given. destruct (existsb _ _); split; auto; try discriminate.
  intros H. now elim H.
Qed.

(** The checks that [main] runs, by the arguments. *)
Lemma runChecks_completes (host : Main.Host) (root : jsstring)
    (checks : Main.Checks) (argv : list jsstring)
    (results : list CheckResult) (tick : nat) :
  Main.runChecks host root (Main.full (Main.parseArgs argv))
    (checksToRun checks argv) 0 [] = Main.Completed results tick <->
  completes host root checks argv results tick.
Proof.
  unfold completes, checksToRun, Main.parseArgs. cbn [Main.full].
  destruct (existsb (JS.eqb (js "--full")) (skipn 2 argv)) eqn:F.
  - apply has_given in F. change (Main.fullChecks checks) with (fullRun checks).
    split; [auto|]. intros [[_ H]|[N _]]; [exact H|now elim N].
  - apply not_given in F. change (Main.basicChecks checks) with (quickRun checks).
    split; [auto|]. intros [[G _]|[_ H]]; [now elim F|exact H].
Qed.

(** X1.  The loop of the main function gives every check one result, in
    the order of the checks, whatever the checks before it did: a check
    that returns is reported with its status (unknown when it has none), a
    check that throws an Error is reported as an error with the message of
    the Error, and the checks after it still run.  The clock is read twice
    for each check.  Two things end the loop at the first check that does
    them.  A check that throws [null] or [undefined] makes the handler of
    [runCheck] throw a TypeError, which the loop does not catch: the
    TypeError of reading [message] of [null], or of [undefined].  A check
    under which the process dies ends the run there. *)
Theorem runChecks_reports_every_check
    (host : Main.Host) (root : jsstring) (isFull : bool)
    (checks : list (jsstring * Main.Check)) :
  forall (tick : nat) (acc : list CheckResult),
    (Forall (reported root isFull) checks ->
     exists results,
       Main.runChecks host root isFull checks tick acc =
         Main.Completed (acc ++ results) (tick + 2 * List.length checks) /\
       Forall2 (reports root isFull) checks results) /\
    (forall before check after,
       checks = before ++ check :: after ->
       Forall (reported root isFull) before ->
       let ending := snd check root {| Main.o_full := isFull |} in
       let outcome := Main.runChecks host root isFull checks tick acc in
       (ending = Main.Settles (Threw (ThrownNullish Null)) ->
        outcome =
          Main.Rejected
            (newError (js "Cannot read properties of null (reading 'message')")))
       /\
       (ending = Main.Settles (Threw (ThrownNullish Undefined)) ->
        outcome =
          Main.Rejected
            (newError
               (js "Cannot read properties of undefined (reading 'message')")))
       /\
       (forall msg, ending = Main.EndsProcess msg -> outcome = Main.Died msg)).
Proof.
  induction checks as [|[checkName fn] rest IH]; intros tick acc.
  - split.
    + intros _. exists []. cbn. rewrite app_nil_r, Nat.add_0_r.
      split; [reflexivity|constructor].
    + intros [|? ?] ? ? E; discriminate E.
  - cbn [Main.runChecks List.length].
    destruct (fn root {| Main.o_full := isFull |}) as [[p|[msg stk|which]]|died]
      eqn:E.
    + rewrite (runCheck_returned Main.CheckOptions root _ _ checkName
                 (fun _ _ => Returned p) _ p eq_refl).
      match goal with
      | |- context [Main.runChecks _ _ _ _ _ (acc ++ [?r])] => set (result := r)
      end.
      destruct (IH (S (S tick)) (acc ++ [result])) as [Hall Hex]. split.
      * intros F. inversion F as [|? ? _ Frest]; subst.
        destruct (Hall Frest) as [results [-> R2]].
        exists (result :: results). rewrite <- app_assoc. split.
        -- f_equal. lia.
        -- constructor; [|exact R2].
           unfold reports; cbn [fst snd]. rewrite E. now subst result.
      * intros [|first before] check after Eq F.
        -- cbn [app] in Eq. injection Eq as <- <-. cbn [snd]. rewrite E.
           cbv zeta. repeat split; intros; discriminate.
        -- cbn [app] in Eq. injection Eq as <- ->.
           inversion F as [|? ? _ Fb]; subst.
           exact (Hex before check after eq_refl Fb).
    + rewrite (runCheck_threw Main.CheckOptions root _ _ checkName
                 (fun _ _ => Threw (ThrownValue msg stk)) _ msg stk eq_refl).
      match goal with
      | |- context [Main.runChecks _ _ _ _ _ (acc ++ [?r])] => set (result := r)
      end.
      destruct (IH (S (S tick)) (acc ++ [result])) as [Hall Hex]. split.
      * intros F. inversion F as [|? ? _ Frest]; subst.
        destruct (Hall Frest) as [results [-> R2]].
        exists (result :: results). rewrite <- app_assoc. split.
        -- f_equal. lia.
        -- constructor; [|exact R2].
           unfold reports; cbn [fst snd]. rewrite E. now subst result.
      * intros [|first before] check after Eq F.
        -- cbn [app] in Eq. injection Eq as <- <-. cbn [snd]. rewrite E.
           cbv zeta. repeat split; intros; discriminate.
        -- cbn [app] in Eq. injection Eq as <- ->.
           inversion F as [|? ? _ Fb]; subst.
           exact (Hex before check after eq_refl Fb).
    + rewrite (runCheck_thrown_nullish Main.CheckOptions root _ _ checkName
                 (fun _ _ => Threw (ThrownNullish which)) _ which eq_refl).
      split.
      * intros F. inversion F as [|? ? Hd _]; subst.
        unfold reported in Hd. cbn [snd] in Hd. rewrite E in Hd. destruct Hd.
      * intros [|first before] check after Eq F.
        -- cbn [app] in Eq. injection Eq as <- <-. cbn [snd]. rewrite E.
           cbv zeta. repeat split.
           ++ intros [= ->]. reflexivity.
           ++ intros [= ->]. reflexivity.
           ++ intros; discriminate.
        -- cbn [app] in Eq. injection Eq as <- ->.
           inversion F as [|? ? Hd _]; subst.
           unfold reported in Hd. cbn [snd] in Hd. rewrite E in Hd. destruct Hd.
    + split.
      * intros F. inversion F as [|? ? Hd _]; subst.
        unfold reported in Hd. cbn [snd] in Hd. rewrite E in Hd. destruct Hd.
      * intros [|first before] check after Eq F.
        -- cbn [app] in Eq. injection Eq as <- <-. cbn [snd]. rewrite E.
           cbv zeta. repeat split; try (intros; discriminate).
           intros msg [= ->]. reflexivity.
        -- cbn [app] in Eq. injection Eq as <- ->.
           inversion F as [|? ? Hd _]; subst.
           unfold reported in Hd. cbn [snd] in Hd. rewrite E in Hd. destruct Hd.
Qed.

Lemma runChecks_reports_every_check_witness :
  (Main.runChecks steadyHost sampleRoot true (fullRun oneThrowing) 0 []
     = Main.Completed oneThrowingResults 10 /\
   Forall2 (reports sampleRoot true) (fullRun oneThrowing) oneThrowingResults)
  /\
  Main.runChecks steadyHost sampleRoot false
    [(js "Config Check", answering (js "pass"));
     (js "Syntax Check", nullThrowingCheck);
     (js "Dependencies Check", failingCheck)] 0 []
    = Main.Rejected
        (newError (js "Cannot read properties of null (reading 'message')"))
  /\
  Main.runChecks steadyHost sampleRoot true (fullRun gitless) 0 []
    = Main.Died (js "spawn git ENOENT").
Proof.
  split; [|split].
  - destruct (proj1 (runChecks_reports_every_check steadyHost sampleRoot true
                       (fullRun oneThrowing) 0 []))
      as [results [E R]].
    { unfold fullRun. repeat apply Forall_cons; try apply Forall_nil; exact I. }
    assert (Run : Main.runChecks steadyHost sampleRoot true
                    (fullRun oneThrowing) 0 []
                  = Main.Completed oneThrowingResults 10)
      by (vm_compute; reflexivity).
    rewrite Run in E. injection E as E. cbn [app] in E. subst results.
    split; [reflexivity|exact R].
  - destruct (proj2 (runChecks_reports_every_check steadyHost sampleRoot false
                       [(js "Config Check", answering (js "pass"));
                        (js "Syntax Check", nullThrowingCheck);
                        (js "Dependencies Check", failingCheck)] 0 [])
                [(js "Config Check", answering (js "pass"))]
                (js "Syntax Check", nullThrowingCheck)
                [(js "Dependencies Check", failingCheck)] eq_refl)
      as [OnNull _].
    { apply Forall_cons; [exact I|apply Forall_nil]. }
    apply OnNull. reflexivity.
  - destruct (proj2 (runChecks_reports_every_check steadyHost sampleRoot true
                       (fullRun gitless) 0 [])
                [(js "Config Check", answering (js "pass"));
                 (js "Syntax Check", answering (js "pass"))]
                (js "Dependencies Check", Main.dependencies gitless)
                [(js "Logs Analysis", answering (js "pass"));
                 (js "Git Status", answering (js "pass"))] eq_refl)
      as [_ [_ OnDeath]].
    { repeat apply Forall_cons; try apply Forall_nil; exact I. }
    apply OnDeath. vm_compute. reflexivity.
Defined.

End MainTheorems.

Section MainOutcome.
Import Runner.
Variable host : Main.Host.
Variable env : jsstring -> option jsstring.
Variable root : jsstring.
Variable checks : Main.Checks.
Variable argv : list jsstring.

Lemma main_after_checks_ended :
  (forall results tick,
     Main.runChecks host root (Main.full (Main.parseArgs argv))
       (checksToRun checks argv) 0 [] <> Main.Completed results tick) ->
  Main.main host env root checks argv =
    {| Main.exitCode := 1; Main.events := [] |}.
Proof.
  unfold Main.main. fold (checksToRun checks argv). intros H.
  destruct (Main.runChecks host root (Main.full (Main.parseArgs argv))
              (checksToRun checks argv) 0 []) as [results tick|e|msg];
    [now elim (H results tick)|reflexivity|reflexivity].
Qed.

(** The main function once the checks have returned: the notifier never
    rejects, so the exit code is that of the overall status unless the
    log cannot be written. *)
Lemma main_after_checks_returned (results : list CheckResult) (tick : nat) :
  Main.runChecks host root (Main.full (Main.parseArgs argv))
    (checksToRun checks argv) 0 [] = Main.Completed results tick ->
  let options := Main.parseArgs argv in
  let cfg := Main.CONFIG env root in
  let summary :=
    generateSummary (Main.toISOString host (Main.clock host tick)) results in
  let reportText :=
    formatResults (Main.toLocaleString host (Main.clock host (S tick)))
      results summary in
  let logging :=
    if Main.dryRun options then (Returned tt, [])
    else Main.loggerAppend host (Notifier.healthLog cfg) reportText
           (S (S tick)) in
  let calls :=
    if Main.notify options
       && (negb (Notifier.alertOnly cfg)
           || negb (JS.eqb (overallStatus summary) (js "pass")))
    then snd (Notifier.send (Main.spawn host) cfg
                {| Notifier.summary := summary; Notifier.results := results;
                   Notifier.reportText := reportText |})
    else [] in
  Main.main host env root checks argv =
    match fst logging with
    | Threw _ => {| Main.exitCode := 1; Main.events := snd logging |}
    | Returned _ =>
        {| Main.exitCode :=
             if JS.eqb (overallStatus summary) (js "pass") then 0%Z else 1%Z;
           Main.events := snd logging ++ map Main.Spawned calls |}
    end.
Proof.
  intros Run. cbv zeta.
  unfold Main.main. fold (checksToRun checks argv). rewrite Run. cbv zeta.
  match goal with
  | |- context [if Main.dryRun _ then ?a else ?b] =>
      destruct (if Main.dryRun (Main.parseArgs argv) then a else b)
        as [[[]|e] events1]
  end; cbn [fst snd]; [|reflexivity].
  match goal with
  | |- context [if ?c then Notifier.send ?s ?cfg ?r else _] =>
      destruct c; [destruct (send_returns s cfg r) as [sent E];
                   destruct (Notifier.send s cfg r) as [o calls];
                   cbn [fst] in E; subst o|]
  end; reflexivity.
Qed.

End MainOutcome.

(** X2.  The exit code of the main function is 0 or 1.  It is 0 only when
    every check was given a result and no result has the status fail,
    error or warning: a warning alone makes the run exit with 1, while
    results of unknown status do not.  Under [--dry-run], or on a disk that
    takes every write, that is also enough: the notifier cannot make the
    run fail. *)
Theorem main_exit_code
    (host : Main.Host) (env : jsstring -> option jsstring) (root : jsstring)
    (checks : Main.Checks) (argv : list jsstring) :
  let options := Main.parseArgs argv in
  let outcome :=
    Main.runChecks host root (Main.full options) (checksToRun checks argv) 0 [] in
  let e := Main.main host env root checks argv in
  (Main.exitCode e = 0%Z \/ Main.exitCode e = 1%Z) /\
  (Main.exitCode e = 0%Z ->
   exists results tick,
     outcome = Main.Completed results tick /\ Forall untroubled results) /\
  (forall results tick,
     outcome = Main.Completed results tick -> Forall untroubled results ->
     Main.dryRun options = true
     \/ (forall path data, Main.appendFile host path data = Returned tt) ->
     Main.exitCode e = 0%Z).
Proof.
  cbv zeta.
  destruct (Main.runChecks host root (Main.full (Main.parseArgs argv))
              (checksToRun checks argv) 0 []) as [results tick|err|died] eqn:Run.
  2,3: rewrite (main_after_checks_ended host env root checks argv)
         by (rewrite Run; discriminate);
       cbn; (split; [auto|]); (split; [discriminate|]);
       intros ? ? H; discriminate.
  rewrite (main_after_checks_returned host env root checks argv results tick Run).
  cbv zeta. cbn [fst].
  set (summary := Runner.generateSummary _ results).
  pose proof (overallStatus_pass (Main.toISOString host (Main.clock host tick))
                results) as P.
  fold summary in P.
  destruct (Main.dryRun (Main.parseArgs argv)) eqn:Dry; cbn [fst snd].
  - destruct (JS.eqb (Runner.overallStatus summary) (js "pass")) eqn:Pass;
      cbn [Main.exitCode].
    + apply eqb_eq, P in Pass. split; [auto|]. split; [eauto|]. reflexivity.
    + apply eqb_neq in Pass. split; [auto|]. split; [discriminate|].
      intros results' tick' E F _. injection E as <- <-. apply P in F.
      now elim Pass.
  - unfold Main.loggerAppend. cbn [fst snd].
    match goal with
    | |- context [Main.appendFile host ?path ?data] =>
        destruct (Main.appendFile host path data) as [[]|e] eqn:Append
    end.
    + destruct (JS.eqb (Runner.overallStatus summary) (js "pass")) eqn:Pass;
        cbn [Main.exitCode].
      * apply eqb_eq, P in Pass. split; [auto|]. split; [eauto|]. reflexivity.
      * apply eqb_neq in Pass. split; [auto|]. split; [discriminate|].
        intros results' tick' E F _. injection E as <- <-. apply P in F.
        now elim Pass.
    + cbn [Main.exitCode]. split; [auto|]. split; [discriminate|].
      intros results' tick' _ _ [Dry'|Writes]; [discriminate|].
      rewrite Writes in Append. discriminate.
Qed.

Lemma main_exit_code_witness :
  Main.exitCode
    (Main.main steadyHost noEnv sampleRoot allPassing
       [node; script; js "--notify"]) = 0%Z /\
  (exists results tick,
     Main.runChecks steadyHost sampleRoot false
       (checksToRun allPassing [node; script; js "--notify"]) 0 []
       = Main.Completed results tick /\
     Forall untroubled results).
Proof.
  pose proof (main_exit_code steadyHost noEnv sampleRoot allPassing
                [node; script; js "--notify"]) as [_ [Only Enough]].
  split.
  - apply Enough
      with (results := [plainResult (js "Config Check") (js "pass") 1;
                        plainResult (js "Syntax Check") (js "pass") 1;
                        plainResult (js "Dependencies Check") (js "pass") 1])
           (tick := 6).
    + reflexivity.
    + repeat constructor; vm_compute; discriminate.
    + right. reflexivity.
  - apply Only. vm_compute. reflexivity.
Defined.

Section NoticeFacts.
Import Runner.

Lemma overallStatus_titled (now : jsstring) (results : list CheckResult)
    (title : jsstring) :
  titled results title ->
  (overallStatus (generateSummary now results) = js "fail"
   /\ title = js "❌ Health Check: FAIL")
  \/ (overallStatus (generateSummary now results) = js "warning"
      /\ title = js "⚠️ Health Check: WARNING")
  \/ (overallStatus (generateSummary now results) = js "pass"
      /\ title = js "✅ Health Check: PASS").
Proof.
  rewrite overallStatus_cases.
  intros [[X ->]|[[F [X ->]]|[F ->]]].
  - left. split; [|reflexivity].
    apply Exists_exists in X. destruct X as [r [I [E|E]]].
    + assert (P : 0 < countStatus (js "fail") results)
        by (apply countStatus_pos, Exists_exists; eauto).
      apply Nat.ltb_lt in P. rewrite P. now rewrite orb_true_r.
    + assert (P : 0 < countStatus (js "error") results)
        by (apply countStatus_pos, Exists_exists; eauto).
      apply Nat.ltb_lt in P. now rewrite P.
  - right. left. split; [|reflexivity].
    rewrite Forall_forall in F.
    assert (Ze : countStatus (js "error") results = 0).
    { apply countStatus_zero. intros H. apply Exists_exists in H.
      destruct H as [r [I E]]. now apply (proj2 (F r I)). }
    assert (Zf : countStatus (js "fail") results = 0).
    { apply countStatus_zero. intros H. apply Exists_exists in H.
      destruct H as [r [I E]]. now apply (proj1 (F r I)). }
    apply countStatus_pos, Nat.ltb_lt in X.
    rewrite Ze, Zf, X. reflexivity.
  - right. right. split; [|reflexivity].
    apply (overallStatus_pass now) in F. rewrite overallStatus_cases in F.
    exact F.
Qed.

(** The call of the Telegram script, for the results of a run. *)
Lemma telegramCall_of_results (env : jsstring -> option jsstring)
    (root now reportText group title : jsstring) (results : list CheckResult) :
  setting env (js "HEALTH_CHECK_TELEGRAM_GROUP") (js "discussion") group ->
  titled results title ->
  Notifier.telegramCall (Main.CONFIG env root)
    {| Notifier.summary := generateSummary now results;
       Notifier.results := results;
       Notifier.reportText := reportText |}
  = (js "node",
     [pathJoin root (js "skills/telegram-notification/scripts/notify-group.js");
      js "--target"; group;
      js "--title"; title;
      js "--summary";
      js "Passed: " ++ lengthToString (countStatus (js "pass") results)
        ++ js "/" ++ lengthToString (List.length results)
        ++ js " | Warnings: "
        ++ lengthToString (countStatus (js "warning") results)
        ++ js " | Failed: "
        ++ lengthToString (countStatus (js "fail") results)]).
Proof.
  intros G T.
  unfold Notifier.telegramCall, Notifier.summaryText, Notifier.title.
  cbn [Notifier.summary Notifier.clawdRoot Notifier.telegramGroup Main.CONFIG].
  assert (Group : Main.envOr (env (js "HEALTH_CHECK_TELEGRAM_GROUP"))
                    (js "discussion") = group).
  { unfold setting in G. unfold Main.envOr.
    destruct (env (js "HEALTH_CHECK_TELEGRAM_GROUP")) as [[|c v]|];
      now subst group. }
  rewrite Group.
  assert (Title : interpolate
                    (Notifier.statusEmoji
                       (overallStatus (generateSummary now results)))
                  ++ js " Health Check: "
                  ++ toUpperCase (overallStatus (generateSummary now results))
                  = title).
  { destruct (overallStatus_titled now results title T)
      as [[-> ->]|[[-> ->]|[-> ->]]]; vm_compute; reflexivity. }
  rewrite Title.
  unfold generateSummary.
  cbn [passed total warnings failed]. now rewrite !filter_hasStatus.
Qed.

End NoticeFacts.

(** X3.  The main function spawns a notifier script only when [--notify]
    is among its arguments, and then only when some result has the status
    fail, error or warning or the environment sets
    HEALTH_CHECK_ALERT_ONLY to the text false: unset, or set to any other
    text, the variable leaves the alert-only mode on.  When these
    conditions hold and the report was logged (or the run is a dry run),
    node is spawned on the notify-group script of the
    telegram-notification skill, with the group of
    HEALTH_CHECK_TELEGRAM_GROUP (discussion when that is unset or empty),
    the title of the overall status and the counts of the results that
    passed, warned and failed. *)
Theorem main_notifies_only_on_request
    (host : Main.Host) (env : jsstring -> option jsstring) (root : jsstring)
    (checks : Main.Checks) (argv : list jsstring) :
  let e := Main.main host env root checks argv in
  (forall call, In (Main.Spawned call) (Main.events e) ->
     given (js "--notify") argv /\
     exists results tick,
       completes host root checks argv results tick /\
       (env (js "HEALTH_CHECK_ALERT_ONLY") = Some (js "false")
        \/ Exists troubled results)) /\
  (forall results tick group title,
     completes host root checks argv results tick ->
     given (js "--notify") argv ->
     env (js "HEALTH_CHECK_ALERT_ONLY") = Some (js "false")
     \/ Exists troubled results ->
     given (js "--dry-run") argv
     \/ (forall path data, Main.appendFile host path data = Returned tt) ->
     setting env (js "HEALTH_CHECK_TELEGRAM_GROUP") (js "discussion") group ->
     titled results title ->
     In (Main.Spawned
           (js "node",
            [pathJoin root
               (js "skills/telegram-notification/scripts/notify-group.js");
             js "--target"; group;
             js "--title"; title;
             js "--summary";
             js "Passed: " ++ lengthToString (countStatus (js "pass") results)
               ++ js "/" ++ lengthToString (List.length results)
               ++ js " | Warnings: "
               ++ lengthToString (countStatus (js "warning") results)
               ++ js " | Failed: "
               ++ lengthToString (countStatus (js "fail") results)]))
        (Main.events e)).
Proof.
  cbv zeta.
  assert (Notify : Main.notify (Main.parseArgs argv) = true <->
                   given (js "--notify") argv) by apply has_given.
  assert (Dry : Main.dryRun (Main.parseArgs argv) = true <->
                given (js "--dry-run") argv) by apply has_given.
  destruct (Main.runChecks host root (Main.full (Main.parseArgs argv))
              (checksToRun checks argv) 0 []) as [results tick|err|died] eqn:Run.
  2,3: rewrite (main_after_checks_ended host env root checks argv)
         by (rewrite Run; discriminate);
       cbn [Main.events]; (split; [intros ? []|]);
       intros ? ? ? ? H; apply runChecks_completes in H;
       rewrite Run in H; discriminate.
  rewrite (main_after_checks_returned host env root checks argv results tick Run).
  apply runChecks_completes in Run.
  cbv zeta. cbn [fst].
  set (summary := Runner.generateSummary _ results).
  set (report := {| Notifier.summary := summary |}).
  assert (Alert : Notifier.alertOnly (Main.CONFIG env root) = false <->
                  env (js "HEALTH_CHECK_ALERT_ONLY") = Some (js "false")).
  { unfold Main.CONFIG; cbn [Notifier.alertOnly].
    destruct (env (js "HEALTH_CHECK_ALERT_ONLY")) as [v|]; [|split; discriminate].
    destruct (JS.eqb v (js "false")) eqn:E; cbn [negb].
    - apply eqb_eq in E. subst v. split; reflexivity.
    - apply eqb_neq in E. split; [discriminate|]. intros H. injection H as ->.
      now elim E. }
  assert (Trouble : JS.eqb (Runner.overallStatus summary) (js "pass") = false <->
                    Exists troubled results).
  { rewrite eqb_neq. split.
    - apply overallStatus_troubled.
    - intros X P.
      apply (overallStatus_pass (Main.toISOString host (Main.clock host tick)))
        in P.
      rewrite Forall_forall in P. apply Exists_exists in X.
      destruct X as [r [I T]]. destruct (P r I) as (Nf & Ne & Nw).
      destruct T as [T|[T|T]]; auto. }
  assert (Spawning :
            forall events1 call,
              (forall ev, In ev events1 -> forall c, ev <> Main.Spawned c) ->
              In (Main.Spawned call)
                 (events1 ++ map Main.Spawned
                    (if Main.notify (Main.parseArgs argv)
                        && (negb (Notifier.alertOnly (Main.CONFIG env root))
                            || negb (JS.eqb (Runner.overallStatus summary)
                                       (js "pass")))
                     then snd (Notifier.send (Main.spawn host)
                                 (Main.CONFIG env root) report)
                     else [])) ->
              given (js "--notify") argv /\
              (env (js "HEALTH_CHECK_ALERT_ONLY") = Some (js "false")
               \/ Exists troubled results)).
  { intros events1 call Quiet I. apply in_app_or in I.
    destruct I as [I|I]; [exfalso; exact (Quiet _ I call eq_refl)|].
    destruct (Main.notify (Main.parseArgs argv)); [|destruct I].
    split; [now apply Notify|].
    destruct (Notifier.alertOnly (Main.CONFIG env root)) eqn:A.
    - destruct (JS.eqb (Runner.overallStatus summary) (js "pass")) eqn:P;
        [destruct I|]. right. now apply Trouble.
    - left. now apply Alert. }
  assert (Sent : In (Notifier.telegramCall (Main.CONFIG env root) report)
                    (snd (Notifier.send (Main.spawn host) (Main.CONFIG env root)
                            report))).
  { rewrite send_in_calls.
    destruct (truthyOpt _); cbn [snd]; now left. }
  split.
  - intros call I.
    destruct (Main.dryRun (Main.parseArgs argv)); cbn [fst snd] in I.
    + destruct (Spawning [] call) as [N T]; [intros ? []|exact I|].
      split; [exact N|]. eauto.
    + unfold Main.loggerAppend in I. cbn [fst snd] in I.
      match type of I with
      | context [Main.appendFile host ?path ?data] =>
          destruct (Main.appendFile host path data) as [[]|e]
      end; cbn [Main.events] in I.
      * match type of I with
        | In _ (?events1 ++ _) =>
            destruct (Spawning events1 call) as [N T]; [|exact I|]
        end.
        -- intros ev [<-|[<-|[]]] c; discriminate.
        -- split; [exact N|]. eauto.
      * destruct I as [I|[I|[]]]; discriminate.
  - intros results' tick' group title E Given Cause Log Group Title.
    assert (Same : results' = results /\ tick' = tick).
    { destruct Run as [[F R]|[F R]], E as [[F' R']|[F' R']];
        try contradiction; rewrite R in R'; now injection R'. }
    destruct Same as [-> ->].
    rewrite <- (telegramCall_of_results env root
                  (Main.toISOString host (Main.clock host tick))
                  (Runner.formatResults
                     (Main.toLocaleString host (Main.clock host (S tick)))
                     results summary)
                  group title results Group Title).
    fold summary. fold report.
    assert (Cond : Main.notify (Main.parseArgs argv)
                   && (negb (Notifier.alertOnly (Main.CONFIG env root))
                       || negb (JS.eqb (Runner.overallStatus summary)
                                  (js "pass"))) = true).
    { rewrite (proj2 Notify Given). cbn [andb]. destruct Cause as [C|C].
      - apply Alert in C. now rewrite C.
      - apply Trouble in C. rewrite C. apply orb_true_r. }
    rewrite Cond.
    assert (Logged : forall a b : list Main.Event,
              In (Main.Spawned (Notifier.telegramCall (Main.CONFIG env root) report))
                 (a ++ map Main.Spawned
                    (snd (Notifier.send (Main.spawn host) (Main.CONFIG env root)
                            report)))).
    { intros a _. apply in_or_app. right. now apply in_map. }
    destruct Log as [Dry'|Writes].
    + rewrite (proj2 Dry Dry'). cbn [fst snd Main.events]. apply (Logged [] []).
    + destruct (Main.dryRun (Main.parseArgs argv)); cbn [fst snd Main.events];
        [apply (Logged [] [])|].
      unfold Main.loggerAppend. cbn [fst snd]. rewrite Writes.
      cbn [Main.events]. apply (Logged _ []).
Qed.

Lemma main_notifies_only_on_request_witness :
  In (Main.Spawned
        (js "node",
         [js "/clawd/skills/telegram-notification/scripts/notify-group.js";
          js "--target"; js "discussion";
          js "--title"; js "❌ Health Check: FAIL";
          js "--summary"; js "Passed: 3/5 | Warnings: 1 | Failed: 0"]))
     (Main.events
        (Main.main steadyHost noEnv sampleRoot oneThrowing
           [node; script; js "--full"; js "--notify"])) /\
  (forall call,
     ~ In (Main.Spawned call)
         (Main.events
            (Main.main steadyHost noEnv sampleRoot oneThrowing
               [node; script; js "--full"]))).
Proof.
  split.
  - assert (Call :
        (js "node",
         [js "/clawd/skills/telegram-notification/scripts/notify-group.js";
          js "--target"; js "discussion";
          js "--title"; js "❌ Health Check: FAIL";
          js "--summary"; js "Passed: 3/5 | Warnings: 1 | Failed: 0"])
        = (js "node",
           [pathJoin sampleRoot
              (js "skills/telegram-notification/scripts/notify-group.js");
            js "--target"; js "discussion";
            js "--title"; js "❌ Health Check: FAIL";
            js "--summary";
            js "Passed: "
              ++ lengthToString (countStatus (js "pass") oneThrowingResults)
              ++ js "/" ++ lengthToString (List.length oneThrowingResults)
              ++ js " | Warnings: "
              ++ lengthToString (countStatus (js "warning") oneThrowingResults)
              ++ js " | Failed: "
              ++ lengthToString (countStatus (js "fail") oneThrowingResults)]))
      by (vm_compute; reflexivity).
    rewrite Call.
    apply (proj2 (main_notifies_only_on_request steadyHost noEnv sampleRoot
                    oneThrowing [node; script; js "--full"; js "--notify"])
             oneThrowingResults 10 (js "discussion")
             (js "❌ Health Check: FAIL")).
    + left. split.
      * exists node, script, [], [js "--notify"]. reflexivity.
      * vm_compute. reflexivity.
    + exists node, script, [js "--full"], []. reflexivity.
    + right. apply Exists_cons_tl, Exists_cons_hd. right. left. reflexivity.
    + right. reflexivity.
    + reflexivity.
    + left. split; [|reflexivity].
      apply Exists_cons_tl, Exists_cons_hd. right. reflexivity.
  - intros call I.
    destruct (proj1 (main_notifies_only_on_request steadyHost noEnv sampleRoot
                       oneThrowing [node; script; js "--full"]) call I)
      as [Given _].
    apply has_given in Given. vm_compute in Given. discriminate Given.
Defined.

Section LogFileFacts.

Lemma dropWhile_all {A} (f : A -> bool) (a : list A) (x : A) (b : list A) :
  Forall (fun y => f y = true) a -> f x = false ->
  Main.dropWhile f (a ++ x :: b) = x :: b.
Proof.
  intros F X. induction F as [|y a Y _ IH]; cbn [app Main.dropWhile].
  - now rewrite X.
  - now rewrite Y.
Qed.

Lemma dropWhile_head {A} (f : A -> bool) (x : A) (l : list A) :
  f x = false -> Main.dropWhile f (x :: l) = x :: l.
Proof. intros X. cbn [Main.dropWhile]. now rewrite X. Qed.

(** [path.dirname] of the path of a file in a directory is the
    directory. *)
Lemma dirname_inDirectory (dir name path : jsstring) :
  inDirectory dir name path -> Main.dirname path = dir.
Proof.
  intros (-> & Named & NoSlash & d & c & Dir & C).
  assert (Units : forall x, In x (rev name) -> Main.isSlash x = false).
  { intros x I. apply in_rev in I. unfold Main.isSlash. apply N.eqb_neq.
    intros ->. now apply NoSlash. }
  destruct dir as [|first dtail]; [now destruct d|].
  change (js "/") with [47%N]. cbn [app Main.dirname].
  rewrite rev_app_distr. cbn [rev app]. rewrite <- app_assoc. cbn [app].
  match goal with
  | |- context [Main.dropWhile Main.isSlash ?l] =>
      assert (Skip : Main.dropWhile Main.isSlash l = l)
  end.
  { destruct (rev name) as [|x l] eqn:R.
    - apply (f_equal (@rev _)) in R. rewrite rev_involutive in R.
      now elim Named.
    - cbn [app]. apply dropWhile_head. apply Units. now left. }
  rewrite Skip.
  rewrite dropWhile_all.
  - cbn [List.length]. rewrite length_rev.
    assert (Root : Main.isSlash first && (S (List.length dtail) =? 1) = false).
    { destruct dtail as [|y l]; [|now rewrite andb_false_r].
      destruct d as [|z [|? ?]]; try discriminate Dir.
      injection Dir as ->. unfold Main.isSlash.
      rewrite (proj2 (N.eqb_neq _ _) C). reflexivity. }
    rewrite Root. cbn [firstn]. f_equal.
    rewrite firstn_app, firstn_all, Nat.sub_diag. cbn [firstn].
    apply app_nil_r.
  - apply Forall_forall. intros x I. now rewrite (Units x I).
  - reflexivity.
Qed.

Lemma setting_envOr (env : jsstring -> option jsstring)
    (name fallback value : jsstring) :
  setting env name fallback value -> Main.envOr (env name) fallback = value.
Proof.
  unfold setting, Main.envOr.
  destruct (env name) as [[|c v]|]; now intros ->.
Qed.

End LogFileFacts.

(** X4.  When [--dry-run] is among its arguments, the main function
    neither creates a directory nor writes a file.  Without it, a run
    whose checks all got a result first creates the directory of the log
    file, then appends one entry to the log file (HEALTH_CHECK_LOG_FILE,
    or /tmp/clawdbot/health-check.log when that is unset or empty): a line
    of sixty equals signs, the line of the date, a second line of sixty
    equals signs, the report of the run and an empty line.  After that the
    main function itself only spawns notifier scripts. *)
Theorem main_appends_the_report
    (host : Main.Host) (env : jsstring -> option jsstring) (root : jsstring)
    (checks : Main.Checks) (argv : list jsstring) :
  let e := Main.main host env root checks argv in
  (given (js "--dry-run") argv ->
   forall ev, In ev (Main.events e) -> exists call, ev = Main.Spawned call) /\
  (~ given (js "--dry-run") argv ->
   forall results tick logFile dir name,
     completes host root checks argv results tick ->
     setting env (js "HEALTH_CHECK_LOG_FILE")
       (js "/tmp/clawdbot/health-check.log") logFile ->
     inDirectory dir name logFile ->
     let summary :=
       Runner.generateSummary (Main.toISOString host (Main.clock host tick))
         results in
     let reportText :=
       Runner.formatResults (Main.toLocaleString host (Main.clock host (S tick)))
         results summary in
     exists later,
       Main.events e =
         Main.Mkdir dir
         :: Main.AppendFile logFile
              (repeat 61%N 60 ++ LF
               ++ js "📅 "
               ++ Main.toISOString host (Main.clock host (S (S tick))) ++ LF
               ++ repeat 61%N 60 ++ LF
               ++ reportText ++ LF ++ LF)
         :: later /\
       forall ev, In ev later -> exists call, ev = Main.Spawned call).
Proof.
  cbv zeta.
  assert (Spawns : forall calls ev,
            In ev (map Main.Spawned calls) -> exists call, ev = Main.Spawned call).
  { intros calls ev I. apply in_map_iff in I. destruct I as [c [<- _]]. eauto. }
  destruct (Main.runChecks host root (Main.full (Main.parseArgs argv))
              (checksToRun checks argv) 0 []) as [results tick|err|died] eqn:Run.
  2,3: rewrite (main_after_checks_ended host env root checks argv)
         by (rewrite Run; discriminate);
       cbn [Main.events]; (split; [intros _ ? []|]);
       intros _ ? ? ? ? ? H; apply runChecks_completes in H;
       rewrite Run in H; discriminate.
  rewrite (main_after_checks_returned host env root checks argv results tick Run).
  apply runChecks_completes in Run.
  cbv zeta. split.
  - intros Dry. apply has_given in Dry.
    change (existsb (JS.eqb (js "--dry-run")) (skipn 2 argv))
      with (Main.dryRun (Main.parseArgs argv)) in Dry.
    rewrite Dry. cbn [fst snd Main.events app]. apply Spawns.
  - intros Wet results' tick' logFile dir name E Log Dir.
    assert (Same : results' = results /\ tick' = tick).
    { destruct Run as [[F R]|[F R]], E as [[F' R']|[F' R']];
        try contradiction; rewrite R in R'; now injection R'. }
    destruct Same as [-> ->].
    apply not_given in Wet.
    change (existsb (JS.eqb (js "--dry-run")) (skipn 2 argv))
      with (Main.dryRun (Main.parseArgs argv)) in Wet.
    rewrite Wet.
    unfold Main.loggerAppend. cbn [fst snd].
    replace (Notifier.healthLog (Main.CONFIG env root)) with logFile
      by (symmetry; exact (setting_envOr env _ _ logFile Log)).
    rewrite (dirname_inDirectory dir name logFile Dir).
    unfold Logger.logEntry, Logger.separator.
    match goal with
    | |- context [Main.appendFile host ?path ?data] =>
        destruct (Main.appendFile host path data) as [[]|e]
    end; cbn [Main.events app].
    + eexists. split; [reflexivity|]. apply Spawns.
    + exists []. split; [reflexivity|]. intros ? [].
Qed.

Lemma main_appends_the_report_witness :
  (forall ev,
     In ev (Main.events (Main.main steadyHost noEnv sampleRoot allPassing
                           [node; script; js "--notify"; js "--dry-run"])) ->
     exists call, ev = Main.Spawned call) /\
  (exists later,
     Main.events (Main.main steadyHost noEnv sampleRoot allPassing
                    [node; script])
     = Main.Mkdir (js "/tmp/clawdbot")
       :: Main.AppendFile (js "/tmp/clawdbot/health-check.log")
            (join LF
               [js "============================================================";
                js "📅 2026-01-05T08:30:00.123Z";
                js "============================================================";
                js "🏥 Clawdbot Health Check Report";
                js "📅 2026/1/5 16:30:00";
                js "📊 Overall Status: ✅ PASS";
                [];
                js "## Summary";
                js "Total Checks: 3";
                js "✅ Passed: 3";
                js "⚠️  Warnings: 0";
                js "❌ Failed: 0";
                js "💥 Errors: 0";
                [];
                js "## Details";
                js "✅ Config Check [1ms]";
                [];
                js "✅ Syntax Check [1ms]";
                [];
                js "✅ Dependencies Check [1ms]";
                [];
                [];
                []])
       :: later /\
     forall ev, In ev later -> exists call, ev = Main.Spawned call).
Proof.
  split.
  - apply (proj1 (main_appends_the_report steadyHost noEnv sampleRoot allPassing
                    [node; script; js "--notify"; js "--dry-run"])).
    exists node, script, [js "--notify"], []. reflexivity.
  - set (results := [plainResult (js "Config Check") (js "pass") 1;
                     plainResult (js "Syntax Check") (js "pass") 1;
                     plainResult (js "Dependencies Check") (js "pass") 1]).
    match goal with
    | |- context [Main.AppendFile _ ?text] =>
        assert (Entry :
          text =
          repeat 61%N 60 ++ LF
          ++ js "📅 "
          ++ Main.toISOString steadyHost (Main.clock steadyHost (S (S 6))) ++ LF
          ++ repeat 61%N 60 ++ LF
          ++ Runner.formatResults
               (Main.toLocaleString steadyHost (Main.clock steadyHost (S 6)))
               results
               (Runner.generateSummary
                  (Main.toISOString steadyHost (Main.clock steadyHost 6))
                  results)
          ++ LF ++ LF) by (vm_compute; reflexivity);
        rewrite Entry
    end.
    apply (proj2 (main_appends_the_report steadyHost noEnv sampleRoot allPassing
                    [node; script])
             ltac:(intros G; apply has_given in G; vm_compute in G;
                   discriminate G)
             results 6 (js "/tmp/clawdbot/health-check.log")
             (js "/tmp/clawdbot") (js "health-check.log")).
    + right. split.
      * intros G. apply has_given in G. vm_compute in G. discriminate G.
      * vm_compute. reflexivity.
    + reflexivity.
    + split; [vm_compute; reflexivity|].
      split; [vm_compute; discriminate|].
      split.
      * vm_compute. intuition discriminate.
      * exists (js "/tmp/clawdbo"), 116%N. split; [vm_compute; reflexivity|].
        discriminate.
Defined.

(** ** The logger *)

Lemma splitFrom_nonempty (r : regex) (s : jsstring) :
  forall piece skip pos, splitFrom r piece skip pos s <> [].
Proof.
  induction s as [|c s IH]; intros piece skip pos; cbn [splitFrom].
  - discriminate.
  - destruct skip as [|n]; [|apply IH].
    destruct (matchAt r pos (c :: s)) as [m|]; [|apply IH].
    destruct (List.length (matched m)); [apply IH|discriminate].
Qed.

(** [split] on a separator that matches, wherever it stands, the texts of
    a given kind and nothing else, none of them empty: the pieces are
    those between the separators, taken from left to right. *)
Section Cuts.
Variable r : regex.
Variable sep : jsstring -> Prop.
Hypothesis matched_sep :
  forall pos s res,
    matchAt r pos s = Some res ->
    sep (matched res) /\ exists rest, s = matched res ++ rest.
Hypothesis sep_matched :
  forall pos m rest,
    sep m -> exists res, matchAt r pos (m ++ rest) = Some res /\ matched res = m.
Hypothesis sep_nonempty : ~ sep [].

Lemma splitFrom_skips (m rest : jsstring) :
  forall acc pos,
    splitFrom r acc (List.length m) pos (m ++ rest)
    = match rest with
      | [] => [rev acc]
      | _ => splitFrom r acc 0 (pos + List.length m) rest
      end.
Proof.
  induction m as [|x m IH]; intros acc pos; cbn [List.length app].
  - rewrite Nat.add_0_r. now destruct rest.
  - cbn [splitFrom]. rewrite IH. now rewrite Nat.add_succ_r.
Qed.

Lemma splitFrom_end (acc : jsstring) (pos : nat) :
  splitFrom r acc 0 pos [] = [rev acc].
Proof. reflexivity. Qed.

Lemma splitFrom_no_match (c : codeunit) (s acc : jsstring) (pos : nat) :
  (forall m b, c :: s = m ++ b -> ~ sep m) ->
  splitFrom r acc 0 pos (c :: s) = splitFrom r (c :: acc) 0 (S pos) s.
Proof.
  intros No. cbn [splitFrom].
  destruct (matchAt r pos (c :: s)) as [res|] eqn:M; [|reflexivity].
  destruct (matched_sep _ _ _ M) as [S [rest E]].
  now elim (No (matched res) rest E).
Qed.

Lemma splitFrom_piece (piece tail : jsstring) :
  forall acc pos,
    (forall a m b, piece ++ tail = a ++ m ++ b -> sep m ->
       List.length piece <= List.length a) ->
    splitFrom r acc 0 pos (piece ++ tail)
    = splitFrom r (rev piece ++ acc) 0 (pos + List.length piece) tail.
Proof.
  induction piece as [|c piece IH]; intros acc pos Left.
  - cbn. now rewrite Nat.add_0_r.
  - cbn [app]. rewrite splitFrom_no_match.
    + rewrite IH.
      * cbn [rev List.length]. rewrite <- app_assoc. cbn [app].
        now rewrite Nat.add_succ_r.
      * intros a m b E S.
        specialize (Left (c :: a) m b). cbn [app List.length] in Left.
        rewrite E in Left. specialize (Left eq_refl S). lia.
    + intros m b E S. specialize (Left [] m b E S). cbn in Left. lia.
Qed.

Lemma splitFrom_cut (s : jsstring) (pieces : list jsstring) :
  cutBy sep s pieces ->
  forall acc pos,
    splitFrom r acc 0 pos s
    = match pieces with
      | [] => []
      | p :: ps => (rev acc ++ p) :: ps
      end.
Proof.
  induction 1 as [s No|piece m rest pieces S Left C IH]; intros acc pos.
  - rewrite <- (app_nil_r s) at 1. rewrite splitFrom_piece.
    + cbn [splitFrom]. now rewrite rev_app_distr, rev_involutive.
    + intros a m b E S. rewrite app_nil_r in E. now elim (No a m b E).
  - rewrite splitFrom_piece by exact Left.
    destruct m as [|c m]; [now elim sep_nonempty|].
    destruct (sep_matched (pos + List.length piece) (c :: m) rest S)
      as [res [M L]].
    cbn [app splitFrom]. cbn [app] in M. rewrite M, L. cbn [List.length].
    rewrite rev_app_distr, rev_involutive. f_equal.
    rewrite splitFrom_skips.
    destruct rest as [|x rest].
    + inversion C as [s No E1 E2|piece' m' rest' pieces' S' _ _ E1 E2].
      * reflexivity.
      * destruct piece'; [|discriminate E1].
        destruct m'; [now elim sep_nonempty|discriminate E1].
    + rewrite IH. now destruct pieces.
Qed.

Lemma cutBy_nonempty (s : jsstring) (pieces : list jsstring) :
  cutBy sep s pieces -> pieces <> [].
Proof. destruct 1; discriminate. Qed.

Lemma cutBy_cons (c : codeunit) (s p : jsstring) (ps : list jsstring) :
  (forall m b, c :: s = m ++ b -> ~ sep m) ->
  cutBy sep s (p :: ps) -> cutBy sep (c :: s) ((c :: p) :: ps).
Proof.
  intros No C. remember (p :: ps) as pieces eqn:P.
  destruct C as [s No'|piece m rest pieces S Left C']; injection P as <- <-.
  - apply cut_last. intros [|x a] m b E.
    + exact (No m b E).
    + cbn [app] in E. injection E as _ E. exact (No' a m b E).
  - change (c :: piece ++ m ++ rest) with ((c :: piece) ++ m ++ rest).
    apply cut_piece; [exact S| |exact C'].
    intros [|x a] m' b E S'.
    + now elim (No m' b E).
    + cbn [app] in E. injection E as _ E. specialize (Left a m' b E S').
      cbn [List.length]. lia.
Qed.

(** Every text is cut into pieces. *)
Lemma cutBy_total (n : nat) :
  forall s, List.length s <= n -> exists p ps, cutBy sep s (p :: ps).
Proof.
  induction n as [|n IH]; intros s L.
  - destruct s; [|cbn in L; lia]. exists [], []. apply cut_last.
    intros [|? ?] [|? ?] ? E; try discriminate E. exact sep_nonempty.
  - destruct s as [|c s].
    + exists [], []. apply cut_last.
      intros [|? ?] [|? ?] ? E; try discriminate E. exact sep_nonempty.
    + destruct (matchAt r 0 (c :: s)) as [res|] eqn:M.
      * destruct (matched_sep _ _ _ M) as [S [rest E]].
        assert (Shorter : List.length rest <= n).
        { apply (f_equal (@List.length _)) in E. rewrite length_app in E.
          cbn [List.length] in *.
          destruct (matched res); [now elim sep_nonempty|].
          cbn [List.length] in E. lia. }
        destruct (IH rest Shorter) as [p [ps C]].
        exists [], (p :: ps). rewrite E.
        change (matched res ++ rest) with ([] ++ matched res ++ rest).
        apply cut_piece; [exact S| |exact C]. intros; cbn; lia.
      * destruct (IH s) as [p [ps C]]; [cbn in L; lia|].
        exists (c :: p), ps. apply cutBy_cons; [|exact C].
        intros m b E S.
        destruct (sep_matched 0 m b S) as [res [M' _]].
        rewrite <- E in M'. congruence.
Qed.

End Cuts.

Section Separators.

Lemma app_same_length {A} (a c b d : list A) :
  a ++ b = c ++ d -> List.length a = List.length c -> a = c.
Proof.
  revert c. induction a as [|x a IH]; intros [|y c] E L;
    try discriminate L; [reflexivity|].
  cbn [app] in E. injection E as -> E. f_equal. apply (IH c E).
  now injection L.
Qed.

Lemma isDate_length (date : jsstring) : isDate date -> List.length date = 10.
Proof.
  intros [y [m [d (-> & Ly & Lm & Ld & _)]]].
  rewrite !length_app, Ly, Lm, Ld. reflexivity.
Qed.

Lemma isSeparator_length (m : jsstring) :
  isSeparator m -> List.length m = 75.
Proof.
  intros [date [D ->]].
  rewrite !length_app, repeat_length, (isDate_length date D). reflexivity.
Qed.

(** What the separator of [readRecent] matches. *)
Lemma denotes_separator (pos : nat) (w rest : jsstring) :
  denotes LogFile.recentSeparator pos w rest <-> isSeparator w.
Proof.
  unfold LogFile.recentSeparator. rewrite denotes_seqs_cons. split.
  - intros [e [t1 (-> & De & D)]].
    apply denotes_exactly in De. destruct De as [Le Fe].
    assert (E : e = repeat 61%N 60).
    { rewrite <- Le. apply Forall_eq_repeat.
      eapply Forall_impl; [|exact Fe].
      intros c H. unfold chr in H. apply N.eqb_eq in H. now symmetry. }
    subst e.
    apply denotes_seqs_cons in D. destruct D as [l [t2 (-> & Dl & D)]].
    apply denotes_lit in Dl. subst l.
    apply denotes_seqs_cons in D. destruct D as [y [t3 (-> & Dy & D)]].
    apply denotes_exactly in Dy. destruct Dy as [Ly Fy].
    apply denotes_seqs_cons in D. destruct D as [h1 [t4 (-> & Dh1 & D)]].
    apply denotes_lit in Dh1. subst h1.
    apply denotes_seqs_cons in D. destruct D as [m [t5 (-> & Dm & D)]].
    apply denotes_exactly in Dm. destruct Dm as [Lm Fm].
    apply denotes_seqs_cons in D. destruct D as [h2 [t6 (-> & Dh2 & D)]].
    apply denotes_lit in Dh2. subst h2.
    apply denotes_seqs_cons in D. destruct D as [d [t7 (-> & Dd & D)]].
    apply denotes_exactly in Dd. destruct Dd as [Ld Fd].
    apply denotes_seqs_cons in D. destruct D as [t [t8 (-> & Dt & D)]].
    apply denotes_lit in Dt. subst t.
    cbn [seqs denotes] in D. subst t8.
    exists (y ++ js "-" ++ m ++ js "-" ++ d). split.
    + exists y, m, d. repeat split; auto.
      apply Forall_digit. rewrite !Forall_app. auto.
    + now rewrite <- !app_assoc, app_nil_r.
  - intros [date [[y [m [d (-> & Ly & Lm & Ld & F)]]] ->]].
    apply Forall_digit in F. rewrite !Forall_app in F.
    destruct F as [Fy [Fm Fd]].
    exists (repeat 61%N 60),
           (LF ++ js "📅 " ++ (y ++ js "-" ++ m ++ js "-" ++ d) ++ js "T").
    split; [reflexivity|]. split.
    { apply denotes_exactly. split; [apply repeat_length|].
      apply Forall_forall. intros c I. apply repeat_spec in I. subst c.
      reflexivity. }
    apply denotes_seqs_cons.
    exists (LF ++ js "📅 "), ((y ++ js "-" ++ m ++ js "-" ++ d) ++ js "T").
    split; [now rewrite <- !app_assoc|]. split; [now apply denotes_lit|].
    apply denotes_seqs_cons.
    exists y, (js "-" ++ m ++ js "-" ++ d ++ js "T").
    split; [now rewrite <- !app_assoc|].
    split; [now apply denotes_exactly|].
    apply denotes_seqs_cons.
    exists (js "-"), (m ++ js "-" ++ d ++ js "T").
    split; [reflexivity|]. split; [now apply denotes_lit|].
    apply denotes_seqs_cons.
    exists m, (js "-" ++ d ++ js "T").
    split; [reflexivity|]. split; [now apply denotes_exactly|].
    apply denotes_seqs_cons.
    exists (js "-"), (d ++ js "T").
    split; [reflexivity|]. split; [now apply denotes_lit|].
    apply denotes_seqs_cons.
    exists d, (js "T").
    split; [reflexivity|]. split; [now apply denotes_exactly|].
    apply denotes_seqs_cons.
    exists (js "T"), [].
    split; [now rewrite app_nil_r|]. split; [now apply denotes_lit|].
    reflexivity.
Qed.

Lemma separator_matched (pos : nat) (s : jsstring) (res : result) :
  matchAt LogFile.recentSeparator pos s = Some res ->
  isSeparator (matched res) /\ exists rest, s = matched res ++ rest.
Proof.
  intros M. apply matchAt_sound in M.
  destruct M as [w [rest (-> & D & -> & _)]].
  split; [now apply denotes_separator in D|eauto].
Qed.

Lemma matched_separator (pos : nat) (m rest : jsstring) :
  isSeparator m ->
  exists res,
    matchAt LogFile.recentSeparator pos (m ++ rest) = Some res /\
    matched res = m.
Proof.
  intros S.
  destruct (proj2 (matchAt_denotes LogFile.recentSeparator pos (m ++ rest)))
    as [res M].
  { exists m, rest. split; [reflexivity|]. now apply denotes_separator. }
  exists res. split; [exact M|].
  destruct (separator_matched pos _ res M) as [S' [rest' E]].
  symmetry. apply (app_same_length m (matched res) rest rest' E).
  now rewrite (isSeparator_length m S), (isSeparator_length _ S').
Qed.

Lemma separator_nonempty : ~ isSeparator [].
Proof. intros S. apply isSeparator_length in S. discriminate S. Qed.

(** [split] cuts the text at the separators. *)
Lemma split_cuts (content : jsstring) :
  cutBy isSeparator content (split LogFile.recentSeparator content).
Proof.
  destruct (cutBy_total LogFile.recentSeparator isSeparator
              separator_matched matched_separator separator_nonempty
              (List.length content) content (Nat.le_refl _)) as [p [ps C]].
  unfold split.
  rewrite (splitFrom_cut LogFile.recentSeparator isSeparator
             separator_matched matched_separator separator_nonempty
             content (p :: ps) C [] 0).
  exact C.
Qed.

Lemma cuts_split (content : jsstring) (pieces : list jsstring) :
  cutBy isSeparator content pieces ->
  split LogFile.recentSeparator content = pieces.
Proof.
  intros C. unfold split.
  rewrite (splitFrom_cut LogFile.recentSeparator isSeparator
             separator_matched matched_separator separator_nonempty
             content pieces C [] 0).
  destruct pieces; [|reflexivity]. now apply cutBy_nonempty in C.
Qed.

End Separators.

(** X5.  [readRecent] gives no entry when the log file is missing or
    cannot be read.  Otherwise the text of the file is cut at its
    separators, from left to right: a separator is a line of sixty equals
    signs followed by the start of the line of the date, up to the [T]
    that ends the day.  [readRecent] gives the last [n] of the pieces
    between the separators, in their order, or all of them when there are
    fewer, and never none; asked for 0 entries it gives every piece,
    [slice(-0)] being [slice(0)]. *)
Theorem readRecent_gives_the_last_pieces
    (fs : FileSystem) (logPath : jsstring) (n : nat) :
  (existsSync fs logPath = false \/ (exists e, readFile fs logPath = Threw e) ->
   LogFile.readRecent fs logPath n = []) /\
  (forall content,
     existsSync fs logPath = true -> readFile fs logPath = Returned content ->
     (exists pieces, cutBy isSeparator content pieces) /\
     forall pieces,
       cutBy isSeparator content pieces ->
       let entries := LogFile.readRecent fs logPath n in
       entries <> [] /\
       (n = 0 -> entries = pieces) /\
       (0 < n -> lastLines n pieces entries)).
Proof.
  unfold LogFile.readRecent. split.
  - intros [Missing|[e Unreadable]].
    + now rewrite Missing.
    + destruct (existsSync fs logPath); [|reflexivity].
      now rewrite Unreadable.
  - intros content Present Readable.
    split; [exists (split LogFile.recentSeparator content); apply split_cuts|].
    intros pieces C. cbv zeta. rewrite Present, Readable.
    cbn [negb]. rewrite (cuts_split content pieces C).
    pose proof (cutBy_nonempty isSeparator content pieces C) as NE.
    unfold LogFile.sliceLast, lastLines.
    destruct n as [|n].
    + split; [exact NE|]. split; [reflexivity|]. intros H; inversion H.
    + split; [|split; [discriminate|intros _]].
      * intros E. apply (f_equal (@List.length _)) in E.
        rewrite length_skipn in E. cbn [List.length] in E.
        destruct pieces; [now elim NE|]. cbn [List.length] in E. lia.
      * exists (firstn (List.length pieces - S n) pieces). split.
        -- symmetry. apply firstn_skipn.
        -- rewrite length_skipn. lia.
Qed.

Lemma readRecent_gives_the_last_pieces_witness :
  let path := js "/tmp/clawdbot/health-check.log" in
  let line := js "============================================================" in
  let first := join LF [js "08:30:00.123Z"; line; js "first report"; []; []] in
  let second := join LF [js "09:00:00.000Z"; line; js "second report"; []; []] in
  LogFile.readRecent emptyDisk path 5 = [] /\
  cutBy isSeparator twoEntries [[]; first; second] /\
  LogFile.readRecent (oneFile path twoEntries) path 0 = [[]; first; second] /\
  lastLines 1 [[]; first; second]
    (LogFile.readRecent (oneFile path twoEntries) path 1) /\
  LogFile.readRecent (oneFile path twoEntries) path 1 = [second].
Proof.
  intros path line first second.
  assert (Pieces : split LogFile.recentSeparator twoEntries
                   = [[]; first; second]) by (vm_compute; reflexivity).
  assert (Cut : cutBy isSeparator twoEntries [[]; first; second])
    by (rewrite <- Pieces; apply split_cuts).
  assert (Present : existsSync (oneFile path twoEntries) path = true)
    by (vm_compute; reflexivity).
  assert (Readable : readFile (oneFile path twoEntries) path
                     = Returned twoEntries) by (vm_compute; reflexivity).
  split; [|split; [exact Cut|split; [|split]]].
  - apply (proj1 (readRecent_gives_the_last_pieces emptyDisk path 5)).
    left. reflexivity.
  - destruct (proj2 (readRecent_gives_the_last_pieces
                       (oneFile path twoEntries) path 0)
                twoEntries Present Readable) as [_ Last].
    destruct (Last _ Cut) as [_ [All _]]. apply All. reflexivity.
  - destruct (proj2 (readRecent_gives_the_last_pieces
                       (oneFile path twoEntries) path 1)
                twoEntries Present Readable) as [_ Last].
    destruct (Last _ Cut) as [_ [_ Some1]]. apply Some1. lia.
  - vm_compute. reflexivity.
Defined.

(** ** The config check as a whole *)

Section ConfigRunFacts.
Import Runner ConfigCheck.
Variable fs : FileSystem.

Lemma isPass_true (st : option jsstring) :
  ConfigRun.isPass st = true <-> st = Some (js "pass").
Proof.
  unfold ConfigRun.isPass. destruct st as [s|]; [|split; discriminate].
  rewrite eqb_eq. split; [now intros ->|now intros [= ->]].
Qed.

Lemma skillStep_issues (skillsDir skill : jsstring) (st : ConfigRun.Skills) :
  let st' := ConfigRun.skillStep fs skillsDir st skill in
  (skillHasIssues fs skillsDir skill ->
   ConfigRun.skillsWithIssues st' = S (ConfigRun.skillsWithIssues st)) /\
  (~ skillHasIssues fs skillsDir skill ->
   ConfigRun.skillsWithIssues st' = ConfigRun.skillsWithIssues st).
Proof.
  unfold ConfigRun.skillStep, skillHasIssues, ConfigRun.access. cbv zeta.
  set (skillEnv := pathJoin (pathJoin skillsDir skill) (js ".env")).
  destruct (existsSync fs skillEnv).
  2:{ split; [intros [H _]; discriminate|reflexivity]. }
  destruct (checkEnvFile fs skillEnv) as [sr|e].
  2:{ split; [intros [_ [? [H _]]]; discriminate|reflexivity]. }
  cbn [ConfigRun.skillsWithIssues].
  destruct (ConfigRun.isPass (p_status sr)) eqn:P; cbn [negb].
  - apply isPass_true in P. split; [|reflexivity].
    intros [_ [sr' [E N]]]. injection E as <-. now elim N.
  - split; [reflexivity|]. intros N. exfalso. apply N.
    split; [reflexivity|]. exists sr. split; [reflexivity|].
    intros E. apply isPass_true in E. congruence.
Qed.

Lemma fold_skillStep_issues (skillsDir : jsstring) (skills : list jsstring) :
  forall st,
    0 < ConfigRun.skillsWithIssues
          (fold_left (ConfigRun.skillStep fs skillsDir) skills st) <->
    0 < ConfigRun.skillsWithIssues st
    \/ Exists (skillHasIssues fs skillsDir) skills.
Proof.
  induction skills as [|skill rest IH]; intros st; cbn [fold_left].
  - split; [auto|]. intros [H|H]; [exact H|inversion H].
  - rewrite IH.
    destruct (skillStep_issues skillsDir skill st) as [Yes No]. cbv zeta in *.
    split.
    + intros [H|H]; [|right; now apply Exists_cons_tl].
      assert (D : skillHasIssues fs skillsDir skill
                  \/ ~ skillHasIssues fs skillsDir skill).
      { unfold skillHasIssues. cbv zeta.
        destruct (existsSync fs _); [|right; intros [? _]; discriminate].
        destruct (checkEnvFile fs _) as [sr|e];
          [|right; intros [_ [? [? _]]]; discriminate].
        destruct (ConfigRun.isPass (p_status sr)) eqn:P.
        - right. intros [_ [sr' [E N]]]. injection E as <-.
          apply isPass_true in P. now elim N.
        - left. split; [reflexivity|]. exists sr. split; [reflexivity|].
          intros E. apply isPass_true in E. congruence. }
      destruct D as [D|D].
      * right. now apply Exists_cons_hd.
      * rewrite (No D) in H. now left.
    + intros [H|H].
      * left.
        assert (M : ConfigRun.skillsWithIssues st
                    <= ConfigRun.skillsWithIssues
                         (ConfigRun.skillStep fs skillsDir st skill)).
        { unfold ConfigRun.skillStep.
          destruct (ConfigRun.access fs _); [|apply Nat.le_refl].
          destruct (checkEnvFile fs _); [|apply Nat.le_refl].
          cbn [ConfigRun.skillsWithIssues].
          destruct (negb _); lia. }
        lia.
      * inversion H as [? ? Hd|? ? Tl]; subst.
        -- left. rewrite (Yes Hd). lia.
        -- now right.
Qed.

End ConfigRunFacts.

(** X6.  The config check takes its status from the check of the main
    [.env] file.  The [.env] files of the skills can only turn a pass into
    a warning, which they do exactly when one of them exists and is
    checked with another status than pass; a main status other than pass
    is kept.  The three key files do not count: each one that is missing
    adds a detail of status fail and a suggestion to restore it, and each
    one that exists a detail of status pass, whatever the status of the
    check. *)
Theorem config_run_status
    (fs : FileSystem) (root : jsstring) (mainResult : Runner.PartialResult)
    (mainChecked :
       ConfigCheck.checkEnvFile fs (pathJoin root (js ".env"))
         = Returned mainResult)
    (listing : forall which,
       readdir fs (pathJoin root (js "skills")) <> Threw (ThrownNullish which)) :
  let skillsDir := pathJoin root (js "skills") in
  let skillIssues :=
    exists skills,
      readdir fs skillsDir = Returned skills /\
      Exists (skillHasIssues fs skillsDir) skills in
  exists r ds fx,
    ConfigRun.run fs root = Returned r /\
    Runner.p_details r = Some ds /\ Runner.p_fix r = Some fx /\
    (Runner.p_status mainResult = Some (js "pass") -> skillIssues ->
     Runner.p_status r = Some (js "warning")) /\
    (Runner.p_status mainResult <> Some (js "pass") \/ ~ skillIssues ->
     Runner.p_status r = Runner.p_status mainResult) /\
    (forall path name, In (path, name) (ConfigRun.keyFiles root) ->
       if existsSync fs path
       then In {| Runner.d_status := js "pass";
                  Runner.d_message := name ++ js " exists" |} ds
       else In {| Runner.d_status := js "fail";
                  Runner.d_message := name ++ js " missing" |} ds
            /\ In (js "Restore or create " ++ path) fx).
Proof.
  cbv zeta. unfold ConfigRun.run. rewrite mainChecked. cbn [bind].
  set (skillsDir := pathJoin root (js "skills")) in *.
  assert (Keys : forall (before : list Runner.Detail) (fixes : list jsstring)
                        path name,
             In (path, name) (ConfigRun.keyFiles root) ->
             if existsSync fs path
             then In {| Runner.d_status := js "pass";
                        Runner.d_message := name ++ js " exists" |}
                     (before ++ map (ConfigRun.keyFileDetail fs)
                                    (ConfigRun.keyFiles root))
             else In {| Runner.d_status := js "fail";
                        Runner.d_message := name ++ js " missing" |}
                     (before ++ map (ConfigRun.keyFileDetail fs)
                                    (ConfigRun.keyFiles root))
                  /\ In (js "Restore or create " ++ path)
                        (fixes ++ flat_map (ConfigRun.keyFileFixes fs)
                                           (ConfigRun.keyFiles root))).
  { intros before fixes path name I.
    assert (D : In (ConfigRun.keyFileDetail fs (path, name))
                   (before ++ map (ConfigRun.keyFileDetail fs)
                                  (ConfigRun.keyFiles root)))
      by (apply in_or_app; right; now apply in_map).
    assert (F : forall f, In f (ConfigRun.keyFileFixes fs (path, name)) ->
                  In f (fixes ++ flat_map (ConfigRun.keyFileFixes fs)
                                          (ConfigRun.keyFiles root))).
    { intros f If. apply in_or_app; right. apply in_flat_map. eauto. }
    unfold ConfigRun.keyFileDetail, ConfigRun.keyFileFixes, ConfigRun.access
      in D, F.
    destruct (existsSync fs path); [exact D|].
    split; [exact D|]. apply F. now left. }
  destruct (readdir fs skillsDir) as [skills|[msg stk|which]] eqn:Listing;
    [| |now elim (listing which)]; cbn [bind messageOf].
  - set (st := fold_left (ConfigRun.skillStep fs skillsDir) skills _).
    cbn [ConfigRun.skillsWithIssues ConfigRun.skillsChecked ConfigRun.details].
    pose proof (fold_skillStep_issues fs skillsDir skills
                  {| ConfigRun.details :=
                       match Runner.p_details mainResult with
                       | Some ds => ds
                       | None => []
                       end;
                     ConfigRun.skillsChecked := 0;
                     ConfigRun.skillsWithIssues := 0 |}) as Issues.
    fold st in Issues. cbn [ConfigRun.skillsWithIssues] in Issues.
    eexists. eexists. eexists.
    split; [reflexivity|]. cbn [Runner.p_details Runner.p_fix Runner.p_status].
    split; [reflexivity|]. split; [reflexivity|].
    split; [|split; [|apply Keys]].
    + intros Pass [skills' [E X]]. injection E as <-.
      assert (P : 0 < ConfigRun.skillsWithIssues st) by (apply Issues; now right).
      apply Nat.ltb_lt in P. rewrite P.
      apply isPass_true in Pass. now rewrite Pass.
    + intros [NotPass|Quiet].
      * destruct (ConfigRun.isPass (Runner.p_status mainResult)) eqn:P;
          [apply isPass_true in P; now elim NotPass|].
        now rewrite andb_false_r.
      * destruct (0 <? ConfigRun.skillsWithIssues st) eqn:P; [|reflexivity].
        apply Nat.ltb_lt, Issues in P. destruct P as [P|P]; [inversion P|].
        exfalso. apply Quiet. eauto.
  - cbn [ConfigRun.skillsWithIssues ConfigRun.skillsChecked ConfigRun.details].
    eexists. eexists. eexists.
    split; [reflexivity|]. cbn [Runner.p_details Runner.p_fix Runner.p_status].
    split; [reflexivity|]. split; [reflexivity|].
    split; [|split; [|apply Keys]].
    + intros _ [skills' [E _]]. discriminate.
    + reflexivity.
Qed.

Lemma config_run_status_witness :
  exists r ds,
    ConfigRun.run configDisk sampleRoot = Returned r /\
    Runner.p_status r = Some (js "warning") /\
    Runner.p_details r = Some ds /\
    In {| Runner.d_status := js "fail";
          Runner.d_message := js "Notion skill config missing" |} ds.
Proof.
  edestruct (config_run_status configDisk sampleRoot)
    as [r [ds [fx [E [D [_ [W [_ K]]]]]]]].
  - vm_compute. reflexivity.
  - intros which. vm_compute. discriminate.
  - exists r, ds. split; [exact E|]. split; [|split; [exact D|]].
    + apply W.
      * vm_compute. reflexivity.
      * exists [js "notes"; js "plain"]. split; [vm_compute; reflexivity|].
        apply Exists_cons_hd. split; [vm_compute; reflexivity|].
        eexists. split; [vm_compute; reflexivity|]. vm_compute. discriminate.
    + assert (I : In (js "/clawd/skills/notion-persistence-universal/SKILL.md",
                      js "Notion skill config") (ConfigRun.keyFiles sampleRoot))
        by (right; left; vm_compute; reflexivity).
      pose proof (K _ _ I) as Missing. vm_compute in Missing.
      vm_compute. exact (proj1 Missing).
Defined.

(** ** The dependency check *)

Section DependenciesFacts.
Import Runner DependenciesCheck.

Lemma filter_nil {A} (f : A -> bool) (l : list A) :
  filter f l = [] <-> forall x, In x l -> f x = false.
Proof.
  induction l as [|a l IH]; cbn [filter].
  - split; [intros _ ? []|reflexivity].
  - destruct (f a) eqn:E.
    + split; [discriminate|]. intros H. rewrite (H a) in E; [discriminate|now left].
    + rewrite IH. split.
      * intros H x [<-|I]; auto.
      * intros H x I. apply H. now right.
Qed.

End DependenciesFacts.

(** X7.  A manifest that can be read and parsed never makes
    [checkPackageJson] reject.  A manifest that parses to [null] is
    checked with the status error, the TypeError of reading its
    dependencies in the one detail, and no suggestion.  Any other manifest
    is checked with the status pass or fail.  It passes exactly when each
    of the three critical packages (dotenv, @notionhq/client,
    node-telegram-bot-api) that it declares, as a dependency or a
    development dependency, has a directory under [node_modules] beside
    the manifest: a manifest that declares none of them passes, even when
    [node_modules] is missing.  A failing manifest comes with the one
    suggestion to run npm install in its directory. *)
Theorem checkPackageJson_status
    (fs : FileSystem) (JSON_parse : jsstring -> Outcome DependenciesCheck.Parsed)
    (pkgPath content dir name : jsstring) (parsed : DependenciesCheck.Parsed)
    (readable : readFile fs pkgPath = Returned content)
    (parses : JSON_parse content = Returned parsed)
    (beside : inDirectory dir name pkgPath) :
  let critical dep :=
    dep = js "dotenv" \/ dep = js "@notionhq/client"
    \/ dep = js "node-telegram-bot-api" in
  let installed dep :=
    existsSync fs (dir ++ js "/node_modules/" ++ dep) = true in
  exists r,
    DependenciesCheck.checkPackageJson fs JSON_parse pkgPath = Returned r /\
    match parsed with
    | DependenciesCheck.ParsedNull =>
        Runner.p_status r = Some (js "error") /\
        Runner.p_details r =
          Some [{| Runner.d_status := js "error";
                   Runner.d_message :=
                     js "Failed to check " ++ pkgPath
                     ++ js ": Cannot read properties of null (reading 'dependencies')" |}]
        /\ Runner.p_fix r = None
    | DependenciesCheck.ParsedValue pkg =>
        let declared dep :=
          In dep (DependenciesCheck.dependencies pkg)
          \/ In dep (DependenciesCheck.devDependencies pkg) in
        (Runner.p_status r = Some (js "pass")
         \/ Runner.p_status r = Some (js "fail")) /\
        (Runner.p_status r = Some (js "pass") <->
         forall dep, critical dep -> declared dep -> installed dep) /\
        (Runner.p_status r = Some (js "pass") -> Runner.p_fix r = Some []) /\
        (Runner.p_status r = Some (js "fail") ->
         Runner.p_fix r = Some [js "Run: npm install in " ++ dir])
    end.
Proof.
  cbv zeta. unfold DependenciesCheck.checkPackageJson.
  rewrite readable. cbn [bind]. rewrite parses. cbn [bind].
  destruct parsed as [|pkg].
  { cbn [catch DependenciesCheck.nullRead newError messageOf bind].
    eexists. split; [reflexivity|].
    cbn [Runner.p_status Runner.p_details Runner.p_fix Runner.interpolate
         Runner.orElse].
    split; [reflexivity|]. split; [|reflexivity].
    replace (js ": Cannot read properties of null (reading 'dependencies')")
      with (js ": "
            ++ js "Cannot read properties of null (reading 'dependencies')")
      by (vm_compute; reflexivity).
    reflexivity. }
  cbn [catch].
  rewrite (dirname_inDirectory dir name pkgPath beside).
  assert (Modules : forall dep,
            pathJoin (pathJoin dir (js "node_modules")) dep
            = dir ++ js "/node_modules/" ++ dep).
  { intros dep. destruct beside as (_ & _ & _ & d & c & -> & C).
    assert (Slash : forall (l : jsstring) (y : codeunit),
              y <> 47%N -> endsWith (js "/") (l ++ [y]) = false).
    { intros l y Y. unfold endsWith. rewrite rev_app_distr.
      change (rev (js "/")) with [47%N]. cbn [rev app startsWith].
      rewrite (proj2 (N.eqb_neq _ _)) by (intros E; now apply Y).
      reflexivity. }
    unfold pathJoin at 2. rewrite (Slash d c C).
    unfold pathJoin.
    change ((d ++ [c]) ++ js "/" ++ js "node_modules")
      with ((d ++ [c]) ++ js "/node_module" ++ [115%N]).
    rewrite !app_assoc. rewrite Slash by discriminate.
    rewrite <- !app_assoc. reflexivity. }
  set (declared := fun dep =>
         DependenciesCheck.contains (DependenciesCheck.dependencies pkg) dep
         || DependenciesCheck.contains (DependenciesCheck.devDependencies pkg) dep).
  set (missing :=
         filter (fun dep => negb (existsSync fs
                                    (pathJoin (pathJoin dir (js "node_modules"))
                                       dep)))
           (filter declared DependenciesCheck.CRITICAL)).
  assert (Declared : forall dep,
            declared dep = true <->
            In dep (DependenciesCheck.dependencies pkg)
            \/ In dep (DependenciesCheck.devDependencies pkg)).
  { intros dep. unfold declared, DependenciesCheck.contains.
    rewrite orb_true_iff, !existsb_exists. split.
    - intros [[x [I E]]|[x [I E]]]; apply eqb_eq in E; subst x; auto.
    - intros [I|I]; [left|right]; exists dep; split; auto using eqb_refl. }
  assert (Critical : forall dep,
            In dep DependenciesCheck.CRITICAL <->
            dep = js "dotenv" \/ dep = js "@notionhq/client"
            \/ dep = js "node-telegram-bot-api").
  { intros dep. unfold DependenciesCheck.CRITICAL. cbn [In].
    intuition congruence. }
  assert (M : missing = [] <->
              forall dep,
                dep = js "dotenv" \/ dep = js "@notionhq/client"
                \/ dep = js "node-telegram-bot-api" ->
                In dep (DependenciesCheck.dependencies pkg)
                \/ In dep (DependenciesCheck.devDependencies pkg) ->
                existsSync fs (dir ++ js "/node_modules/" ++ dep) = true).
  { unfold missing. rewrite filter_nil. split.
    - intros H dep C D. specialize (H dep). rewrite filter_In in H.
      rewrite <- Modules. apply negb_false_iff. apply H.
      split; [now apply Critical|now apply Declared].
    - intros H dep I. apply filter_In in I. destruct I as [I D].
      apply negb_false_iff. rewrite Modules. apply H.
      + now apply Critical.
      + now apply Declared. }
  eexists. split; [reflexivity|].
  cbn [Runner.p_status Runner.p_fix].
  destruct missing as [|dep others].
  - split; [now left|]. split; [|split; [reflexivity|]].
    + split; [intros _; now apply M|reflexivity].
    + intros H. exfalso. revert H. vm_compute. discriminate.
  - split; [now right|]. split; [|split; [|reflexivity]].
    + split.
      * intros H. exfalso. revert H. vm_compute. discriminate.
      * intros H. apply M in H. discriminate.
    + intros H. exfalso. revert H. vm_compute. discriminate.
Qed.

Lemma checkPackageJson_status_witness :
  (exists r,
     DependenciesCheck.checkPackageJson dependenciesDisk sampleParse
       (js "/clawd/package.json") = Returned r /\
     Runner.p_status r = Some (js "fail") /\
     Runner.p_fix r = Some [js "Run: npm install in /clawd"]) /\
  (exists r,
     DependenciesCheck.checkPackageJson installedDisk sampleParse
       (js "/clawd/package.json") = Returned r /\
     Runner.p_status r = Some (js "pass")) /\
  (exists r,
     DependenciesCheck.checkPackageJson nullManifestDisk sampleParse
       (js "/clawd/package.json") = Returned r /\
     Runner.p_status r = Some (js "error") /\
     Runner.p_details r =
       Some [{| Runner.d_status := js "error";
                Runner.d_message :=
                  js "Failed to check /clawd/package.json: Cannot read properties of null (reading 'dependencies')" |}]).
Proof.
  assert (Beside : inDirectory (js "/clawd") (js "package.json")
                     (js "/clawd/package.json")).
  { split; [vm_compute; reflexivity|].
    split; [vm_compute; discriminate|].
    split; [vm_compute; intuition discriminate|].
    exists (js "/claw"), 100%N. split; [vm_compute; reflexivity|discriminate]. }
  assert (Dotenv : In (js "dotenv") [js "dotenv"]) by (now left).
  split; [|split].
  - destruct (checkPackageJson_status dependenciesDisk sampleParse
                (js "/clawd/package.json") manifestDotenv (js "/clawd")
                (js "package.json")
                (DependenciesCheck.ParsedValue
                   {| DependenciesCheck.dependencies := [js "dotenv"];
                      DependenciesCheck.devDependencies := [] |}))
      as [r [E [[P|F] [Iff [_ Fix]]]]].
    + vm_compute. reflexivity.
    + vm_compute. reflexivity.
    + exact Beside.
    + exfalso.
      assert (Absent : existsSync dependenciesDisk
                         (js "/clawd" ++ js "/node_modules/" ++ js "dotenv")
                       = false) by (vm_compute; reflexivity).
      rewrite (proj1 Iff P (js "dotenv") (or_introl eq_refl)
                 (or_introl Dotenv)) in Absent.
      discriminate Absent.
    + exists r. split; [exact E|]. split; [exact F|].
      rewrite (Fix F). vm_compute. reflexivity.
  - destruct (checkPackageJson_status installedDisk sampleParse
                (js "/clawd/package.json") manifestDotenv (js "/clawd")
                (js "package.json")
                (DependenciesCheck.ParsedValue
                   {| DependenciesCheck.dependencies := [js "dotenv"];
                      DependenciesCheck.devDependencies := [] |}))
      as [r [E [_ [Iff _]]]].
    + vm_compute. reflexivity.
    + vm_compute. reflexivity.
    + exact Beside.
    + exists r. split; [exact E|]. apply Iff.
      intros dep _ [[<-|[]]|[]]. vm_compute. reflexivity.
  - destruct (checkPackageJson_status nullManifestDisk sampleParse
                (js "/clawd/package.json") manifestNull (js "/clawd")
                (js "package.json") DependenciesCheck.ParsedNull)
      as [r [E [S [D _]]]].
    + vm_compute. reflexivity.
    + vm_compute. reflexivity.
    + exact Beside.
    + exists r. split; [exact E|]. split; [exact S|].
      rewrite D. vm_compute. reflexivity.
Defined.

Section DependenciesRun.
Import Runner DependenciesCheck.
Variable fs : FileSystem.
Variable JSON_parse : jsstring -> Outcome Parsed.

Lemma checkPackageJson_unusable (pkgPath : jsstring) (msg : option jsstring) :
  unusable fs JSON_parse pkgPath msg ->
  checkPackageJson fs JSON_parse pkgPath = Returned (unusableResult pkgPath msg).
Proof.
  unfold checkPackageJson, unusableResult.
  intros [[stk R]|[content [R [[stk P]|[P N]]]]]; rewrite R; cbn [bind catch].
  - reflexivity.
  - rewrite P. reflexivity.
  - rewrite P. cbn [bind catch]. rewrite N. reflexivity.
Qed.

End DependenciesRun.

Lemma skillsLoop_app
    (fs : FileSystem) (JSON_parse : jsstring -> Outcome DependenciesCheck.Parsed)
    (skillsDir : jsstring) (before after : list jsstring) :
  forall st,
    DependenciesCheck.skillsLoop fs JSON_parse skillsDir (before ++ after) st =
      match DependenciesCheck.skillsLoop fs JSON_parse skillsDir before st with
      | (st1, None) =>
          DependenciesCheck.skillsLoop fs JSON_parse skillsDir after st1
      | (st1, Some e) => (st1, Some e)
      end.
Proof.
  induction before as [|skill rest IH]; intros st;
    cbn [app DependenciesCheck.skillsLoop]; [reflexivity|].
  destruct (existsSync fs _); [|apply IH].
  destruct (DependenciesCheck.checkPackageJson fs JSON_parse _) as [r|e];
    [|reflexivity].
  destruct (DependenciesCheck.isPass r); [apply IH|].
  destruct (Runner.p_fix r); [apply IH|reflexivity].
Qed.

(** X8.  When the manifest of the root exists but cannot be used (it cannot
    be read, or parsed, or it is the text null), the dependency check does
    not report it: [checkPackageJson] returns an error result without a
    [fix], [run] spreads that missing [fix] into its suggestions, and the
    TypeError of the spread rejects the check, before any skill is looked
    at and before git is asked. *)
Theorem dependencies_run_rejects_on_unusable_root
    (fs : FileSystem) (JSON_parse : jsstring -> Outcome DependenciesCheck.Parsed)
    (spawnIn : jsstring -> Spawn) (spreadOfUndefined : Thrown)
    (root : jsstring) (msg : option jsstring)
    (present : existsSync fs (pathJoin root (js "package.json")) = true)
    (broken : unusable fs JSON_parse (pathJoin root (js "package.json")) msg) :
  DependenciesCheck.checkPackageJson fs JSON_parse
    (pathJoin root (js "package.json"))
    = Returned (unusableResult (pathJoin root (js "package.json")) msg) /\
  DependenciesCheck.run fs JSON_parse spawnIn spreadOfUndefined root
    = DependenciesCheck.Settled (Threw spreadOfUndefined).
Proof.
  pose proof (checkPackageJson_unusable fs JSON_parse _ msg broken) as E.
  split; [exact E|].
  unfold DependenciesCheck.run, DependenciesCheck.rootStep.
  rewrite present, E. reflexivity.
Qed.

Lemma dependencies_run_rejects_on_unusable_root_witness :
  DependenciesCheck.run nullManifestDisk sampleParse quietGit sampleSpread
    sampleRoot = DependenciesCheck.Settled (Threw sampleSpread).
Proof.
  apply (dependencies_run_rejects_on_unusable_root nullManifestDisk sampleParse
           quietGit sampleSpread sampleRoot
           (Some (js "Cannot read properties of null (reading 'dependencies')"))).
  - reflexivity.
  - right. exists manifestNull. split; [reflexivity|].
    right. split; reflexivity.
Defined.

(** X9.  A skill whose manifest exists but cannot be used ends the loop
    over the skills: the skill is counted as checked and failed and gets
    its two details, then [result.fix.map] throws a TypeError on the
    missing [fix], which the handler around the loop turns into a warning.
    The skills after it are not checked and git is not asked, whatever
    they are: the check returns fail, and its message counts one more
    checked manifest than before the skill. *)
Theorem dependencies_unusable_skill_ends_the_loop
    (fs : FileSystem) (JSON_parse : jsstring -> Outcome DependenciesCheck.Parsed)
    (spawnIn : jsstring -> Spawn) (spreadOfUndefined : Thrown)
    (root skill : jsstring) (before after : list jsstring)
    (msg : option jsstring) (st0 st1 : DependenciesCheck.Progress)
    (rootDone :
       DependenciesCheck.rootStep fs JSON_parse spreadOfUndefined root
         = Returned st0)
    (listing :
       readdir fs (pathJoin root (js "skills"))
         = Returned (before ++ skill :: after))
    (earlier :
       DependenciesCheck.skillsLoop fs JSON_parse
         (pathJoin root (js "skills")) before st0 = (st1, None)) :
  let skillPkg :=
    pathJoin (pathJoin (pathJoin root (js "skills")) skill)
      (js "package.json") in
  existsSync fs skillPkg = true ->
  unusable fs JSON_parse skillPkg msg ->
  DependenciesCheck.run fs JSON_parse spawnIn spreadOfUndefined root =
    DependenciesCheck.Settled
      (Returned
         {| Runner.p_name := None;
            Runner.p_status := Some (js "fail");
            Runner.p_duration := None;
            Runner.p_message :=
              Some (js "Dependencies: "
                    ++ lengthToString (DependenciesCheck.passed st1) ++ js "/"
                    ++ lengthToString (S (DependenciesCheck.checked st1))
                    ++ js " package.json checks passed");
            Runner.p_details :=
              Some (DependenciesCheck.details st1
                    ++ [{| Runner.d_status := js "error";
                           Runner.d_message :=
                             skill ++ js "/package.json: Issues found" |};
                        {| Runner.d_status := js "error";
                           Runner.d_message :=
                             js "Failed to check " ++ skillPkg ++ js ": "
                             ++ Runner.interpolate msg |};
                        {| Runner.d_status := js "warning";
                           Runner.d_message :=
                             js "Could not check skills: Cannot read properties of undefined (reading 'map')" |}]);
            Runner.p_error := None;
            Runner.p_stack := None;
            Runner.p_fix := Some (DependenciesCheck.fixes st1) |}).
Proof.
  cbv zeta. intros present broken.
  pose proof (checkPackageJson_unusable fs JSON_parse _ msg broken) as E.
  unfold DependenciesCheck.run. rewrite rootDone, listing.
  rewrite skillsLoop_app, earlier.
  cbn [DependenciesCheck.skillsLoop]. rewrite present, E.
  unfold unusableResult, DependenciesCheck.isPass. cbn [Runner.p_status].
  replace (JS.eqb (js "error") (js "pass")) with false
    by (vm_compute; reflexivity).
  cbn [Runner.p_fix Runner.p_details Runner.p_status
       DependenciesCheck.detailsOf text].
  unfold typeError, newError. cbn [messageOf bind].
  unfold DependenciesCheck.finish, DependenciesCheck.couldNotCheck.
  cbn [DependenciesCheck.details DependenciesCheck.fixes
       DependenciesCheck.checked DependenciesCheck.passed
       DependenciesCheck.failed Runner.interpolate Runner.orElse
       Nat.ltb Nat.leb].
  replace (js "/package.json: " ++ js "Issues found")
    with (js "/package.json: Issues found") by (vm_compute; reflexivity).
  replace (js "Could not check skills: "
           ++ js "Cannot read properties of undefined (reading '"
           ++ js "map" ++ js "')")
    with (js "Could not check skills: Cannot read properties of undefined (reading 'map')")
    by (vm_compute; reflexivity).
  rewrite <- app_assoc. cbn [app]. reflexivity.
Qed.

Lemma dependencies_unusable_skill_ends_the_loop_witness :
  exists r,
    DependenciesCheck.run dependenciesDisk sampleParse quietGit sampleSpread
      sampleRoot = DependenciesCheck.Settled (Returned r) /\
    Runner.p_status r = Some (js "fail") /\
    Runner.p_message r
      = Some (js "Dependencies: 1/3 package.json checks passed").
Proof.
  eexists. split.
  - eapply (dependencies_unusable_skill_ends_the_loop dependenciesDisk
              sampleParse quietGit sampleSpread sampleRoot (js "broken")
              [js "notes"] [js "later"] (Some (js "Unexpected token in JSON"))).
    + vm_compute. reflexivity.
    + reflexivity.
    + vm_compute. reflexivity.
    + reflexivity.
    + right. eexists. split; [reflexivity|]. left. eexists. reflexivity.
  - split; vm_compute; reflexivity.
Defined.

(** X10.  The dependency check asks git for the tracked [node_modules]
    files only after a loop over the skills that no exception ended.  The
    [try] around the call covers a [spawn] that throws, which changes
    nothing in the result; it does not cover the [error] event of a git
    that cannot be started, for which the check has no listener: the check
    ends the process exactly in that case, and settles in every other. *)
Theorem dependencies_run_crashes_exactly_on_git_error
    (fs : FileSystem) (JSON_parse : jsstring -> Outcome DependenciesCheck.Parsed)
    (spawnIn : jsstring -> Spawn) (spreadOfUndefined : Thrown)
    (root : jsstring) :
  let skillsDir := pathJoin root (js "skills") in
  let git :=
    spawnIn root (js "git")
      [js "ls-files"; js "node_modules/"; js "*/*/node_modules/"] in
  (forall msg,
     DependenciesCheck.run fs JSON_parse spawnIn spreadOfUndefined root
       = DependenciesCheck.Crashed msg <->
     git = ErrorEvent msg /\
     exists st0 skills st1,
       DependenciesCheck.rootStep fs JSON_parse spreadOfUndefined root
         = Returned st0 /\
       readdir fs skillsDir = Returned skills /\
       DependenciesCheck.skillsLoop fs JSON_parse skillsDir skills st0
         = (st1, None)) /\
  (forall st0 skills st1 msg,
     DependenciesCheck.rootStep fs JSON_parse spreadOfUndefined root
       = Returned st0 ->
     readdir fs skillsDir = Returned skills ->
     DependenciesCheck.skillsLoop fs JSON_parse skillsDir skills st0
       = (st1, None) ->
     git = Refused msg ->
     DependenciesCheck.run fs JSON_parse spawnIn spreadOfUndefined root
       = DependenciesCheck.Settled (Returned (DependenciesCheck.finish st1))).
Proof.
  cbv zeta. unfold DependenciesCheck.run. split.
  - intros msg.
    destruct (DependenciesCheck.rootStep fs JSON_parse spreadOfUndefined root)
      as [st0|e].
    2:{ split; [discriminate|]. intros [_ [? [? [? [H _]]]]]. discriminate. }
    destruct (readdir fs (pathJoin root (js "skills"))) as [skills|e].
    2:{ split; [discriminate|]. intros [_ [? [? [? [_ [H _]]]]]]. discriminate. }
    destruct (DependenciesCheck.skillsLoop fs JSON_parse
                (pathJoin root (js "skills")) skills st0) as [st1 [e|]] eqn:L.
    { split; [discriminate|].
      intros [_ [st0' [skills' [st1' (E0 & E1 & E2)]]]].
      injection E0 as <-. injection E1 as <-. rewrite L in E2. discriminate. }
    destruct (spawnIn root (js "git") _) as [code out err|m|m].
    + split; [discriminate|]. intros [H _]. discriminate.
    + split.
      * intros [= <-]. split; [reflexivity|]. eauto 7.
      * intros [[= <-] _]. reflexivity.
    + split; [discriminate|]. intros [H _]. discriminate.
  - intros st0 skills st1 msg -> -> -> ->. reflexivity.
Qed.

Lemma dependencies_run_crashes_exactly_on_git_error_witness :
  let disk := diskOf [] [(js "/clawd/skills", [])] in
  DependenciesCheck.run disk sampleParse noGit sampleSpread sampleRoot
    = DependenciesCheck.Crashed (js "spawn git ENOENT") /\
  exists r,
    DependenciesCheck.run disk sampleParse
      (fun _ _ _ => Refused (js "EINVAL")) sampleSpread sampleRoot
      = DependenciesCheck.Settled (Returned r) /\
    Runner.p_status r = Some (js "warning").
Proof.
  intros disk. split.
  - apply (dependencies_run_crashes_exactly_on_git_error disk sampleParse
             noGit sampleSpread sampleRoot).
    split; [reflexivity|].
    eexists. exists []. eexists.
    split; [vm_compute; reflexivity|].
    split; vm_compute; reflexivity.
  - eexists. split.
    + eapply (dependencies_run_crashes_exactly_on_git_error disk sampleParse
                (fun _ _ _ => Refused (js "EINVAL")) sampleSpread sampleRoot).
      * vm_compute. reflexivity.
      * vm_compute. reflexivity.
      * vm_compute. reflexivity.
      * reflexivity.
    + vm_compute. reflexivity.
Defined.

(** ** The log analysis *)

Section LogCategories.
Import Runner LogsCheck.

(** The first pattern, Error: in any case, matches every line that the
    second or the third one matches, so the scan stops at it. *)
Lemma first_category (line : jsstring) (pattern : regex) (category : jsstring) :
  find (fun '(pattern, _) => test pattern line) ERROR_PATTERNS
    = Some (pattern, category) ->
  assignable category.
Proof.
  unfold ERROR_PATTERNS. cbn [find].
  destruct (test (litCI (js "Error:")) line) eqn:General.
  { intros [= <- <-]. split; vm_compute; discriminate. }
  assert (Miss : forall a b, map upperUnit b = map upperUnit (js "Error:") ->
                   test (litCI (a ++ b)) line = false).
  { intros a b Same. destruct (test (litCI (a ++ b)) line) eqn:T; [|reflexivity].
    apply test_matchesIn in T.
    apply (matchesIn_litCI_suffix a b (js "Error:") line Same) in T.
    apply test_matchesIn in T. congruence. }
  replace (js "Fatal error:") with (js "Fatal " ++ js "error:")
    by (vm_compute; reflexivity).
  rewrite (Miss (js "Fatal ") (js "error:")) by (vm_compute; reflexivity).
  replace (js "SyntaxError:") with (js "Syntax" ++ js "Error:")
    by (vm_compute; reflexivity).
  rewrite (Miss (js "Syntax") (js "Error:")) by (vm_compute; reflexivity).
  repeat match goal with
         | |- (if ?c then _ else _) = _ -> _ =>
             destruct c; [intros [= _ <-]; split; vm_compute; discriminate|]
         end.
  discriminate.
Qed.

Lemma pushCategory_keys (P : jsstring -> Prop) (category : jsstring)
    (e : CategoryError) (m : ByCategory) :
  P category -> Forall (fun entry => P (fst entry)) m ->
  Forall (fun entry => P (fst entry)) (pushCategory category e m).
Proof.
  intros Pc. induction m as [|[k es] m IH]; intros F; cbn [pushCategory].
  - constructor; [exact Pc|constructor].
  - inversion F as [|? ? Pk Fm]; subst.
    destruct (JS.eqb k category); constructor; auto.
Qed.

Lemma scanLine_categories
    (st : list LogError * list LogWarning * ByCategory) (line : jsstring) :
  Forall (fun e => assignable (e_category e)) (fst (fst st)) ->
  Forall (fun entry => assignable (fst entry)) (snd st) ->
  Forall (fun e => assignable (e_category e)) (fst (fst (scanLine st line))) /\
  Forall (fun entry => assignable (fst entry)) (snd (scanLine st line)).
Proof.
  destruct st as [[errs warns] byCat]. cbn [fst snd]. intros Fe Fc.
  unfold scanLine.
  destruct (find (fun '(pattern, _) => test pattern line) ERROR_PATTERNS)
    as [[pattern category]|] eqn:Found; cbn [fst snd].
  - apply first_category in Found. split.
    + apply Forall_app. split; [exact Fe|]. constructor; [exact Found|constructor].
    + now apply pushCategory_keys.
  - auto.
Qed.

Lemma fold_scanLine_categories (lines : list jsstring) :
  forall st : list LogError * list LogWarning * ByCategory,
    Forall (fun e => assignable (e_category e)) (fst (fst st)) ->
    Forall (fun entry => assignable (fst entry)) (snd st) ->
    Forall (fun e => assignable (e_category e))
           (fst (fst (fold_left scanLine lines st))) /\
    Forall (fun entry => assignable (fst entry))
           (snd (fold_left scanLine lines st)).
Proof.
  induction lines as [|line lines IH]; intros st Fe Fc; cbn [fold_left].
  - auto.
  - destruct (scanLine_categories st line Fe Fc) as [Fe' Fc']. now apply IH.
Qed.

Lemma scanLine_warnings
    (st : list LogError * list LogWarning * ByCategory) (line : jsstring) :
  Forall (fun w => w_type w = js "path_issue"
                   /\ In (w_message w) (map snd PATH_PATTERNS))
         (snd (fst st)) ->
  Forall (fun w => w_type w = js "path_issue"
                   /\ In (w_message w) (map snd PATH_PATTERNS))
         (snd (fst (scanLine st line))).
Proof.
  destruct st as [[errs warns] byCat]. cbn [fst snd]. intros F.
  unfold scanLine.
  destruct (find (fun '(pattern, _) => test pattern line) ERROR_PATTERNS)
    as [[pattern category]|]; cbn [fst snd];
    (apply Forall_app; split; [exact F|]);
    apply Forall_forall; intros w I; apply in_flat_map in I;
    destruct I as [[p m] [Ip Iw]];
    (destruct (test p line); [|destruct Iw]);
    destruct Iw as [<-|[]]; cbn [w_type w_message];
    (split; [reflexivity|]); apply in_map_iff; exists (p, m); auto.
Qed.

End LogCategories.

Section LogFixes.
Import Runner LogsCheck.

Lemma categoryFixes_without_syntax (entry : jsstring * list CategoryError) :
  assignable (fst entry) -> ~ In syntaxFix (categoryFixes entry).
Proof.
  destruct entry as [category es]. cbn [fst]. intros [_ NotSyntax].
  unfold categoryFixes.
  destruct (0 <? List.length es); [|intros []].
  apply eqb_neq in NotSyntax. rewrite NotSyntax. cbn [app].
  intros I. repeat (apply in_app_or in I; destruct I as [I|I]).
  - destruct (JS.eqb category (js "Module Not Found") && true);
      cbn [In] in I; [|exact I].
    destruct I as [I|[]]. revert I. vm_compute. discriminate.
  - destruct (JS.eqb category (js "Notion Object Not Found"));
      cbn [In] in I; [|exact I].
    destruct I as [I|[]]. revert I. vm_compute. discriminate.
  - destruct (JS.eqb category (js "Telegram Error"));
      cbn [In] in I; [|exact I].
    destruct I as [I|[]]. revert I. vm_compute. discriminate.
Qed.

Lemma warningFixes_without_syntax (warning : LogWarning) :
  ~ In syntaxFix (warningFixes warning).
Proof.
  unfold warningFixes. intros I.
  destruct (JS.eqb (w_type warning) (js "path_issue")
            && includes (js "Duplicate") (w_message warning));
    cbn [In] in I; [|exact I].
  destruct I as [I|[]]. revert I. vm_compute. discriminate.
Qed.

End LogFixes.

(** X11.  The scan of a log never files an error under the categories
    Fatal Error and Syntax Error: every line that the patterns of these
    two match is matched by the first pattern, Error: in any case of
    letters, at which the scan of the line stops.  So the log analysis
    never suggests to fix JavaScript syntax errors, the suggestion kept
    for the category Syntax Error. *)
Theorem logs_never_file_fatal_or_syntax
    (fs : FileSystem) (localeCompare : jsstring -> jsstring -> Z) :
  (forall logPath parsed,
     LogsCheck.parseLogFile fs logPath = Returned parsed ->
     Forall (fun e => assignable (LogsCheck.e_category e))
            (LogsCheck.errors parsed) /\
     forall byCategory,
       LogsCheck.errorsByCategory parsed = Some byCategory ->
       Forall (fun entry => assignable (fst entry)) byCategory) /\
  (forall r fixes,
     LogsCheck.run fs localeCompare = Returned r ->
     Runner.p_fix r = Some fixes -> ~ In syntaxFix fixes).
Proof.
  assert (Parse : forall logPath parsed,
            LogsCheck.parseLogFile fs logPath = Returned parsed ->
            Forall (fun e => assignable (LogsCheck.e_category e))
                   (LogsCheck.errors parsed) /\
            forall byCategory,
              LogsCheck.errorsByCategory parsed = Some byCategory ->
              Forall (fun entry => assignable (fst entry)) byCategory).
  { intros logPath parsed. unfold LogsCheck.parseLogFile.
    destruct (readFile fs logPath) as [content|e]; cbn [bind catch].
    - pose proof (fold_scanLine_categories (splitOn LF content) ([], [], [])
                    (Forall_nil _) (Forall_nil _)) as [Fe Fc].
      destruct (fold_left LogsCheck.scanLine (splitOn LF content) ([], [], []))
        as [[errs warns] byCat].
      cbn [fst snd] in Fe, Fc. cbn [catch].
      intros [= <-]. cbn [LogsCheck.errors LogsCheck.errorsByCategory].
      split; [exact Fe|]. now intros ? [= <-].
    - destruct (messageOf e) as [msg|e']; cbn [bind]; [|discriminate].
      intros [= <-]. cbn [LogsCheck.errors LogsCheck.errorsByCategory].
      split; [constructor|discriminate]. }
  split; [exact Parse|].
  intros r fixes. unfold LogsCheck.run.
  destruct (LogsCheck.getLatestLogFile fs localeCompare) as [logPath|].
  2:{ intros [= <-]. cbn [Runner.p_fix LogsCheck.result]. intros [= <-].
      intros [I|[I|[]]]; revert I; vm_compute; discriminate. }
  destruct (LogsCheck.parseLogFile fs logPath) as [parsed|e] eqn:P;
    cbn [bind]; [|discriminate].
  destruct (Parse logPath parsed P) as [_ Categories].
  destruct (truthyOpt (LogsCheck.parseError parsed)).
  { intros [= <-]. discriminate. }
  destruct (LogsCheck.errorsByCategory parsed) as [byCat|]; [|discriminate].
  specialize (Categories byCat eq_refl).
  intros [= <-]. unfold LogsCheck.result. cbn [Runner.p_fix].
  match goal with
  | |- match ?f with [] => None | _ => _ end = _ -> _ =>
      assert (Clean : ~ In syntaxFix f); [|destruct f; [discriminate|]]
  end.
  - intros I. apply in_app_or in I. destruct I as [I|I].
    + apply in_flat_map in I. destruct I as [entry [Ie If]].
      rewrite Forall_forall in Categories.
      exact (categoryFixes_without_syntax entry (Categories entry Ie) If).
    + apply in_flat_map in I. destruct I as [warning [_ If]].
      exact (warningFixes_without_syntax warning If).
  - now intros [= <-].
Qed.

Lemma logs_never_file_fatal_or_syntax_witness :
  exists parsed,
    LogsCheck.parseLogFile (logDisk syntaxErrorLog)
      (js "/tmp/clawdbot/clawdbot-2026-01-05.log") = Returned parsed /\
    map LogsCheck.e_category (LogsCheck.errors parsed) = [js "General Error"] /\
    Forall (fun e => assignable (LogsCheck.e_category e))
      (LogsCheck.errors parsed).
Proof.
  set (parsed :=
         {| LogsCheck.errors :=
              [{| LogsCheck.e_category := js "General Error";
                  LogsCheck.e_timestamp := js "08:30:02";
                  LogsCheck.e_message := js "Unexpected token" |}];
            LogsCheck.warnings := [];
            LogsCheck.errorsByCategory :=
              Some [(js "General Error",
                     [{| LogsCheck.c_timestamp := js "08:30:02";
                         LogsCheck.c_message := js "Unexpected token";
                         LogsCheck.c_fullLine := syntaxErrorLog |}])];
            LogsCheck.parseError := None |}).
  assert (P : LogsCheck.parseLogFile (logDisk syntaxErrorLog)
                (js "/tmp/clawdbot/clawdbot-2026-01-05.log") = Returned parsed)
    by (vm_compute; reflexivity).
  exists parsed. split; [exact P|]. split; [reflexivity|].
  exact (proj1 (proj1 (logs_never_file_fatal_or_syntax
                          (logDisk syntaxErrorLog) compareUnits)
                  (js "/tmp/clawdbot/clawdbot-2026-01-05.log") parsed P)).
Defined.
